(** * C-SKY I2S controller: clock-divider configuration

    A shallow embedding of the clock-divider part of
    [sound/soc/csky/csky-i2s.c]: the four divider calculators
    ([csky_i2s_calc_mclk_div], [csky_i2s_calc_fs_div],
    [csky_i2s_calc_sclk_div], [csky_i2s_calc_refclk_div]), the fixed
    S/PDIF divider and the orchestrating [csky_i2s_set_clk_rate].

    The C functions work on a [struct csky_i2s *]: they read and write its
    fields, print diagnostics on [i2s->dev] and write divider registers
    through [i2s->regs].  They are embedded as computations in a small
    state monad over that structure; a computation yields [None] exactly
    where the C program would have undefined behaviour (a division by
    zero, a signed overflow). *)

From Stdlib Require Import ZArith List Bool Lia.
Import ListNotations.
Local Open Scope Z_scope.

(** ** 32-bit C arithmetic *)

Module C32.

Definition modulus : Z := 2 ^ 32.
Definition int_max : Z := 2 ^ 31 - 1.
Definition int_min : Z := - 2 ^ 31.

(** Conversion to [unsigned int]: reduction modulo [2^32]. *)
Definition u32 (z : Z) : Z := z mod modulus.

(** Conversion of an [unsigned int] value to [int], as gcc defines it:
    the value is reduced modulo [2^32] into the range of [int]. *)
Definition s32 (z : Z) : Z :=
  let m := z mod modulus in
  if m <=? int_max then m else m - modulus.

Definition is_u32 (z : Z) : Prop := 0 <= z < modulus.
Definition is_s32 (z : Z) : Prop := int_min <= z <= int_max.

(** [a / b] and [a % b] on [unsigned int]; undefined for [b = 0]. *)
Definition udiv (a b : Z) : option Z :=
  if b =? 0 then None else Some (a / b).
Definition umod (a b : Z) : option Z :=
  if b =? 0 then None else Some (a mod b).

(** [a * b], [a + b] and [a - b] on [unsigned int] wrap around. *)
Definition umul (a b : Z) : Z := u32 (a * b).
Definition usub (a b : Z) : Z := u32 (a - b).

(** [a + b] and [a * b] on [int]; undefined when the result does not
    fit. *)
Definition sadd (a b : Z) : option Z :=
  let r := a + b in
  if (int_min <=? r) && (r <=? int_max) then Some r else None.
Definition smul (a b : Z) : option Z :=
  let r := a * b in
  if (int_min <=? r) && (r <=? int_max) then Some r else None.

End C32.
Import C32.

(** [EINVAL] of the kernel's [errno-base.h]. *)
Definition EINVAL : Z := 22.

(** ** Data model *)

(** The DAI formats that [csky_i2s_set_fmt] stores in [audio_fmt]; it
    rejects every other format before the assignment, and the probe
    function initialises the field to [SND_SOC_DAIFMT_I2S]. *)
Inductive audio_format : Type :=
| SND_SOC_DAIFMT_I2S
| SND_SOC_DAIFMT_RIGHT_J
| SND_SOC_DAIFMT_LEFT_J.

(** The divider registers written by [csky_i2s_set_clk_rate]. *)
Inductive divider_reg : Type :=
| IIS_DIV0_LEVEL
| IIS_DIV1_LEVEL
| IIS_DIV2_LEVEL
| IIS_DIV3_LEVEL
| IIS_DIV4_LEVEL.

(** The diagnostics printed with [dev_err] by [csky_i2s_calc_mclk_div],
    one constructor per format string, with the printed arguments. *)
Inductive dev_msg : Type :=
| ERR_mclk_not_multiple_of_fs
| ERR_invalid_mclk_fs_div (mclk_fs_div : Z)
| ERR_mclk_ne_8_sclk
| ERR_mclk_ne_4_sclk
| ERR_mclk_mismatch (expected got : Z).

(** The error kinds the specification distinguishes.  The C code returns
    [-EINVAL] for each of them; the diagnostic tells them apart. *)
Inductive error_kind : Type :=
| UnsupportedRateError
| ClockRatioError
| InvalidRatioError
| ClockMismatchError.

Definition kind_of_msg (m : dev_msg) : error_kind :=
  match m with
  | ERR_mclk_not_multiple_of_fs => ClockRatioError
  | ERR_invalid_mclk_fs_div _ => InvalidRatioError
  | ERR_mclk_ne_8_sclk => InvalidRatioError
  | ERR_mclk_ne_4_sclk => InvalidRatioError
  | ERR_mclk_mismatch _ _ => ClockMismatchError
  end.

(** Modelled from the spec: [struct csky_i2s] is declared in
    [csky-i2s.h], which is not part of the sources at hand.  The record
    has the fields the clock code uses, typed as their uses require
    ([src_clk] and [sclk_fs_divider] are filled by
    [of_property_read_u32], the others are assigned from and compared
    with [unsigned int] values).  [params] is flattened to its single
    member.  Three fields stand for the objects the structure points to:
    [i2s_clk] is [None] when [IS_ERR_OR_NULL (i2s->i2s_clk)] and otherwise
    holds the state of the clock, [dev] collects the diagnostics printed
    on [i2s->dev] (oldest first), and [regs] collects the writes made to
    the divider registers behind [i2s->regs] (oldest first). *)
Record csky_i2s (clk : Type) : Type := Build_csky_i2s {
  has_mclk_sclk_div : bool;
  i2s_clk : option clk;
  src_clk : Z;
  clk_fs_44k : Z;
  clk_fs_48k : Z;
  mclk : Z;
  sample_rate : Z;
  audio_fmt : audio_format;
  sclk_fs_divider : Z;
  mclk_fs_divider : Z;
  dev : list dev_msg;
  regs : list (divider_reg * Z)
}.

Arguments Build_csky_i2s {clk}.
Arguments has_mclk_sclk_div {clk}.
Arguments i2s_clk {clk}.
Arguments src_clk {clk}.
Arguments clk_fs_44k {clk}.
Arguments clk_fs_48k {clk}.
Arguments mclk {clk}.
Arguments sample_rate {clk}.
Arguments audio_fmt {clk}.
Arguments sclk_fs_divider {clk}.
Arguments mclk_fs_divider {clk}.
Arguments dev {clk}.
Arguments regs {clk}.

(** The two hardware generations, [params_csky_i2s_v1] and
    [params_csky_i2s_v1_1]. *)
Definition params_csky_i2s_v1 : bool := false.
Definition params_csky_i2s_v1_1 : bool := true.

Section Model.

(** The kernel's common clock framework is outside the driver: the
    state of a clock, [clk_set_rate] (new state and returned status) and
    [clk_get_rate] are parameters of the model. *)
Context {clk : Type}.
Variable clk_set_rate : clk -> Z -> clk * Z.
Variable clk_get_rate : clk -> Z.

Local Abbreviation i2s_t := (csky_i2s clk).

(** *** Field assignments *)

Definition set_i2s_clk (c : option clk) (s : i2s_t) : i2s_t :=
  Build_csky_i2s (has_mclk_sclk_div s) c (src_clk s) (clk_fs_44k s)
    (clk_fs_48k s) (mclk s) (sample_rate s) (audio_fmt s)
    (sclk_fs_divider s) (mclk_fs_divider s) (dev s) (regs s).

Definition set_src_clk (v : Z) (s : i2s_t) : i2s_t :=
  Build_csky_i2s (has_mclk_sclk_div s) (i2s_clk s) v (clk_fs_44k s)
    (clk_fs_48k s) (mclk s) (sample_rate s) (audio_fmt s)
    (sclk_fs_divider s) (mclk_fs_divider s) (dev s) (regs s).

Definition set_mclk (v : Z) (s : i2s_t) : i2s_t :=
  Build_csky_i2s (has_mclk_sclk_div s) (i2s_clk s) (src_clk s)
    (clk_fs_44k s) (clk_fs_48k s) v (sample_rate s) (audio_fmt s)
    (sclk_fs_divider s) (mclk_fs_divider s) (dev s) (regs s).

Definition set_sample_rate (v : Z) (s : i2s_t) : i2s_t :=
  Build_csky_i2s (has_mclk_sclk_div s) (i2s_clk s) (src_clk s)
    (clk_fs_44k s) (clk_fs_48k s) (mclk s) v (audio_fmt s)
    (sclk_fs_divider s) (mclk_fs_divider s) (dev s) (regs s).

Definition set_sclk_fs_divider (v : Z) (s : i2s_t) : i2s_t :=
  Build_csky_i2s (has_mclk_sclk_div s) (i2s_clk s) (src_clk s)
    (clk_fs_44k s) (clk_fs_48k s) (mclk s) (sample_rate s) (audio_fmt s)
    v (mclk_fs_divider s) (dev s) (regs s).

Definition set_mclk_fs_divider (v : Z) (s : i2s_t) : i2s_t :=
  Build_csky_i2s (has_mclk_sclk_div s) (i2s_clk s) (src_clk s)
    (clk_fs_44k s) (clk_fs_48k s) (mclk s) (sample_rate s) (audio_fmt s)
    (sclk_fs_divider s) v (dev s) (regs s).

Definition set_dev (l : list dev_msg) (s : i2s_t) : i2s_t :=
  Build_csky_i2s (has_mclk_sclk_div s) (i2s_clk s) (src_clk s)
    (clk_fs_44k s) (clk_fs_48k s) (mclk s) (sample_rate s) (audio_fmt s)
    (sclk_fs_divider s) (mclk_fs_divider s) l (regs s).

Definition set_regs (l : list (divider_reg * Z)) (s : i2s_t) : i2s_t :=
  Build_csky_i2s (has_mclk_sclk_div s) (i2s_clk s) (src_clk s)
    (clk_fs_44k s) (clk_fs_48k s) (mclk s) (sample_rate s) (audio_fmt s)
    (sclk_fs_divider s) (mclk_fs_divider s) (dev s) l.

(** *** The monad of driver code

    A computation takes the structure and yields a value and the
    updated structure, or [None] for undefined behaviour. *)

Definition M (A : Type) : Type := i2s_t -> option (A * i2s_t).

Definition ret {A} (a : A) : M A := fun s => Some (a, s).

Definition bind {A B} (c : M A) (k : A -> M B) : M B :=
  fun s => match c s with
           | Some (a, s') => k a s'
           | None => None
           end.

Definition gets {A} (f : i2s_t -> A) : M A := fun s => Some (f s, s).

Definition modify (f : i2s_t -> i2s_t) : M unit :=
  fun s => Some (tt, f s).

(** Lifting of a partial C operation: [None] is undefined behaviour. *)
Definition defined {A} (o : option A) : M A :=
  fun s => match o with
           | Some a => Some (a, s)
           | None => None
           end.

Notation "x <- c ;; k" := (bind c (fun x => k))
  (at level 61, c at next level, right associativity).
Notation "c ;;; k" := (bind c (fun _ => k))
  (at level 61, right associativity).

(** [dev_err (i2s->dev, ...)]. *)
Definition log_msg (m : dev_msg) (s : i2s_t) : i2s_t :=
  set_dev (dev s ++ [m]) s.

Definition dev_err (m : dev_msg) : M unit := modify (log_msg m).

(** Modelled from the spec: [csky_i2s_writel] is defined in
    [csky-i2s.h], which is not part of the sources at hand; the
    specification only says that the divider values are written to their
    registers.  The write of the 32-bit value [val] is recorded. *)
Definition write_reg (r : divider_reg) (val : Z) (s : i2s_t) : i2s_t :=
  set_regs (regs s ++ [(r, u32 val)]) s.

Definition csky_i2s_writel (r : divider_reg) (val : Z) : M unit :=
  modify (write_reg r val).

(** *** [csky_i2s_calc_mclk_div] *)

(** The generation-specific check of [mclk_fs_div]: the diagnostic of
    the branch that rejects it, if one does. *)
Definition mclk_fs_div_check (s : i2s_t) (mclk_fs_div : Z)
  : option dev_msg :=
  if has_mclk_sclk_div s then
    if negb (mclk_fs_div =? 256) && negb (mclk_fs_div =? 384) &&
       negb (mclk_fs_div =? 512) && negb (mclk_fs_div =? 768)
    then Some (ERR_invalid_mclk_fs_div mclk_fs_div)
    else None
  else
    match audio_fmt s with
    | SND_SOC_DAIFMT_I2S | SND_SOC_DAIFMT_LEFT_J =>
        if negb (mclk_fs_div =? umul 8 (sclk_fs_divider s))
        then Some ERR_mclk_ne_8_sclk else None
    | SND_SOC_DAIFMT_RIGHT_J =>
        if negb (mclk_fs_div =? umul 4 (sclk_fs_divider s))
        then Some ERR_mclk_ne_4_sclk else None
    end.

Definition csky_i2s_calc_mclk_div (rate word_size : Z) : M Z :=
  mclk <- gets mclk ;;
  rem <- defined (umod mclk rate) ;;
  if negb (rem =? 0) then
    dev_err ERR_mclk_not_multiple_of_fs ;;;
    ret (- EINVAL)
  else
    mclk_fs_div <- defined (udiv mclk rate) ;;
    chk <- gets (fun s => mclk_fs_div_check s mclk_fs_div) ;;
    match chk with
    | Some msg => dev_err msg ;;; ret (- EINVAL)
    | None =>
        modify (set_mclk_fs_divider mclk_fs_div) ;;;
        src_clk <- gets src_clk ;;
        q <- defined (udiv (src_clk / 2) mclk) ;;
        let div := s32 (usub q 1) in
        if 0 <=? div then
          d1 <- defined (sadd div 1) ;;
          d2 <- defined (smul 2 d1) ;;
          tmp <- defined (udiv src_clk (u32 d2)) ;;
          if negb (tmp =? mclk) then
            dev_err (ERR_mclk_mismatch mclk tmp) ;;;
            ret (- EINVAL)
          else ret div
        else ret div
    end.

(** *** [csky_i2s_calc_spdifclk_div] *)

Definition csky_i2s_calc_spdifclk_div (rate word_size : Z) : M Z :=
  ret 17.

(** *** [csky_i2s_calc_fs_div] *)

Definition csky_i2s_calc_fs_div (word_size : Z) : M Z :=
  let multi := 64 in
  modify (set_sclk_fs_divider multi) ;;;
  ret (s32 (usub (multi / 2) 1)).

(** *** [csky_i2s_calc_sclk_div] *)

Definition csky_i2s_calc_sclk_div : M Z :=
  m <- gets mclk_fs_divider ;;
  d <- gets sclk_fs_divider ;;
  multi <- defined (udiv m d) ;;
  ret (s32 (usub (multi / 2) 1)).

(** *** [csky_i2s_calc_refclk_div] *)

(** The [switch] on the rate: the reference clock of its domain. *)
Definition ref_clk_of_rate (rate : Z) : option Z :=
  if (rate =? 8000) || (rate =? 16000) || (rate =? 32000) ||
     (rate =? 48000) || (rate =? 96000) then Some 3072000
  else if (rate =? 11025) || (rate =? 22050) || (rate =? 44100) ||
          (rate =? 88200) then Some 2116800
  else None.

Definition csky_i2s_calc_refclk_div (rate : Z) : M Z :=
  match ref_clk_of_rate rate with
  | None => ret (- EINVAL)
  | Some ref_clk =>
      src_clk <- gets src_clk ;;
      q <- defined (udiv (src_clk / 2) ref_clk) ;;
      ret (s32 (usub q 1))
  end.

(** *** [csky_i2s_set_clk_rate] *)

(** One arm of the first [switch]: set the controller's clock to
    [target], and on success read the source clock back.  The result is
    [Some r] when the function returns [r] at this point. *)
Definition retarget_i2s_clk (c : clk) (target : Z) : M (option Z) :=
  let (c', r) := clk_set_rate c target in
  modify (set_i2s_clk (Some c')) ;;;
  if negb (r =? 0) then ret (Some r)
  else
    modify (set_src_clk (u32 (clk_get_rate c'))) ;;;
    ret None.

(** The part of [csky_i2s_set_clk_rate] before the assignment of
    [sample_rate]: when the controller has a clock of its own, that
    clock is set for the family of the rate. *)
Definition select_i2s_clk (rate : Z) : M (option Z) :=
  c <- gets i2s_clk ;;
  match c with
  | None => ret None
  | Some c =>
      if (rate =? 8000) || (rate =? 16000) || (rate =? 32000) ||
         (rate =? 48000) || (rate =? 96000) then
        f <- gets clk_fs_48k ;; retarget_i2s_clk c f
      else if (rate =? 11025) || (rate =? 22050) || (rate =? 44100) ||
              (rate =? 88200) then
        f <- gets clk_fs_44k ;; retarget_i2s_clk c f
      else ret (Some (- EINVAL))
  end.

(** The part from the assignment of [sample_rate] on: the calculators
    in the order of the code, then the register writes.  The C variable
    [sclk_div] is assigned, tested and written only on generation v1.1;
    on v1 it is never read, and stands as 0 here. *)
Definition program_dividers (rate word_size : Z) : M Z :=
  modify (set_sample_rate rate) ;;;
  fs_div <- csky_i2s_calc_fs_div word_size ;;
  if fs_div <? 0 then ret (- EINVAL) else
  mclk_div <- csky_i2s_calc_mclk_div rate word_size ;;
  if mclk_div <? 0 then ret (- EINVAL) else
  has <- gets has_mclk_sclk_div ;;
  sclk_div <- (if has then csky_i2s_calc_sclk_div else ret 0) ;;
  if has && (sclk_div <? 0) then ret (- EINVAL) else
  spdifclk_div <- csky_i2s_calc_spdifclk_div rate word_size ;;
  if spdifclk_div <? 0 then ret (- EINVAL) else
  refclk_div <- csky_i2s_calc_refclk_div rate ;;
  if refclk_div <? 0 then ret (- EINVAL) else
  csky_i2s_writel IIS_DIV0_LEVEL mclk_div ;;;
  csky_i2s_writel IIS_DIV1_LEVEL spdifclk_div ;;;
  csky_i2s_writel IIS_DIV2_LEVEL fs_div ;;;
  csky_i2s_writel IIS_DIV3_LEVEL refclk_div ;;;
  (if has then csky_i2s_writel IIS_DIV4_LEVEL sclk_div else ret tt) ;;;
  ret 0.

Definition csky_i2s_set_clk_rate (rate word_size : Z) : M Z :=
  early <- select_i2s_clk rate ;;
  match early with
  | Some r => ret r
  | None => program_dividers rate word_size
  end.

(** *** [csky_i2s_set_dai_sysclk] *)

Definition csky_i2s_set_dai_sysclk (freq : Z) : M Z :=
  modify (set_mclk freq) ;;;
  ret 0.

End Model.


(** ** Vocabulary of the statements *)

Section Vocabulary.

Context {clk : Type}.

(** The fields of the structure that hold [unsigned int] values read by
    the divider arithmetic. *)
Definition wf_i2s (s : csky_i2s clk) : Prop :=
  is_u32 (src_clk s) /\ is_u32 (mclk s).

(** The diagnostics printed between the states [s] and [s']. *)
Definition emitted (s s' : csky_i2s clk) : list dev_msg :=
  skipn (length (dev s)) (dev s').

(** The ratios of master clock to sample rate that generation v1.1
    admits. *)
Definition v1_1_ratio (r : Z) : Prop :=
  r = 256 \/ r = 384 \/ r = 512 \/ r = 768.

(** The fixed ratio of master clock to serial clock of generation v1. *)
Definition v1_mclk_sclk_ratio (f : audio_format) : Z :=
  match f with
  | SND_SOC_DAIFMT_I2S | SND_SOC_DAIFMT_LEFT_J => 8
  | SND_SOC_DAIFMT_RIGHT_J => 4
  end.

(** The two rate families of the reference-clock table. *)
Definition rate_48k_family (rate : Z) : Prop :=
  rate = 8000 \/ rate = 16000 \/ rate = 32000 \/ rate = 48000 \/
  rate = 96000.

Definition rate_44k_family (rate : Z) : Prop :=
  rate = 11025 \/ rate = 22050 \/ rate = 44100 \/ rate = 88200.


(** The divider arithmetic of [csky_i2s_calc_mclk_div] after the ratio
    has been stored, for a master clock of at least 4: no operation is
    undefined, and the outcome is decided by the round trip. *)
Definition mclk_div_outcome s : Z * csky_i2s clk :=
  let q := src_clk s / 2 / mclk s in
  if q =? 0 then (-1, s)
  else if src_clk s / (2 * q) =? mclk s then (q - 1, s)
  else (- EINVAL, log_msg (ERR_mclk_mismatch (mclk s) (src_clk s / (2 * q))) s).

(** The structure as [csky_i2s_calc_mclk_div] finds it in a request that
    continues from the state [s]: the rate is recorded and the frame-sync
    calculator has run. *)
Definition after_fs (rate : Z) (s : csky_i2s clk) : csky_i2s clk :=
  set_sclk_fs_divider 64 (set_sample_rate rate s).

(** The divider writes in the order of [csky_i2s_set_clk_rate]. *)
Definition write_dividers (has : bool) (mclk_div refclk_div sclk_div : Z)
  (s : csky_i2s clk) : csky_i2s clk :=
  let s := write_reg IIS_DIV0_LEVEL mclk_div s in
  let s := write_reg IIS_DIV1_LEVEL 17 s in
  let s := write_reg IIS_DIV2_LEVEL 31 s in
  let s := write_reg IIS_DIV3_LEVEL refclk_div s in
  if has then write_reg IIS_DIV4_LEVEL sclk_div s else s.

End Vocabulary.

(** Concrete clock for the examples: its state is its rate, and setting
    a rate always succeeds. *)
Definition fixed_clk_set_rate (c : Z) (r : Z) : Z * Z := (r, 0).
Definition fixed_clk_get_rate (c : Z) : Z := c.

(** A clock that refuses every new rate with [-EINVAL]. *)
Definition stuck_clk_set_rate (c : Z) (r : Z) : Z * Z := (c, - EINVAL).

(** ** Example states

    A controller without a clock of its own (the source clock comes from
    the [clock-frequency] property) before its first request: no rate
    has been recorded and nothing has been printed or written. *)
Definition probed (has : bool) (fmt : audio_format) (src mclk sclk_fs : Z)
  : csky_i2s Z :=
  Build_csky_i2s has None src 0 0 mclk 0 fmt sclk_fs 0 [] [].

(** Generation v1.1, 24.576 MHz source, 12.288 MHz master clock: the
    end-to-end example of the specification for 48 kHz. *)
Definition v1_1_48k : csky_i2s Z :=
  probed params_csky_i2s_v1_1 SND_SOC_DAIFMT_I2S 24576000 12288000 0.

(** The same controller with a master clock of 10 MHz, which is not a
    multiple of 48 kHz. *)
Definition v1_1_10mhz : csky_i2s Z :=
  probed params_csky_i2s_v1_1 SND_SOC_DAIFMT_I2S 24576000 10000000 0.

(** The same controller with a master clock of 100 * 48 kHz. *)
Definition v1_1_ratio_100 : csky_i2s Z :=
  probed params_csky_i2s_v1_1 SND_SOC_DAIFMT_I2S 24576000 4800000 0.

(** The same controller with the master clock 256 * 44.1 kHz, which the
    24.576 MHz source cannot produce. *)
Definition v1_1_44k1 : csky_i2s Z :=
  probed params_csky_i2s_v1_1 SND_SOC_DAIFMT_I2S 24576000 11289600 0.

(** Generation v1.1 with a source clock equal to the master clock. *)
Definition v1_1_slow_src : csky_i2s Z :=
  probed params_csky_i2s_v1_1 SND_SOC_DAIFMT_I2S 12288000 12288000 0.

(** Generation v1, 49.152 MHz source, master clock 512 * 48 kHz, with an
    [sclk-fs-divider] property of 32. *)
Definition v1_48k : csky_i2s Z :=
  probed params_csky_i2s_v1 SND_SOC_DAIFMT_I2S 49152000 24576000 32.

(** The same controller during a request: [sclk_fs_divider] is 64. *)
Definition v1_48k_fs64 : csky_i2s Z :=
  probed params_csky_i2s_v1 SND_SOC_DAIFMT_I2S 49152000 24576000 64.

(** The same with a master clock of 256 * 48 kHz, a quarter of what
    the I2S format needs. *)
Definition v1_ratio_256 : csky_i2s Z :=
  probed params_csky_i2s_v1 SND_SOC_DAIFMT_I2S 49152000 12288000 64.

(** Generation v1 during a request, with a master clock of 10 MHz,
    which is not a multiple of 48 kHz. *)
Definition v1_10mhz_fs64 : csky_i2s Z :=
  probed params_csky_i2s_v1 SND_SOC_DAIFMT_I2S 49152000 10000000 64.

(** A controller with a clock of its own, running at 44.1 kHz. *)
Definition v1_1_own_clk : csky_i2s Z :=
  Build_csky_i2s params_csky_i2s_v1_1 (Some 22579200) 22579200
    22579200 24576000 11289600 44100 SND_SOC_DAIFMT_I2S 64 256 [] [].

(** ** The request as a plan

    What a request does once the clock selection lets it continue is
    decided by five values: the generation, the format, the source clock,
    the master clock and the rate.  [request_plan] computes, from these
    alone, the value returned, the ratio stored (if any), the diagnostic
    printed (if any) and the registers written; [apply_plan] carries a
    plan out on a structure. *)

Record plan : Type := Build_plan {
  plan_ret : Z;
  plan_ratio : option Z;
  plan_msgs : list dev_msg;
  plan_writes : list (divider_reg * Z)
}.

(** The ratios of master clock to sample rate that pass the
    generation-specific check when [sclk_fs_divider] is 64. *)
Definition ratio_admitted (has : bool) (fmt : audio_format) (r : Z) : bool :=
  if has then (r =? 256) || (r =? 384) || (r =? 512) || (r =? 768)
  else r =? 64 * v1_mclk_sclk_ratio fmt.

Definition ratio_error (has : bool) (fmt : audio_format) (r : Z) : dev_msg :=
  if has then ERR_invalid_mclk_fs_div r
  else match fmt with
       | SND_SOC_DAIFMT_RIGHT_J => ERR_mclk_ne_4_sclk
       | _ => ERR_mclk_ne_8_sclk
       end.

Definition request_plan (has : bool) (fmt : audio_format)
  (src mclk rate : Z) : plan :=
  if negb (mclk mod rate =? 0)
  then Build_plan (- EINVAL) None [ERR_mclk_not_multiple_of_fs] []
  else
    let r := mclk / rate in
    if negb (ratio_admitted has fmt r)
    then Build_plan (- EINVAL) None [ratio_error has fmt r] []
    else
      let q := src / (2 * mclk) in
      if q =? 0 then Build_plan (- EINVAL) (Some r) [] []
      else if negb (src / (2 * q) =? mclk)
      then Build_plan (- EINVAL) (Some r)
             [ERR_mclk_mismatch mclk (src / (2 * q))] []
      else
        match ref_clk_of_rate rate with
        | None => Build_plan (- EINVAL) (Some r) [] []
        | Some ref =>
            let d3 := src / (2 * ref) - 1 in
            if d3 <? 0 then Build_plan (- EINVAL) (Some r) [] []
            else Build_plan 0 (Some r) []
                   ([ (IIS_DIV0_LEVEL, q - 1); (IIS_DIV1_LEVEL, 17);
                      (IIS_DIV2_LEVEL, 31); (IIS_DIV3_LEVEL, d3) ] ++
                    (if has then [ (IIS_DIV4_LEVEL, r / 64 / 2 - 1) ]
                     else []))
        end.

Definition apply_plan {clk : Type} (rate : Z) (p : plan)
  (s : csky_i2s clk) : csky_i2s clk :=
  let s := after_fs rate s in
  let s := match plan_ratio p with
           | Some r => set_mclk_fs_divider r s
           | None => s
           end in
  let s := fold_left (fun s m => log_msg m s) (plan_msgs p) s in
  fold_left (fun s w => write_reg (fst w) (snd w) s) (plan_writes p) s.

(** The plan of a request that continues from the state [s]. *)
Definition plan_of {clk : Type} (rate : Z) (s : csky_i2s clk) : plan :=
  request_plan (has_mclk_sclk_div s) (audio_fmt s) (src_clk s) (mclk s)
    rate.

(** The fields a request reads and never writes are the same in [s] and
    [s']. *)
Definition same_clock_inputs {clk : Type} (s s' : csky_i2s clk) : Prop :=
  has_mclk_sclk_div s' = has_mclk_sclk_div s /\
  audio_fmt s' = audio_fmt s /\
  mclk s' = mclk s /\
  clk_fs_44k s' = clk_fs_44k s /\
  clk_fs_48k s' = clk_fs_48k s.

(** The clock that a divider register holding [n] makes of the clock
    [c], as the comments of the calculators have it
    ([div = src_clk / (2 * mclk) - 1]). *)
Definition divided (c n : Z) : Z := c / (2 * (n + 1)).

(** The registers written between the states [s] and [s']. *)
Definition written {clk : Type} (s s' : csky_i2s clk)
  : list (divider_reg * Z) :=
  skipn (length (regs s)) (regs s').

(** ** The stream callbacks

    [csky_i2s_hw_params], [csky_i2s_trigger] and the two functions it
    calls work on more of the structure than the clock code does. *)

(** The control registers these functions write. *)
Inductive ctl_reg : Type :=
| IIS_AUDIOEN
| IIS_IMR
| IIS_DMACR
| IIS_FSSTA.

(** [substream->stream]. *)
Inductive pcm_stream : Type :=
| SNDRV_PCM_STREAM_PLAYBACK
| SNDRV_PCM_STREAM_CAPTURE.

(** The commands [csky_i2s_trigger] names in its [switch]; every other
    value of [cmd] is [SNDRV_PCM_TRIGGER_other]. *)
Inductive trigger_cmd : Type :=
| SNDRV_PCM_TRIGGER_STOP
| SNDRV_PCM_TRIGGER_START
| SNDRV_PCM_TRIGGER_PAUSE_PUSH
| SNDRV_PCM_TRIGGER_PAUSE_RELEASE
| SNDRV_PCM_TRIGGER_SUSPEND
| SNDRV_PCM_TRIGGER_RESUME
| SNDRV_PCM_TRIGGER_other.

(** [enum dma_slave_buswidth] of the kernel's [dmaengine.h]. *)
Definition DMA_SLAVE_BUSWIDTH_2_BYTES : Z := 2.
Definition DMA_SLAVE_BUSWIDTH_3_BYTES : Z := 3.
Definition DMA_SLAVE_BUSWIDTH_4_BYTES : Z := 4.

(** Modelled from the spec: [struct csky_i2s] is declared in
    [csky-i2s.h], which is not part of the sources at hand, and the
    specification leaves the stream callbacks out.  The record adds, to
    the part of the structure the clock code uses, the fields the stream
    callbacks use, typed as their uses require: [use_pio],
    [config_hdmi] and [playback_dma_data.addr_width].  Two fields stand
    for effects outside the structure: [ctl] collects the writes to the
    control registers behind [i2s->regs] (oldest first) and [hdmi] the
    calls of [csky_hdmi_audio_config] with their arguments (oldest
    first). *)
Record csky_i2s_stream (clk : Type) : Type := Build_csky_i2s_stream {
  clock : csky_i2s clk;
  use_pio : bool;
  config_hdmi : Z;
  addr_width : Z;
  ctl : list (ctl_reg * Z);
  hdmi : list (Z * audio_format)
}.

Arguments Build_csky_i2s_stream {clk}.
Arguments clock {clk}.
Arguments use_pio {clk}.
Arguments config_hdmi {clk}.
Arguments addr_width {clk}.
Arguments ctl {clk}.
Arguments hdmi {clk}.

Section Stream.

Context {clk : Type}.
Variable clk_set_rate : clk -> Z -> clk * Z.
Variable clk_get_rate : clk -> Z.

(** The register constants of [csky-i2s.h], which is not part of the
    sources at hand, are parameters. *)
Variable FSSTA_RES_MASK : Z.
Variable FSSTA_RES_SHIFT : Z.
Variable FSSTA_RES16_FIFO16 : Z.
Variable FSSTA_RES24_FIFO24 : Z.
Variable IIS_FIFOINT_TX_FIFO_EMPTY : Z.
Variable DMACR_EN_TX_DMA : Z.
Variable AUDIOEN_IIS_EN : Z.

(** Whether the kernel is configured with [CONFIG_CSKY_HDMI]. *)
Variable CONFIG_CSKY_HDMI : bool.

Local Abbreviation stream_t := (csky_i2s_stream clk).

Definition set_clock (c : csky_i2s clk) (d : stream_t) : stream_t :=
  Build_csky_i2s_stream c (use_pio d) (config_hdmi d) (addr_width d)
    (ctl d) (hdmi d).

Definition set_addr_width (w : Z) (d : stream_t) : stream_t :=
  Build_csky_i2s_stream (clock d) (use_pio d) (config_hdmi d) w
    (ctl d) (hdmi d).

Definition set_ctl (l : list (ctl_reg * Z)) (d : stream_t) : stream_t :=
  Build_csky_i2s_stream (clock d) (use_pio d) (config_hdmi d)
    (addr_width d) l (hdmi d).

Definition set_hdmi (l : list (Z * audio_format)) (d : stream_t)
  : stream_t :=
  Build_csky_i2s_stream (clock d) (use_pio d) (config_hdmi d)
    (addr_width d) (ctl d) l.

(** The monad of the stream callbacks, and the clock code within it. *)
Definition D (A : Type) : Type := stream_t -> option (A * stream_t).

Definition dret {A} (a : A) : D A := fun d => Some (a, d).

Definition dbind {A B} (c : D A) (k : A -> D B) : D B :=
  fun d => match c d with
           | Some (a, d') => k a d'
           | None => None
           end.

Definition dgets {A} (f : stream_t -> A) : D A := fun d => Some (f d, d).

Definition dmodify (f : stream_t -> stream_t) : D unit :=
  fun d => Some (tt, f d).

Definition on_clock {A} (c : M A) : D A :=
  fun d => match c (clock d) with
           | Some (a, s') => Some (a, set_clock s' d)
           | None => None
           end.

Notation "x <- c ;; k" := (dbind c (fun x => k))
  (at level 61, c at next level, right associativity).
Notation "c ;;; k" := (dbind c (fun _ => k))
  (at level 61, right associativity).

(** [csky_i2s_writel] on a control register. *)
Definition write_ctl (r : ctl_reg) (val : Z) (d : stream_t) : stream_t :=
  set_ctl (ctl d ++ [(r, u32 val)]) d.

Definition csky_i2s_writel_ctl (r : ctl_reg) (val : Z) : D unit :=
  dmodify (write_ctl r val).

(** [csky_hdmi_audio_config], an external function. *)
Definition csky_hdmi_audio_config (sample_rate : Z)
  (audio_fmt : audio_format) : D unit :=
  dmodify (fun d => set_hdmi (hdmi d ++ [(sample_rate, audio_fmt)]) d).

(** *** [csky_i2s_hw_params]

    The arguments are what [csky_i2s_readl (i2s, IIS_FSSTA)] returns and
    the four parameters the function takes from [params]. *)

(** The value written back to [IIS_FSSTA]: the resolution field of the
    value read is replaced by [res]. *)
Definition fssta_with (fssta res : Z) : Z :=
  let val := u32 fssta in
  let val :=
    u32 (Z.land val (Z.lnot (Z.shiftl FSSTA_RES_MASK FSSTA_RES_SHIFT))) in
  u32 (Z.lor val res).

(** The tail common to the three accepted widths. *)
Definition hw_params_apply (width_code val rate width : Z) : D Z :=
  dmodify (set_addr_width width_code) ;;;
  csky_i2s_writel_ctl IIS_FSSTA val ;;;
  on_clock (csky_i2s_set_clk_rate clk_set_rate clk_get_rate rate width).

Definition csky_i2s_hw_params (fssta : Z)
  (channels physical_width rate width : Z) : D Z :=
  if 2 <? channels then dret (- EINVAL)
  else if physical_width =? 16 then
    hw_params_apply
      (if channels =? 2 then DMA_SLAVE_BUSWIDTH_4_BYTES
       else DMA_SLAVE_BUSWIDTH_2_BYTES)
      (fssta_with fssta FSSTA_RES16_FIFO16) rate width
  else if physical_width =? 24 then
    hw_params_apply DMA_SLAVE_BUSWIDTH_3_BYTES
      (fssta_with fssta FSSTA_RES24_FIFO24) rate width
  else if physical_width =? 32 then
    hw_params_apply DMA_SLAVE_BUSWIDTH_4_BYTES
      (fssta_with fssta FSSTA_RES24_FIFO24) rate width
  else dret (- EINVAL).

(** *** [csky_i2s_start_playback] and [csky_i2s_stop_playback] *)

Definition csky_i2s_start_playback : D unit :=
  pio <- dgets use_pio ;;
  (if pio then csky_i2s_writel_ctl IIS_IMR IIS_FIFOINT_TX_FIFO_EMPTY
   else csky_i2s_writel_ctl IIS_DMACR DMACR_EN_TX_DMA) ;;;
  csky_i2s_writel_ctl IIS_AUDIOEN AUDIOEN_IIS_EN ;;;
  if CONFIG_CSKY_HDMI then
    c <- dgets config_hdmi ;;
    if c =? 1 then
      r <- dgets (fun d => sample_rate (clock d)) ;;
      f <- dgets (fun d => audio_fmt (clock d)) ;;
      csky_hdmi_audio_config r f
    else dret tt
  else dret tt.

Definition csky_i2s_stop_playback : D unit :=
  csky_i2s_writel_ctl IIS_IMR 0 ;;;
  csky_i2s_writel_ctl IIS_DMACR 0 ;;;
  csky_i2s_writel_ctl IIS_AUDIOEN 0.

(** *** [csky_i2s_trigger] *)

Definition csky_i2s_trigger (stream : pcm_stream) (cmd : trigger_cmd)
  : D Z :=
  match cmd with
  | SNDRV_PCM_TRIGGER_START
  | SNDRV_PCM_TRIGGER_PAUSE_RELEASE
  | SNDRV_PCM_TRIGGER_RESUME =>
      match stream with
      | SNDRV_PCM_STREAM_PLAYBACK => csky_i2s_start_playback ;;; dret 0
      | SNDRV_PCM_STREAM_CAPTURE => dret (- EINVAL)
      end
  | SNDRV_PCM_TRIGGER_STOP
  | SNDRV_PCM_TRIGGER_PAUSE_PUSH
  | SNDRV_PCM_TRIGGER_SUSPEND =>
      match stream with
      | SNDRV_PCM_STREAM_PLAYBACK => csky_i2s_stop_playback ;;; dret 0
      | SNDRV_PCM_STREAM_CAPTURE => dret (- EINVAL)
      end
  | SNDRV_PCM_TRIGGER_other => dret (- EINVAL)
  end.

(** A sequence of calls of [csky_i2s_trigger], whatever each returns. *)
Fixpoint trigger_each (calls : list (pcm_stream * trigger_cmd)) : D unit :=
  match calls with
  | [] => dret tt
  | (stream, cmd) :: rest =>
      csky_i2s_trigger stream cmd ;;; trigger_each rest
  end.

(** The register writes that a stream in PIO mode ([pio] true) or in
    DMA mode may see from [csky_i2s_trigger]. *)
Definition trigger_write_ok (pio : bool) (w : ctl_reg * Z) : Prop :=
  match fst w with
  | IIS_IMR =>
      snd w = 0 \/ (pio = true /\ snd w = u32 IIS_FIFOINT_TX_FIFO_EMPTY)
  | IIS_DMACR =>
      snd w = 0 \/ (pio = false /\ snd w = u32 DMACR_EN_TX_DMA)
  | IIS_AUDIOEN => snd w = 0 \/ snd w = u32 AUDIOEN_IIS_EN
  | IIS_FSSTA => False
  end.

(** The DMA bus width [csky_i2s_hw_params] chooses. *)
Definition hw_params_addr_width (channels physical_width : Z) : Z :=
  if physical_width =? 16 then (if channels =? 2 then 4 else 2)
  else if physical_width =? 24 then 3
  else 4.

(** The resolution code [csky_i2s_hw_params] puts into [IIS_FSSTA]. *)
Definition hw_params_res (physical_width : Z) : Z :=
  if physical_width =? 16 then FSSTA_RES16_FIFO16 else FSSTA_RES24_FIFO24.

End Stream.

(** The control-register writes made between two states. *)
Definition ctl_written {clk : Type} (d d' : csky_i2s_stream clk)
  : list (ctl_reg * Z) :=
  skipn (length (ctl d)) (ctl d').

(** A stream on the 48 kHz example controller, in DMA mode, with HDMI
    audio configured. *)
Definition dma_stream_48k : csky_i2s_stream Z :=
  Build_csky_i2s_stream v1_1_48k false 1 0 [] [].

(** The same stream in PIO mode. *)
Definition pio_stream_48k : csky_i2s_stream Z :=
  Build_csky_i2s_stream v1_1_48k true 1 0 [] [].

(** A stream on the controller whose master clock is 10 MHz. *)
Definition dma_stream_10mhz : csky_i2s_stream Z :=
  Build_csky_i2s_stream v1_1_10mhz false 1 0 [] [].

(** The 48 kHz example controller with a source clock one hertz above
    twice the master clock. *)
Definition v1_1_48k_plus1 : csky_i2s Z :=
  probed params_csky_i2s_v1_1 SND_SOC_DAIFMT_I2S 24576001 12288000 0.

(** ** 32-bit arithmetic facts *)

Lemma modulus_eq : modulus = 4294967296.
Proof. reflexivity. Qed.

Lemma u32_small z : is_u32 z -> u32 z = z.
Proof. unfold is_u32, u32. intros H. now apply Z.mod_small. Qed.

Lemma u32_range z : is_u32 (u32 z).
Proof.
  unfold is_u32, u32. apply Z.mod_pos_bound. rewrite modulus_eq. lia.
Qed.

Lemma s32_usub_1 q : 0 <= q <= int_max -> s32 (usub q 1) = q - 1.
Proof.
  unfold s32, usub, u32, int_max. rewrite modulus_eq. intros Hq.
  rewrite Z.mod_mod by lia.
  destruct (Z.eq_dec q 0) as [-> | Hne].
  - reflexivity.
  - rewrite Z.mod_small by lia.
    destruct (q - 1 <=? 2 ^ 31 - 1) eqn:E; [reflexivity |].
    apply Z.leb_gt in E. lia.
Qed.

Lemma div2_div a b : 0 < b -> a / 2 / b = a / (2 * b).
Proof. intros Hb. rewrite Z.div_div by lia. reflexivity. Qed.

Lemma umul_multiple_4 k x : (4 | k) -> (umul k x) mod 4 = 0.
Proof.
  intros [j ->]. unfold umul, u32. rewrite modulus_eq.
  replace 4294967296 with (4 * 1073741824) by reflexivity.
  replace (j * 4 * x) with (4 * (j * x)) by ring.
  rewrite Z.mul_mod_distr_l by lia.
  rewrite Z.mul_comm. apply Z.mod_mul. lia.
Qed.

Lemma sadd_in_range a b : is_s32 (a + b) -> sadd a b = Some (a + b).
Proof.
  unfold is_s32, sadd. intros [H1 H2].
  apply Z.leb_le in H1, H2. now rewrite H1, H2.
Qed.

Lemma smul_in_range a b : is_s32 (a * b) -> smul a b = Some (a * b).
Proof.
  unfold is_s32, smul. intros [H1 H2].
  apply Z.leb_le in H1, H2. now rewrite H1, H2.
Qed.

Lemma udiv_nonzero a b : b <> 0 -> udiv a b = Some (a / b).
Proof.
  intros Hb. unfold udiv. destruct (Z.eqb_spec b 0); [contradiction |].
  reflexivity.
Qed.

Lemma umod_nonzero a b : b <> 0 -> umod a b = Some (a mod b).
Proof.
  intros Hb. unfold umod. destruct (Z.eqb_spec b 0); [contradiction |].
  reflexivity.
Qed.

Lemma quotient_bound src m :
  is_u32 src -> 4 <= m -> 0 <= src / 2 / m < 2 ^ 29.
Proof.
  unfold is_u32. rewrite modulus_eq. intros Hs Hm.
  rewrite div2_div by lia. split.
  - apply Z.div_pos; lia.
  - apply Z.div_lt_upper_bound; lia.
Qed.

(** ** The calculators *)

Section Calculators.

Context {clk : Type}.
Implicit Types s : csky_i2s clk.

Ltac run := unfold dev_err, csky_i2s_writel in *;
  unfold bind, ret, gets, modify, defined in *; cbv beta in *.

Lemma emitted_refl s : emitted s s = [].
Proof. unfold emitted. apply skipn_all. Qed.

Lemma emitted_log_msg m s : emitted s (log_msg m s) = [m].
Proof.
  unfold emitted, log_msg; simpl.
  rewrite skipn_app, skipn_all, Nat.sub_diag. reflexivity.
Qed.

Lemma emitted_set_mclk_fs_divider v s :
  emitted s (set_mclk_fs_divider v s) = [].
Proof. unfold emitted; simpl. apply skipn_all. Qed.

Lemma emitted_log_set_mclk_fs_divider m v s :
  emitted s (log_msg m (set_mclk_fs_divider v s)) = [m].
Proof.
  unfold emitted, log_msg; simpl.
  rewrite skipn_app, skipn_all, Nat.sub_diag. reflexivity.
Qed.

(** A ratio that passes the generation-specific check is a multiple
    of 4. *)
Lemma mclk_fs_div_check_multiple_4 s r :
  mclk_fs_div_check s r = None -> r mod 4 = 0.
Proof.
  unfold mclk_fs_div_check.
  destruct (has_mclk_sclk_div s).
  - destruct (r =? 256) eqn:E1; [apply Z.eqb_eq in E1; now subst |].
    destruct (r =? 384) eqn:E2; [apply Z.eqb_eq in E2; now subst |].
    destruct (r =? 512) eqn:E3; [apply Z.eqb_eq in E3; now subst |].
    destruct (r =? 768) eqn:E4; [apply Z.eqb_eq in E4; now subst |].
    discriminate.
  - destruct (audio_fmt s);
      match goal with
      | |- context [r =? ?x] => destruct (r =? x) eqn:E
      end; simpl; try discriminate; intros _;
      apply Z.eqb_eq in E; subst r; apply umul_multiple_4;
      first [ now exists 2 | now exists 1 ].
Qed.

Lemma mclk_fs_div_check_v1_1 s r :
  has_mclk_sclk_div s = true ->
  (mclk_fs_div_check s r = None <-> v1_1_ratio r) /\
  (~ v1_1_ratio r ->
   mclk_fs_div_check s r = Some (ERR_invalid_mclk_fs_div r)).
Proof.
  intros Hh. unfold mclk_fs_div_check, v1_1_ratio. rewrite Hh.
  destruct (Z.eqb_spec r 256), (Z.eqb_spec r 384), (Z.eqb_spec r 512),
    (Z.eqb_spec r 768); simpl; split; try split;
    try discriminate; try tauto; try lia; intros; exfalso; tauto.
Qed.

Lemma mclk_fs_div_check_v1 s r :
  has_mclk_sclk_div s = false ->
  let need := umul (v1_mclk_sclk_ratio (audio_fmt s)) (sclk_fs_divider s) in
  (mclk_fs_div_check s r = None <-> r = need) /\
  (r <> need ->
   exists m, mclk_fs_div_check s r = Some m /\
             kind_of_msg m = InvalidRatioError).
Proof.
  intros Hh. unfold mclk_fs_div_check. rewrite Hh.
  destruct (audio_fmt s); simpl;
    match goal with
    | |- context [r =? ?x] => destruct (Z.eqb_spec r x)
    end; simpl; (split; [split |]); try discriminate; try tauto;
    intros; eauto.
Qed.

(** A master clock that is a positive multiple of the rate with a ratio
    that is a multiple of 4 is at least 4. *)
Lemma mclk_at_least_4 m rate :
  0 < rate -> 0 < m -> m mod rate = 0 -> (m / rate) mod 4 = 0 -> 4 <= m.
Proof.
  intros Hr Hm Hmod H4.
  assert (Hd : m = rate * (m / rate)).
  { pose proof (Z.div_mod m rate ltac:(lia)). lia. }
  assert (Hq : (m / rate) = 4 * (m / rate / 4)).
  { pose proof (Z.div_mod (m / rate) 4 ltac:(lia)). lia. }
  assert (0 < m / rate) by nia.
  nia.
Qed.

Lemma calc_mclk_div_unfold rate ws s :
  0 < rate -> wf_i2s s ->
  csky_i2s_calc_mclk_div rate ws s =
  if negb (mclk s mod rate =? 0)
  then Some (- EINVAL, log_msg ERR_mclk_not_multiple_of_fs s)
  else match mclk_fs_div_check s (mclk s / rate) with
       | Some m => Some (- EINVAL, log_msg m s)
       | None =>
           if mclk s =? 0 then None
           else Some (mclk_div_outcome
                        (set_mclk_fs_divider (mclk s / rate) s))
       end.
Proof.
  intros Hr [Hsrc Hm]. unfold csky_i2s_calc_mclk_div. run.
  unfold umod, udiv at 1.
  destruct (Z.eqb_spec rate 0); [lia |].
  destruct (Z.eqb_spec (mclk s mod rate) 0) as [Hmod | Hmod]; simpl;
    [| reflexivity].
  destruct (mclk_fs_div_check s (mclk s / rate)) eqn:Hc; [reflexivity |].
  unfold udiv at 1.
  destruct (Z.eqb_spec (mclk s) 0) as [H0 | H0]; [reflexivity |].
  pose proof (mclk_fs_div_check_multiple_4 _ _ Hc) as H4.
  assert (H4m : 4 <= mclk s).
  { unfold is_u32 in Hm. apply (mclk_at_least_4 _ rate); lia. }
  pose proof (quotient_bound _ _ Hsrc H4m) as Hq.
  unfold mclk_div_outcome.
  change (src_clk (set_mclk_fs_divider (mclk s / rate) s))
    with (src_clk s).
  change (mclk (set_mclk_fs_divider (mclk s / rate) s)) with (mclk s).
  set (q := src_clk s / 2 / mclk s) in *.
  rewrite s32_usub_1 by (unfold int_max; lia).
  destruct (Z.eqb_spec q 0) as [Hq0 | Hq0].
  - rewrite Hq0. reflexivity.
  - destruct (Z.leb_spec 0 (q - 1)); [| lia].
    rewrite sadd_in_range by (unfold is_s32, int_min, int_max; lia).
    replace (q - 1 + 1) with q by lia.
    rewrite smul_in_range by (unfold is_s32, int_min, int_max; lia).
    rewrite u32_small by (unfold is_u32; rewrite modulus_eq; lia).
    unfold udiv. destruct (Z.eqb_spec (2 * q) 0); [lia |].
    destruct (Z.eqb_spec (src_clk s / (2 * q)) (mclk s)); reflexivity.
Qed.

(** The two checks at the head of [csky_i2s_calc_mclk_div] need no
    assumption on the width of the fields. *)
Lemma calc_mclk_div_checks rate ws s :
  rate <> 0 ->
  (mclk s mod rate <> 0 ->
   csky_i2s_calc_mclk_div rate ws s =
   Some (- EINVAL, log_msg ERR_mclk_not_multiple_of_fs s)) /\
  (mclk s mod rate = 0 ->
   forall m, mclk_fs_div_check s (mclk s / rate) = Some m ->
   csky_i2s_calc_mclk_div rate ws s = Some (- EINVAL, log_msg m s)).
Proof.
  intros Hr. unfold csky_i2s_calc_mclk_div. run.
  rewrite umod_nonzero by lia.
  destruct (Z.eqb_spec (mclk s mod rate) 0) as [Hmod | Hmod];
    cbn [negb]; split; intros H; try contradiction; try reflexivity.
  intros m Hc. rewrite udiv_nonzero by lia. rewrite Hc. reflexivity.
Qed.

(** Whatever the fields hold, a call that passes both checks stores the
    ratio and prints at most a mismatch diagnostic. *)
Lemma calc_mclk_div_passed rate ws s v s' :
  rate <> 0 ->
  mclk s mod rate = 0 ->
  mclk_fs_div_check s (mclk s / rate) = None ->
  csky_i2s_calc_mclk_div rate ws s = Some (v, s') ->
  let s1 := set_mclk_fs_divider (mclk s / rate) s in
  s' = s1 \/
  exists got, v = - EINVAL /\
              s' = log_msg (ERR_mclk_mismatch (mclk s) got) s1.
Proof.
  intros Hr Hmod Hc. unfold csky_i2s_calc_mclk_div. run.
  rewrite umod_nonzero by lia. rewrite Hmod. cbn [Z.eqb negb].
  rewrite udiv_nonzero by lia. rewrite Hc.
  change (src_clk (set_mclk_fs_divider (mclk s / rate) s))
    with (src_clk s).
  destruct (udiv (src_clk s / 2) (mclk s)) as [q |]; [| discriminate].
  destruct (0 <=? s32 (usub q 1)).
  - destruct (sadd (s32 (usub q 1)) 1) as [d1 |]; [| discriminate].
    destruct (smul 2 d1) as [d2 |]; [| discriminate].
    destruct (udiv (src_clk s) (u32 d2)) as [tmp |]; [| discriminate].
    destruct (negb (tmp =? mclk s)); intros H; inversion H; subst; eauto.
  - intros H; inversion H; subst; eauto.
Qed.

(** C4.  For a positive rate of which the master clock is not an exact
    multiple, [csky_i2s_calc_mclk_div] prints "mclk is not a multiple of
    fs" and returns [-EINVAL], leaving every field as it was, so before
    any ratio or divider is computed or stored; when the master clock is
    an exact multiple, no diagnostic of kind [ClockRatioError] is
    printed. *)
Theorem calc_mclk_div_clock_ratio_error rate ws s :
  0 < rate ->
  (mclk s mod rate <> 0 ->
   csky_i2s_calc_mclk_div rate ws s =
   Some (- EINVAL, log_msg ERR_mclk_not_multiple_of_fs s)) /\
  (mclk s mod rate = 0 ->
   forall v s', csky_i2s_calc_mclk_div rate ws s = Some (v, s') ->
   forall m, In m (emitted s s') -> kind_of_msg m <> ClockRatioError).
Proof.
  intros Hr. assert (Hr0 : rate <> 0) by lia.
  split; [apply calc_mclk_div_checks; assumption |].
  intros Hmod v s' Hrun m Hin.
  destruct (mclk_fs_div_check s (mclk s / rate)) as [e |] eqn:Hc.
  - rewrite (proj2 (calc_mclk_div_checks rate ws s Hr0) Hmod e Hc) in Hrun.
    inversion Hrun; subst. rewrite emitted_log_msg in Hin.
    destruct Hin as [<- | []].
    unfold mclk_fs_div_check in Hc.
    destruct (has_mclk_sclk_div s), (audio_fmt s);
      repeat match type of Hc with
             | (if ?b then _ else _) = _ => destruct b
             end; inversion Hc; discriminate.
  - destruct (calc_mclk_div_passed _ _ _ _ _ Hr0 Hmod Hc Hrun)
      as [-> | (got & _ & ->)].
    + rewrite emitted_set_mclk_fs_divider in Hin. destruct Hin.
    + rewrite emitted_log_set_mclk_fs_divider in Hin.
      destruct Hin as [<- | []]. discriminate.
Qed.

(** A call that passes both checks on a well-formed structure with a
    non-zero master clock returns. *)
Lemma calc_mclk_div_passed_returns rate ws s :
  0 < rate -> wf_i2s s -> mclk s <> 0 ->
  mclk s mod rate = 0 ->
  mclk_fs_div_check s (mclk s / rate) = None ->
  csky_i2s_calc_mclk_div rate ws s =
  Some (mclk_div_outcome (set_mclk_fs_divider (mclk s / rate) s)).
Proof.
  intros Hr Hwf H0 Hmod Hc.
  rewrite calc_mclk_div_unfold by assumption.
  rewrite Hmod, Hc. cbn [Z.eqb negb].
  destruct (Z.eqb_spec (mclk s) 0); [contradiction | reflexivity].
Qed.

Lemma mclk_div_outcome_emitted s0 s :
  dev s = dev s0 ->
  forall m, In m (emitted s0 (snd (mclk_div_outcome s))) ->
            kind_of_msg m = ClockMismatchError.
Proof.
  intros Hd m. unfold mclk_div_outcome.
  destruct (src_clk s / 2 / mclk s =? 0); cbn [snd].
  - unfold emitted. rewrite Hd, skipn_all. intros [].
  - destruct (_ =? mclk s); cbn [snd].
    + unfold emitted. rewrite Hd, skipn_all. intros [].
    + unfold emitted, log_msg; simpl. rewrite Hd.
      rewrite skipn_app, skipn_all, Nat.sub_diag; simpl.
      intros [<- | []]. reflexivity.
Qed.

Lemma mclk_div_outcome_fields s :
  let s' := snd (mclk_div_outcome s) in
  mclk_fs_divider s' = mclk_fs_divider s /\
  sclk_fs_divider s' = sclk_fs_divider s /\
  sample_rate s' = sample_rate s /\
  src_clk s' = src_clk s /\ mclk s' = mclk s /\
  has_mclk_sclk_div s' = has_mclk_sclk_div s /\
  regs s' = regs s.
Proof.
  unfold mclk_div_outcome.
  destruct (src_clk s / 2 / mclk s =? 0); cbn [snd]; [tauto |].
  destruct (_ =? mclk s); cbn [snd]; simpl; tauto.
Qed.

(** C2 (amended).  On generation v1.1 and for a positive rate,
    [csky_i2s_calc_mclk_div] rejects with [-EINVAL], storing nothing,
    every input whose ratio [mclk / rate] is not 256, 384, 512 or 768;
    when the master clock is an exact multiple of the rate (so that the
    ratio check is reached) the rejection is the diagnostic "invalid
    mclk_fs_div" of kind [InvalidRatioError], and a ratio in the set
    passes the check: the call returns, stores the ratio and prints no
    diagnostic of that kind. *)
Theorem calc_mclk_div_v1_1_ratio rate ws s :
  has_mclk_sclk_div s = params_csky_i2s_v1_1 ->
  0 < rate ->
  let r := mclk s / rate in
  (~ v1_1_ratio r ->
   exists s', csky_i2s_calc_mclk_div rate ws s = Some (- EINVAL, s') /\
              mclk_fs_divider s' = mclk_fs_divider s /\
              regs s' = regs s) /\
  (mclk s mod rate = 0 -> ~ v1_1_ratio r ->
   csky_i2s_calc_mclk_div rate ws s =
   Some (- EINVAL, log_msg (ERR_invalid_mclk_fs_div r) s)) /\
  (mclk s mod rate = 0 -> v1_1_ratio r -> wf_i2s s ->
   exists v s', csky_i2s_calc_mclk_div rate ws s = Some (v, s') /\
                mclk_fs_divider s' = r /\
                forall m, In m (emitted s s') ->
                          kind_of_msg m <> InvalidRatioError).
Proof.
  intros Hh Hr r.
  destruct (mclk_fs_div_check_v1_1 s r Hh) as [Hiff Hrej].
  assert (Hr0 : rate <> 0) by lia.
  destruct (calc_mclk_div_checks rate ws s Hr0) as [Hnm Hck].
  assert (Hinv : mclk s mod rate = 0 -> ~ v1_1_ratio r ->
                 csky_i2s_calc_mclk_div rate ws s =
                 Some (- EINVAL, log_msg (ERR_invalid_mclk_fs_div r) s)).
  { intros Hmod Hnr. apply Hck; [assumption | apply Hrej, Hnr]. }
  split; [| split].
  - intros Hnr. destruct (Z.eq_dec (mclk s mod rate) 0) as [Hmod | Hmod].
    + eexists. split; [apply Hinv; assumption | split; reflexivity].
    + eexists. split; [apply Hnm; assumption | split; reflexivity].
  - exact Hinv.
  - intros Hmod Hin Hwf.
    assert (Hc : mclk_fs_div_check s r = None) by (apply Hiff, Hin).
    assert (H0 : mclk s <> 0).
    { intros E. unfold r in Hin. rewrite E in Hin. rewrite Z.div_0_l in Hin by lia.
      unfold v1_1_ratio in Hin. lia. }
    rewrite calc_mclk_div_passed_returns by assumption.
    destruct (mclk_div_outcome (set_mclk_fs_divider (mclk s / rate) s))
      as [v s'] eqn:Ho.
    exists v, s'. split; [reflexivity |].
    pose proof (mclk_div_outcome_fields
                  (set_mclk_fs_divider (mclk s / rate) s)) as Hf.
    pose proof (mclk_div_outcome_emitted s
                  (set_mclk_fs_divider (mclk s / rate) s) eq_refl) as He.
    rewrite Ho in Hf, He. cbn [snd] in Hf, He. split.
    + destruct Hf as [-> _]. reflexivity.
    + intros m Hm. rewrite (He m Hm). discriminate.
Qed.

(** C3 (amended).  On generation v1 and for a positive rate,
    [csky_i2s_calc_mclk_div] requires the ratio [mclk / rate] to be
    [8 * sclk_fs_divider] for the formats I2S and LEFT_J and
    [4 * sclk_fs_divider] for RIGHT_J, the product being the 32-bit one
    of the code (the plain product when it is below [2^32]).  Every other
    ratio is rejected with [-EINVAL], storing nothing; when the master
    clock is an exact multiple of the rate the rejection is a diagnostic
    of kind [InvalidRatioError], and the required ratio passes the
    check: the call stores the ratio, prints no diagnostic of that kind,
    and returns when the master clock is not zero. *)
Theorem calc_mclk_div_v1_ratio rate ws s :
  has_mclk_sclk_div s = params_csky_i2s_v1 ->
  0 < rate ->
  let r := mclk s / rate in
  let k := v1_mclk_sclk_ratio (audio_fmt s) in
  let need := umul k (sclk_fs_divider s) in
  (0 <= k * sclk_fs_divider s < modulus ->
   need = k * sclk_fs_divider s) /\
  (r <> need ->
   exists s', csky_i2s_calc_mclk_div rate ws s = Some (- EINVAL, s') /\
              mclk_fs_divider s' = mclk_fs_divider s /\
              regs s' = regs s) /\
  (mclk s mod rate = 0 -> r <> need ->
   exists m, csky_i2s_calc_mclk_div rate ws s =
             Some (- EINVAL, log_msg m s) /\
             kind_of_msg m = InvalidRatioError) /\
  (mclk s mod rate = 0 -> r = need ->
   (forall v s', csky_i2s_calc_mclk_div rate ws s = Some (v, s') ->
                 mclk_fs_divider s' = r /\
                 forall m, In m (emitted s s') ->
                           kind_of_msg m <> InvalidRatioError) /\
   (wf_i2s s -> mclk s <> 0 ->
    exists v s', csky_i2s_calc_mclk_div rate ws s = Some (v, s'))).
Proof.
  intros Hh Hr r k need.
  destruct (mclk_fs_div_check_v1 s r Hh) as [Hiff Hrej].
  fold k in Hiff, Hrej. fold need in Hiff, Hrej.
  assert (Hr0 : rate <> 0) by lia.
  destruct (calc_mclk_div_checks rate ws s Hr0) as [Hnm Hck].
  assert (Hinv : mclk s mod rate = 0 -> r <> need ->
                 exists m, csky_i2s_calc_mclk_div rate ws s =
                           Some (- EINVAL, log_msg m s) /\
                           kind_of_msg m = InvalidRatioError).
  { intros Hmod Hne. destruct (Hrej Hne) as (m & Hm & Hk).
    exists m. split; [apply Hck; assumption | assumption]. }
  split; [| split; [| split]].
  - intros Hs. unfold need, umul. apply u32_small. exact Hs.
  - intros Hne. destruct (Z.eq_dec (mclk s mod rate) 0) as [Hmod | Hmod].
    + destruct (Hinv Hmod Hne) as (m & Hm & _).
      eexists. split; [exact Hm | split; reflexivity].
    + eexists. split; [apply Hnm; assumption | split; reflexivity].
  - exact Hinv.
  - intros Hmod Heq.
    assert (Hc : mclk_fs_div_check s r = None) by (apply Hiff, Heq).
    split.
    + intros v s' Hrun.
      destruct (calc_mclk_div_passed _ _ _ _ _ Hr0 Hmod Hc Hrun)
        as [-> | (got & _ & ->)]; (split; [reflexivity |]); intros m Hin.
      * rewrite emitted_set_mclk_fs_divider in Hin. destruct Hin.
      * rewrite emitted_log_set_mclk_fs_divider in Hin.
        destruct Hin as [<- | []]. discriminate.
    + intros Hwf H0.
      rewrite calc_mclk_div_passed_returns by assumption.
      destruct (mclk_div_outcome _) as [v s']. eauto.
Qed.


(** C1 (amended).  For a positive rate of which the master clock is an
    exact multiple, with a ratio that passes the generation-specific
    check, and when [d = src_clk / (2 * mclk) - 1] is not negative:
    [csky_i2s_calc_mclk_div] returns [d] exactly when the reconstructed
    clock [src_clk / (2 * (d + 1))] equals the master clock, and otherwise
    prints the mismatch and returns [-EINVAL].  So every non-negative
    value it returns is [d], and its reconstructed clock is the master
    clock. *)
Theorem calc_mclk_div_exact rate ws s :
  wf_i2s s ->
  0 < rate ->
  mclk s mod rate = 0 ->
  mclk_fs_div_check s (mclk s / rate) = None ->
  let d := src_clk s / (2 * mclk s) - 1 in
  let s1 := set_mclk_fs_divider (mclk s / rate) s in
  0 <= d ->
  (src_clk s / (2 * (d + 1)) = mclk s ->
   csky_i2s_calc_mclk_div rate ws s = Some (d, s1)) /\
  (src_clk s / (2 * (d + 1)) <> mclk s ->
   csky_i2s_calc_mclk_div rate ws s =
   Some (- EINVAL,
         log_msg (ERR_mclk_mismatch (mclk s) (src_clk s / (2 * (d + 1))))
                 s1)) /\
  (forall v s', csky_i2s_calc_mclk_div rate ws s = Some (v, s') ->
                0 <= v ->
                v = d /\ src_clk s / (2 * (v + 1)) = mclk s).
Proof.
  intros Hwf Hr Hmod Hc d s1 Hd.
  assert (H0 : mclk s <> 0).
  { intros E. unfold d in Hd. rewrite E in Hd.
    rewrite Z.mul_0_r, Z.div_0_r in Hd. lia. }
  assert (Hm : 0 < mclk s) by (destruct Hwf as [_ [? _]]; lia).
  rewrite calc_mclk_div_passed_returns by assumption.
  unfold mclk_div_outcome. fold s1.
  change (src_clk s1) with (src_clk s). change (mclk s1) with (mclk s).
  rewrite div2_div by assumption.
  replace (src_clk s / (2 * mclk s)) with (d + 1) by (unfold d; lia).
  destruct (Z.eqb_spec (d + 1) 0); [lia |].
  replace (d + 1 - 1) with d by lia.
  destruct (Z.eqb_spec (src_clk s / (2 * (d + 1))) (mclk s)) as [E | E].
  - split; [reflexivity |]. split; [contradiction |].
    intros v s' Hv _. inversion Hv; subst v. split; [reflexivity | exact E].
  - split; [contradiction |]. split; [reflexivity |].
    intros v s' Hv Hpos. inversion Hv; subst v. unfold EINVAL in Hpos. lia.
Qed.

(** A negative divider is returned as it is: no round trip, no
    diagnostic. *)
Lemma calc_mclk_div_negative rate ws s :
  wf_i2s s -> 0 < rate -> mclk s <> 0 ->
  mclk s mod rate = 0 ->
  mclk_fs_div_check s (mclk s / rate) = None ->
  src_clk s / (2 * mclk s) - 1 < 0 ->
  csky_i2s_calc_mclk_div rate ws s =
  Some (-1, set_mclk_fs_divider (mclk s / rate) s).
Proof.
  intros Hwf Hr H0 Hmod Hc Hd.
  assert (Hm : 0 < mclk s) by (destruct Hwf as [_ [? _]]; lia).
  rewrite calc_mclk_div_passed_returns by assumption.
  unfold mclk_div_outcome.
  change (src_clk (set_mclk_fs_divider (mclk s / rate) s))
    with (src_clk s).
  change (mclk (set_mclk_fs_divider (mclk s / rate) s)) with (mclk s).
  rewrite div2_div by assumption.
  assert (Hq : 0 <= src_clk s / (2 * mclk s)).
  { apply Z.div_pos; [destruct Hwf as [[? _] _] |]; lia. }
  replace (src_clk s / (2 * mclk s)) with 0 by lia.
  reflexivity.
Qed.

Lemma calc_refclk_div_known rate ref s :
  is_u32 (src_clk s) -> ref_clk_of_rate rate = Some ref ->
  2 <= ref ->
  csky_i2s_calc_refclk_div rate s =
  Some (src_clk s / (2 * ref) - 1, s).
Proof.
  intros Hs Hrr Href. unfold csky_i2s_calc_refclk_div. rewrite Hrr. run.
  rewrite udiv_nonzero by lia.
  rewrite s32_usub_1.
  - rewrite div2_div by lia. reflexivity.
  - unfold is_u32 in Hs. rewrite modulus_eq in Hs. unfold int_max.
    rewrite div2_div by lia. split.
    + apply Z.div_pos; lia.
    + assert (src_clk s / (2 * ref) < 2 ^ 31); [| lia].
      apply Z.div_lt_upper_bound; lia.
Qed.

Lemma ref_clk_of_rate_48k rate :
  rate_48k_family rate <-> ref_clk_of_rate rate = Some 3072000.
Proof.
  unfold rate_48k_family, ref_clk_of_rate.
  destruct (Z.eqb_spec rate 8000), (Z.eqb_spec rate 16000),
    (Z.eqb_spec rate 32000), (Z.eqb_spec rate 48000),
    (Z.eqb_spec rate 96000); cbn [orb]; try tauto;
    destruct (Z.eqb_spec rate 11025), (Z.eqb_spec rate 22050),
      (Z.eqb_spec rate 44100), (Z.eqb_spec rate 88200); cbn [orb];
    split; try discriminate; intros; exfalso; lia.
Qed.

Lemma ref_clk_of_rate_44k rate :
  rate_44k_family rate <-> ref_clk_of_rate rate = Some 2116800.
Proof.
  unfold rate_44k_family, ref_clk_of_rate.
  destruct (Z.eqb_spec rate 8000), (Z.eqb_spec rate 16000),
    (Z.eqb_spec rate 32000), (Z.eqb_spec rate 48000),
    (Z.eqb_spec rate 96000); cbn [orb];
    try (split; [intros; exfalso; lia | discriminate]);
    destruct (Z.eqb_spec rate 11025), (Z.eqb_spec rate 22050),
      (Z.eqb_spec rate 44100), (Z.eqb_spec rate 88200); cbn [orb];
    try tauto; split; try discriminate; intros; exfalso; lia.
Qed.

Lemma ref_clk_of_rate_cases rate :
  (rate_48k_family rate /\ ref_clk_of_rate rate = Some 3072000) \/
  (rate_44k_family rate /\ ref_clk_of_rate rate = Some 2116800) \/
  (~ rate_48k_family rate /\ ~ rate_44k_family rate /\
   ref_clk_of_rate rate = None).
Proof.
  pose proof (ref_clk_of_rate_48k rate) as H48.
  pose proof (ref_clk_of_rate_44k rate) as H44.
  destruct (ref_clk_of_rate rate) as [ref |] eqn:E.
  - unfold ref_clk_of_rate in E.
    destruct (_ || _ || _ || _ || _) in E.
    + inversion E; subst. left. tauto.
    + destruct (_ || _ || _ || _) in E; [| discriminate].
      inversion E; subst. right; left. tauto.
  - right; right. repeat split.
    + intros H. apply H48 in H. discriminate.
    + intros H. apply H44 in H. discriminate.
Qed.

(** C7.  [csky_i2s_calc_refclk_div] takes the reference clock 3072000 Hz
    for the rates 8000, 16000, 32000, 48000 and 96000 and 2116800 Hz for
    11025, 22050, 44100 and 88200, and returns
    [src_clk / (2 * ref_clk) - 1] for them, whatever the source clock is:
    the value is not checked against the reference clock.  For every
    other rate it returns [-EINVAL].  The structure is left as it is. *)
Theorem calc_refclk_div_table rate s :
  is_u32 (src_clk s) ->
  (rate_48k_family rate ->
   csky_i2s_calc_refclk_div rate s =
   Some (src_clk s / (2 * 3072000) - 1, s)) /\
  (rate_44k_family rate ->
   csky_i2s_calc_refclk_div rate s =
   Some (src_clk s / (2 * 2116800) - 1, s)) /\
  (~ rate_48k_family rate -> ~ rate_44k_family rate ->
   csky_i2s_calc_refclk_div rate s = Some (- EINVAL, s)).
Proof.
  intros Hs. split; [| split].
  - intros H. apply calc_refclk_div_known;
      [assumption | now apply ref_clk_of_rate_48k | lia].
  - intros H. apply calc_refclk_div_known;
      [assumption | now apply ref_clk_of_rate_44k | lia].
  - intros H48 H44.
    destruct (ref_clk_of_rate_cases rate) as [[? _] | [[? _] | (_ & _ & E)]];
      try contradiction.
    unfold csky_i2s_calc_refclk_div. rewrite E. reflexivity.
Qed.

(** C8.  [csky_i2s_calc_fs_div] returns 31 in every state and for every
    word size, and sets [sclk_fs_divider] to 64; the word size has no
    part in the result. *)
Theorem calc_fs_div_constant ws s :
  csky_i2s_calc_fs_div ws s = Some (31, set_sclk_fs_divider 64 s).
Proof. reflexivity. Qed.

End Calculators.

(** ** The request *)

Section Request.

Context {clk : Type}.
Variable clk_set_rate : clk -> Z -> clk * Z.
Variable clk_get_rate : clk -> Z.
Implicit Types s : csky_i2s clk.

Local Abbreviation select_clk := (select_i2s_clk clk_set_rate clk_get_rate).
Local Abbreviation set_clk_rate :=
  (csky_i2s_set_clk_rate clk_set_rate clk_get_rate).

Ltac run := unfold dev_err, csky_i2s_writel in *;
  unfold bind, ret, gets, modify, defined in *; cbv beta in *.

(** The clock selection touches only the clock and the source clock. *)
Lemma select_i2s_clk_frame rate s o s1 :
  select_clk rate s = Some (o, s1) ->
  has_mclk_sclk_div s1 = has_mclk_sclk_div s /\
  mclk s1 = mclk s /\ sample_rate s1 = sample_rate s /\
  audio_fmt s1 = audio_fmt s /\
  sclk_fs_divider s1 = sclk_fs_divider s /\
  mclk_fs_divider s1 = mclk_fs_divider s /\
  dev s1 = dev s /\ regs s1 = regs s /\
  (is_u32 (src_clk s) -> is_u32 (src_clk s1)).
Proof.
  unfold select_i2s_clk, retarget_i2s_clk. run.
  destruct (i2s_clk s) as [c |].
  - destruct (_ || _ || _ || _ || _).
    + destruct (clk_set_rate c (clk_fs_48k s)) as [c' r].
      destruct (negb (r =? 0)); intros H; inversion H; subst; simpl;
        repeat match goal with |- _ /\ _ => split end; try reflexivity;
        intros; first [assumption | apply u32_range].
    + destruct (_ || _ || _ || _).
      * destruct (clk_set_rate c (clk_fs_44k s)) as [c' r].
        destruct (negb (r =? 0)); intros H; inversion H; subst; simpl;
          repeat match goal with |- _ /\ _ => split end; try reflexivity;
        intros; first [assumption | apply u32_range].
      * intros H; inversion H; subst. repeat match goal with |- _ /\ _ => split end; try reflexivity;
        intros; first [assumption | apply u32_range].
  - intros H; inversion H; subst. repeat match goal with |- _ /\ _ => split end; try reflexivity;
        intros; first [assumption | apply u32_range].
Qed.

Lemma select_i2s_clk_returns rate s :
  exists o s1, select_clk rate s = Some (o, s1).
Proof.
  unfold select_i2s_clk, retarget_i2s_clk. run.
  destruct (i2s_clk s) as [c |]; [| eauto].
  destruct (_ || _ || _ || _ || _).
  - destruct (clk_set_rate c (clk_fs_48k s)) as [c' r].
    destruct (negb (r =? 0)); eauto.
  - destruct (_ || _ || _ || _); [| eauto].
    destruct (clk_set_rate c (clk_fs_44k s)) as [c' r].
    destruct (negb (r =? 0)); eauto.
Qed.

(** An early return of the clock selection is not a success. *)
Lemma select_i2s_clk_early rate s r s1 :
  select_clk rate s = Some (Some r, s1) -> r <> 0.
Proof.
  unfold select_i2s_clk, retarget_i2s_clk. run.
  destruct (i2s_clk s) as [c |]; [| discriminate].
  destruct (_ || _ || _ || _ || _).
  - destruct (clk_set_rate c (clk_fs_48k s)) as [c' r'].
    destruct (Z.eqb_spec r' 0); cbn [negb]; intros H; inversion H; subst.
    assumption.
  - destruct (_ || _ || _ || _).
    + destruct (clk_set_rate c (clk_fs_44k s)) as [c' r'].
      destruct (Z.eqb_spec r' 0); cbn [negb]; intros H; inversion H; subst.
      assumption.
    + intros H; inversion H; subst. discriminate.
Qed.

(** The configured [sclk_fs_divider] has no part in the clock
    selection. *)
Lemma select_i2s_clk_sclk_fs_divider rate d s :
  select_clk rate (set_sclk_fs_divider d s) =
  match select_clk rate s with
  | Some (o, s1) => Some (o, set_sclk_fs_divider d s1)
  | None => None
  end.
Proof.
  unfold select_i2s_clk, retarget_i2s_clk. run.
  change (i2s_clk (set_sclk_fs_divider d s)) with (i2s_clk s).
  destruct (i2s_clk s) as [c |]; [| reflexivity].
  destruct (_ || _ || _ || _ || _).
  - change (clk_fs_48k (set_sclk_fs_divider d s)) with (clk_fs_48k s).
    destruct (clk_set_rate c (clk_fs_48k s)) as [c' r].
    destruct (negb (r =? 0)); reflexivity.
  - destruct (_ || _ || _ || _); [| reflexivity].
    change (clk_fs_44k (set_sclk_fs_divider d s)) with (clk_fs_44k s).
    destruct (clk_set_rate c (clk_fs_44k s)) as [c' r].
    destruct (negb (r =? 0)); reflexivity.
Qed.

Lemma set_clk_rate_unfold rate ws s :
  set_clk_rate rate ws s =
  match select_clk rate s with
  | Some (Some r, s1) => Some (r, s1)
  | Some (None, s1) => program_dividers rate ws s1
  | None => None
  end.
Proof.
  unfold csky_i2s_set_clk_rate, bind.
  destruct (select_clk rate s) as [[[r |] s1] |]; reflexivity.
Qed.

(** The calculators in the order of [program_dividers], in direct
    style. *)
Lemma program_dividers_unfold rate ws s1 :
  program_dividers rate ws s1 =
  match csky_i2s_calc_mclk_div rate ws (after_fs rate s1) with
  | None => None
  | Some (mclk_div, s3) =>
      if mclk_div <? 0 then Some (- EINVAL, s3) else
      match (if has_mclk_sclk_div s3 then csky_i2s_calc_sclk_div s3
             else Some (0, s3)) with
      | None => None
      | Some (sclk_div, s4) =>
          if has_mclk_sclk_div s3 && (sclk_div <? 0)
          then Some (- EINVAL, s4) else
          match csky_i2s_calc_refclk_div rate s4 with
          | None => None
          | Some (refclk_div, s5) =>
              if refclk_div <? 0 then Some (- EINVAL, s5)
              else Some (0, write_dividers (has_mclk_sclk_div s3)
                              mclk_div refclk_div sclk_div s5)
          end
      end
  end.
Proof.
  unfold program_dividers, csky_i2s_calc_fs_div,
    csky_i2s_calc_spdifclk_div, write_dividers. run.
  change (s32 (usub (64 / 2) 1)) with 31.
  change (31 <? 0) with false. cbv beta iota.
  fold (after_fs rate s1).
  destruct (csky_i2s_calc_mclk_div rate ws (after_fs rate s1))
    as [[mclk_div s3] |]; [| reflexivity].
  destruct (mclk_div <? 0); [reflexivity |].
  destruct (has_mclk_sclk_div s3).
  - destruct (csky_i2s_calc_sclk_div s3) as [[sclk_div s4] |];
      [| reflexivity].
    cbn [andb]. destruct (sclk_div <? 0); [reflexivity |].
    change (17 <? 0) with false. cbv beta iota.
    destruct (csky_i2s_calc_refclk_div rate s4) as [[refclk_div s5] |];
      [| reflexivity].
    destruct (refclk_div <? 0); reflexivity.
  - cbn [andb]. change (17 <? 0) with false. cbv beta iota.
    destruct (csky_i2s_calc_refclk_div rate s3) as [[refclk_div s5] |];
      [| reflexivity].
    destruct (refclk_div <? 0); reflexivity.
Qed.


(** With [sclk_fs_divider] fixed at 64, the ratios that pass the
    generation-specific check. *)
Lemma mclk_fs_div_check_after_fs rate s1 r :
  mclk_fs_div_check (after_fs rate s1) r = None ->
  (has_mclk_sclk_div s1 = true /\ v1_1_ratio r) \/
  (has_mclk_sclk_div s1 = false /\
   r = 64 * v1_mclk_sclk_ratio (audio_fmt s1)).
Proof.
  intros Hc. destruct (has_mclk_sclk_div s1) eqn:Hh.
  - left. split; [reflexivity |].
    apply (mclk_fs_div_check_v1_1 (after_fs rate s1) r Hh). exact Hc.
  - right. split; [reflexivity |].
    apply (mclk_fs_div_check_v1 (after_fs rate s1) r Hh) in Hc.
    rewrite Hc. change (audio_fmt (after_fs rate s1)) with (audio_fmt s1).
    change (sclk_fs_divider (after_fs rate s1)) with 64.
    destruct (audio_fmt s1); reflexivity.
Qed.


Lemma calc_sclk_div_v1_1 s :
  sclk_fs_divider s = 64 -> v1_1_ratio (mclk_fs_divider s) ->
  csky_i2s_calc_sclk_div s =
  Some (mclk_fs_divider s / sclk_fs_divider s / 2 - 1, s) /\
  0 <= mclk_fs_divider s / sclk_fs_divider s / 2 - 1 < 2 ^ 31.
Proof.
  intros Hd Hr. unfold csky_i2s_calc_sclk_div. run. rewrite Hd.
  destruct Hr as [-> | [-> | [-> | ->]]];
    (split; [reflexivity | vm_compute; split; [discriminate | reflexivity]]).
Qed.

Lemma u32_nonneg_small z : 0 <= z < 2 ^ 31 -> u32 z = z.
Proof.
  intros H. apply u32_small. unfold is_u32. rewrite modulus_eq. lia.
Qed.



Lemma calc_mclk_div_rate_0 ws s : csky_i2s_calc_mclk_div 0 ws s = None.
Proof. reflexivity. Qed.

Lemma calc_sclk_div_pure s v s' :
  csky_i2s_calc_sclk_div s = Some (v, s') -> s' = s.
Proof.
  unfold csky_i2s_calc_sclk_div. run.
  destruct (udiv _ _); intros H; inversion H; reflexivity.
Qed.

Lemma calc_refclk_div_pure rate s v s' :
  csky_i2s_calc_refclk_div rate s = Some (v, s') -> s' = s.
Proof.
  unfold csky_i2s_calc_refclk_div. run.
  destruct (ref_clk_of_rate rate).
  - destruct (udiv _ _); intros H; inversion H; reflexivity.
  - intros H; inversion H; reflexivity.
Qed.

(** A non-negative result of [csky_i2s_calc_mclk_div] means that both
    checks were passed and that nothing but the ratio was stored. *)
Lemma calc_mclk_div_nonneg rate ws s m s' :
  csky_i2s_calc_mclk_div rate ws s = Some (m, s') -> 0 <= m ->
  rate <> 0 /\ mclk s mod rate = 0 /\
  mclk_fs_div_check s (mclk s / rate) = None /\
  s' = set_mclk_fs_divider (mclk s / rate) s.
Proof.
  intros Hrun Hm.
  assert (Hr : rate <> 0).
  { intros ->. rewrite calc_mclk_div_rate_0 in Hrun. discriminate. }
  destruct (calc_mclk_div_checks rate ws s Hr) as [Hnm Hck].
  destruct (Z.eq_dec (mclk s mod rate) 0) as [Hmod | Hmod].
  2: { rewrite (Hnm Hmod) in Hrun. inversion Hrun; subst.
       unfold EINVAL in Hm. lia. }
  destruct (mclk_fs_div_check s (mclk s / rate)) as [e |] eqn:Hc.
  { rewrite (Hck Hmod e eq_refl) in Hrun. inversion Hrun; subst.
    unfold EINVAL in Hm. lia. }
  repeat split; try assumption.
  destruct (calc_mclk_div_passed _ _ _ _ _ Hr Hmod Hc Hrun)
    as [-> | (got & -> & _)]; [reflexivity | unfold EINVAL in Hm; lia].
Qed.

(** Whatever [csky_i2s_calc_mclk_div] returns, it leaves the rate, the
    fixed [sclk_fs_divider] and the registers alone, and it stores the
    ratio exactly when both checks are passed. *)
Lemma calc_mclk_div_frame rate ws s m s' :
  csky_i2s_calc_mclk_div rate ws s = Some (m, s') ->
  sample_rate s' = sample_rate s /\
  sclk_fs_divider s' = sclk_fs_divider s /\
  regs s' = regs s /\
  let passed := mclk s mod rate = 0 /\
                mclk_fs_div_check s (mclk s / rate) = None in
  (passed -> mclk_fs_divider s' = mclk s / rate) /\
  (~ passed -> mclk_fs_divider s' = mclk_fs_divider s).
Proof.
  intros Hrun.
  assert (Hr : rate <> 0).
  { intros ->. rewrite calc_mclk_div_rate_0 in Hrun. discriminate. }
  destruct (calc_mclk_div_checks rate ws s Hr) as [Hnm Hck].
  destruct (Z.eq_dec (mclk s mod rate) 0) as [Hmod | Hmod].
  2: { rewrite (Hnm Hmod) in Hrun. inversion Hrun; subst.
       repeat split; try reflexivity. intros [? _]; contradiction. }
  destruct (mclk_fs_div_check s (mclk s / rate)) as [e |] eqn:Hc.
  { rewrite (Hck Hmod e eq_refl) in Hrun. inversion Hrun; subst.
    repeat split; try reflexivity. intros [_ ?]; discriminate. }
  destruct (calc_mclk_div_passed _ _ _ _ _ Hr Hmod Hc Hrun)
    as [-> | (got & _ & ->)];
    (repeat split; try reflexivity; intros Hn; exfalso; apply Hn;
     split; first [assumption | reflexivity]).
Qed.

Lemma program_dividers_sclk_fs_divider rate ws d s1 :
  program_dividers rate ws (set_sclk_fs_divider d s1) =
  program_dividers rate ws s1.
Proof. rewrite !program_dividers_unfold. reflexivity. Qed.


Lemma write_dividers_frame has m r k s :
  let s' := write_dividers has m r k s in
  has_mclk_sclk_div s' = has_mclk_sclk_div s /\
  src_clk s' = src_clk s /\ mclk s' = mclk s /\
  sample_rate s' = sample_rate s /\
  sclk_fs_divider s' = sclk_fs_divider s /\
  mclk_fs_divider s' = mclk_fs_divider s /\
  dev s' = dev s.
Proof. unfold write_dividers. destruct has; simpl; repeat split. Qed.



(** A request that returns 0 went through every calculator. *)
Lemma set_clk_rate_success rate ws s s' :
  set_clk_rate rate ws s = Some (0, s') ->
  exists s1 m r k,
    select_clk rate s = Some (None, s1) /\
    let s2 := after_fs rate s1 in
    let s3 := set_mclk_fs_divider (mclk s1 / rate) s2 in
    rate <> 0 /\ mclk s1 mod rate = 0 /\
    mclk_fs_div_check s2 (mclk s1 / rate) = None /\
    csky_i2s_calc_mclk_div rate ws s2 = Some (m, s3) /\
    s' = write_dividers (has_mclk_sclk_div s1) m r k s3.
Proof.
  rewrite set_clk_rate_unfold.
  destruct (select_clk rate s) as [[[r0 |] s1] |] eqn:Hsel;
    [| | discriminate].
  { intros H; inversion H; subst.
    exfalso. exact (select_i2s_clk_early _ _ _ _ Hsel eq_refl). }
  rewrite program_dividers_unfold.
  destruct (csky_i2s_calc_mclk_div rate ws (after_fs rate s1))
    as [[m s3] |] eqn:Hrun; [| discriminate].
  destruct (Z.ltb_spec m 0) as [Hlt | Hge]; [intros H; inversion H |].
  destruct (calc_mclk_div_nonneg _ _ _ _ _ Hrun Hge)
    as (Hr & Hmod & Hc & Hs3).
  change (mclk (after_fs rate s1)) with (mclk s1) in *.
  assert (Hh : has_mclk_sclk_div s3 = has_mclk_sclk_div s1)
    by (rewrite Hs3; reflexivity).
  rewrite Hh.
  destruct (if has_mclk_sclk_div s1 then csky_i2s_calc_sclk_div s3
            else Some (0, s3)) as [[k s4] |] eqn:Hk; [| discriminate].
  assert (Hs4 : s4 = s3).
  { destruct (has_mclk_sclk_div s1).
    - exact (calc_sclk_div_pure _ _ _ Hk).
    - inversion Hk; reflexivity. }
  subst s4.
  destruct (has_mclk_sclk_div s1 && (k <? 0)); [intros H; inversion H |].
  destruct (csky_i2s_calc_refclk_div rate s3) as [[r s5] |] eqn:Href;
    [| discriminate].
  pose proof (calc_refclk_div_pure _ _ _ _ Href) as ->.
  destruct (r <? 0); intros H; inversion H.
  exists s1, m, r, k. split; [reflexivity |].
  cbv zeta. rewrite <- Hs3. repeat split; first [assumption | reflexivity].
Qed.

(** C9.  On generation v1, a request returns 0 only if the master clock
    is an exact multiple of the rate with ratio 512 for the formats I2S
    and LEFT_J and 256 for RIGHT_J: the frame-sync calculator has set
    [sclk_fs_divider] to 64 before the ratio is checked.  The value of
    [sclk_fs_divider] before the request has no part in it: the request
    gives the same result from any other value. *)
Theorem set_clk_rate_v1_ratio rate ws s s' :
  has_mclk_sclk_div s = params_csky_i2s_v1 ->
  set_clk_rate rate ws s = Some (0, s') ->
  sclk_fs_divider s' = 64 /\
  mclk s mod rate = 0 /\
  mclk s / rate = match audio_fmt s with
                  | SND_SOC_DAIFMT_RIGHT_J => 256
                  | _ => 512
                  end /\
  (forall d,
     set_clk_rate rate ws (set_sclk_fs_divider d s) = Some (0, s')).
Proof.
  intros Hh Hrun.
  destruct (set_clk_rate_success _ _ _ _ Hrun)
    as (s1 & m & r & k & Hsel & _ & Hmod & Hc & _ & Hs').
  destruct (select_i2s_clk_frame _ _ _ _ Hsel)
    as (Fh & Fm & _ & Ff & _).
  split; [| split; [| split]].
  - rewrite Hs'.
    destruct (write_dividers_frame (has_mclk_sclk_div s1) m r k
                (set_mclk_fs_divider (mclk s1 / rate) (after_fs rate s1)))
      as (_ & _ & _ & _ & -> & _). reflexivity.
  - rewrite <- Fm. exact Hmod.
  - destruct (mclk_fs_div_check_after_fs _ _ _ Hc) as [[Hv _] | [_ Hv]].
    + rewrite Fh, Hh in Hv. discriminate.
    + rewrite <- Fm, <- Ff, Hv. destruct (audio_fmt s1); reflexivity.
  - intros d. rewrite set_clk_rate_unfold, select_i2s_clk_sclk_fs_divider.
    rewrite Hsel, program_dividers_sclk_fs_divider.
    rewrite set_clk_rate_unfold, Hsel in Hrun. exact Hrun.
Qed.

(** C10 (amended).  A request that fails in the clock selection (an
    unsupported rate, or a clock that refuses the new rate) returns
    before anything is stored: the rate, both ratios and the registers
    are as before.  A request that the clock selection lets continue and
    that then fails has stored the requested rate in [sample_rate] and
    64 in [sclk_fs_divider]; it has stored the ratio [mclk / rate] in
    [mclk_fs_divider] exactly when both checks of the master-clock
    calculator were passed; and it has written no divider register. *)
Theorem set_clk_rate_failure_state rate ws s :
  (forall r s1,
     select_clk rate s = Some (Some r, s1) ->
     set_clk_rate rate ws s = Some (r, s1) /\ r <> 0 /\
     sample_rate s1 = sample_rate s /\
     sclk_fs_divider s1 = sclk_fs_divider s /\
     mclk_fs_divider s1 = mclk_fs_divider s /\
     regs s1 = regs s) /\
  (forall s1 v s',
     select_clk rate s = Some (None, s1) ->
     set_clk_rate rate ws s = Some (v, s') ->
     v <> 0 ->
     sample_rate s' = rate /\
     sclk_fs_divider s' = 64 /\
     regs s' = regs s /\
     let passed := mclk s mod rate = 0 /\
                   mclk_fs_div_check (after_fs rate s1) (mclk s / rate)
                   = None in
     (passed -> mclk_fs_divider s' = mclk s / rate) /\
     (~ passed -> mclk_fs_divider s' = mclk_fs_divider s)).
Proof.
  split.
  - intros r s1 Hsel. rewrite set_clk_rate_unfold, Hsel.
    destruct (select_i2s_clk_frame _ _ _ _ Hsel)
      as (_ & _ & F1 & _ & F2 & F3 & _ & F4 & _).
    pose proof (select_i2s_clk_early _ _ _ _ Hsel).
    repeat split; assumption.
  - intros s1 v s' Hsel Hrun Hv.
    destruct (select_i2s_clk_frame _ _ _ _ Hsel)
      as (_ & Fm & _ & _ & _ & Ff & _ & Fr & _).
    rewrite set_clk_rate_unfold, Hsel, program_dividers_unfold in Hrun.
    destruct (csky_i2s_calc_mclk_div rate ws (after_fs rate s1))
      as [[m s3] |] eqn:Hm; [| discriminate].
    destruct (calc_mclk_div_frame _ _ _ _ _ Hm) as (G1 & G2 & G3 & G4).
    change (mclk (after_fs rate s1)) with (mclk s1) in G4.
    change (mclk_fs_divider (after_fs rate s1))
      with (mclk_fs_divider s1) in G4.
    rewrite Fm, Ff in G4.
    assert (Hs3 : s' = s3).
    { destruct (m <? 0); [inversion Hrun; reflexivity |].
      destruct (has_mclk_sclk_div s3) eqn:Hh.
      - destruct (csky_i2s_calc_sclk_div s3) as [[k s4] |] eqn:Hk;
          [| discriminate].
        pose proof (calc_sclk_div_pure _ _ _ Hk) as ->.
        destruct (true && (k <? 0)); [inversion Hrun; reflexivity |].
        destruct (csky_i2s_calc_refclk_div rate s3) as [[r s5] |] eqn:Href;
          [| discriminate].
        pose proof (calc_refclk_div_pure _ _ _ _ Href) as ->.
        destruct (r <? 0); inversion Hrun; [reflexivity | congruence].
      - cbn [andb] in Hrun.
        destruct (csky_i2s_calc_refclk_div rate s3) as [[r s5] |] eqn:Href;
          [| discriminate].
        pose proof (calc_refclk_div_pure _ _ _ _ Href) as ->.
        destruct (r <? 0); inversion Hrun; [reflexivity | congruence]. }
    subst s'. rewrite G1, G2, G3, <- Fr.
    repeat split; try reflexivity; apply G4.
Qed.

(** C5 (amended).  In a request that the clock selection lets continue,
    when the master clock is an exact multiple of the positive rate, the
    ratio passes the generation-specific check and
    [src_clk / (2 * mclk) - 1] is negative, [csky_i2s_calc_mclk_div]
    returns -1 without a round trip and without a diagnostic, having
    stored the ratio; the request takes the negative value for a failure:
    it returns [-EINVAL] and writes no divider register. *)
Theorem set_clk_rate_negative_mclk_div rate ws s s1 :
  0 < rate ->
  select_clk rate s = Some (None, s1) ->
  wf_i2s s1 ->
  mclk s1 mod rate = 0 ->
  mclk_fs_div_check (after_fs rate s1) (mclk s1 / rate) = None ->
  src_clk s1 / (2 * mclk s1) - 1 < 0 ->
  let s3 := set_mclk_fs_divider (mclk s1 / rate) (after_fs rate s1) in
  csky_i2s_calc_mclk_div rate ws (after_fs rate s1) = Some (-1, s3) /\
  set_clk_rate rate ws s = Some (- EINVAL, s3) /\
  regs s3 = regs s /\ dev s3 = dev s.
Proof.
  intros Hr Hsel Hwf Hmod Hc Hd s3.
  destruct (select_i2s_clk_frame _ _ _ _ Hsel)
    as (_ & _ & _ & _ & _ & _ & Fd & Fr & _).
  assert (H0 : mclk s1 <> 0).
  { intros E.
    destruct (mclk_fs_div_check_after_fs _ _ _ Hc) as [[_ Hv] | [_ Hv]];
      rewrite E, Z.div_0_l in Hv by lia.
    - unfold v1_1_ratio in Hv. lia.
    - destruct (audio_fmt s1); simpl in Hv; lia. }
  assert (Hneg : csky_i2s_calc_mclk_div rate ws (after_fs rate s1)
                 = Some (-1, s3)).
  { apply (calc_mclk_div_negative rate ws (after_fs rate s1));
      assumption. }
  split; [exact Hneg |]. split.
  - rewrite set_clk_rate_unfold, Hsel, program_dividers_unfold, Hneg.
    reflexivity.
  - split; [exact Fr | exact Fd].
Qed.

End Request.

(** ** Instances *)

Ltac concrete :=
  first [ reflexivity
        | unfold wf_i2s, is_u32; simpl; rewrite ?modulus_eq; lia
        | vm_compute; lia
        | vm_compute; intuition (discriminate || lia) ].

(** The master clock of 10 MHz is refused for 48 kHz before any ratio
    is stored; the master clock of 12.288 MHz draws no diagnostic of kind
    [ClockRatioError]. *)
Lemma calc_mclk_div_clock_ratio_error_witness :
  csky_i2s_calc_mclk_div 48000 16 v1_1_10mhz =
  Some (- EINVAL, log_msg ERR_mclk_not_multiple_of_fs v1_1_10mhz) /\
  (forall v s', csky_i2s_calc_mclk_div 48000 16 v1_1_48k = Some (v, s') ->
   forall m, In m (emitted v1_1_48k s') ->
             kind_of_msg m <> ClockRatioError).
Proof.
  split.
  - apply (proj1 (calc_mclk_div_clock_ratio_error 48000 16 v1_1_10mhz
                    ltac:(lia))).
    vm_compute. discriminate.
  - apply (proj2 (calc_mclk_div_clock_ratio_error 48000 16 v1_1_48k
                    ltac:(lia))).
    reflexivity.
Defined.

(** On generation v1.1 the ratio 100 is refused with the diagnostic
    "invalid mclk_fs_div(100)", and the ratio 256 is accepted. *)
Lemma calc_mclk_div_v1_1_ratio_witness :
  csky_i2s_calc_mclk_div 48000 16 v1_1_ratio_100 =
  Some (- EINVAL, log_msg (ERR_invalid_mclk_fs_div 100) v1_1_ratio_100) /\
  (exists v s', csky_i2s_calc_mclk_div 48000 16 v1_1_48k = Some (v, s') /\
                mclk_fs_divider s' = 256 /\
                forall m, In m (emitted v1_1_48k s') ->
                          kind_of_msg m <> InvalidRatioError).
Proof.
  split.
  - apply (proj1 (proj2 (calc_mclk_div_v1_1_ratio 48000 16 v1_1_ratio_100
                           eq_refl ltac:(lia)))).
    + reflexivity.
    + vm_compute. intuition discriminate.
  - apply (proj2 (proj2 (calc_mclk_div_v1_1_ratio 48000 16 v1_1_48k
                           eq_refl ltac:(lia)))).
    + reflexivity.
    + vm_compute. tauto.
    + concrete.
Defined.

(** On generation v1 in I2S format with [sclk_fs_divider] 64, the ratio
    256 is refused and the ratio 512 is accepted. *)
Lemma calc_mclk_div_v1_ratio_witness :
  (exists m, csky_i2s_calc_mclk_div 48000 16 v1_ratio_256 =
             Some (- EINVAL, log_msg m v1_ratio_256) /\
             kind_of_msg m = InvalidRatioError) /\
  (exists v s', csky_i2s_calc_mclk_div 48000 16 v1_48k_fs64 =
                Some (v, s')).
Proof.
  split.
  - apply (proj1 (proj2 (proj2 (calc_mclk_div_v1_ratio 48000 16
                                  v1_ratio_256 eq_refl ltac:(lia))))).
    + reflexivity.
    + vm_compute. discriminate.
  - apply (proj2 (proj2 (proj2 (calc_mclk_div_v1_ratio 48000 16
                                  v1_48k_fs64 eq_refl ltac:(lia))))).
    + reflexivity.
    + reflexivity.
    + concrete.
    + vm_compute. discriminate.
Defined.

(** C2, as stated, fails for a master clock that is not a multiple of
    the rate.  On generation v1.1 with a master clock of 10 MHz and the
    rate 48000 the ratio is 208, which is not 256, 384, 512 or 768; the
    call is rejected by the first check, with the diagnostic "mclk is not
    a multiple of fs" of kind [ClockRatioError], and prints nothing of
    kind [InvalidRatioError]. *)
Lemma calc_mclk_div_v1_1_non_multiple_kind :
  let s := v1_1_10mhz in
  has_mclk_sclk_div s = params_csky_i2s_v1_1 /\
  mclk s / 48000 = 208 /\
  ~ v1_1_ratio (mclk s / 48000) /\
  mclk s mod 48000 = 16000 /\
  csky_i2s_calc_mclk_div 48000 16 s =
  Some (- EINVAL, log_msg ERR_mclk_not_multiple_of_fs s) /\
  emitted s (log_msg ERR_mclk_not_multiple_of_fs s) =
  [ERR_mclk_not_multiple_of_fs] /\
  kind_of_msg ERR_mclk_not_multiple_of_fs = ClockRatioError /\
  kind_of_msg ERR_mclk_not_multiple_of_fs <> InvalidRatioError.
Proof.
  cbv zeta. repeat split; try reflexivity; try discriminate.
  unfold v1_1_ratio. vm_compute. intuition discriminate.
Qed.

(** C3, as stated, fails for a master clock that is not a multiple of
    the rate.  On generation v1 in I2S format with [sclk_fs_divider] 64, a
    master clock of 10 MHz and the rate 48000, the ratio is 208 and not
    the required 512; the call is rejected by the first check, with the
    diagnostic "mclk is not a multiple of fs" of kind [ClockRatioError],
    and prints nothing of kind [InvalidRatioError]. *)
Lemma calc_mclk_div_v1_non_multiple_kind :
  let s := v1_10mhz_fs64 in
  has_mclk_sclk_div s = params_csky_i2s_v1 /\
  audio_fmt s = SND_SOC_DAIFMT_I2S /\
  mclk s / 48000 = 208 /\
  umul 8 (sclk_fs_divider s) = 512 /\
  mclk s mod 48000 = 16000 /\
  csky_i2s_calc_mclk_div 48000 16 s =
  Some (- EINVAL, log_msg ERR_mclk_not_multiple_of_fs s) /\
  emitted s (log_msg ERR_mclk_not_multiple_of_fs s) =
  [ERR_mclk_not_multiple_of_fs] /\
  kind_of_msg ERR_mclk_not_multiple_of_fs = ClockRatioError /\
  kind_of_msg ERR_mclk_not_multiple_of_fs <> InvalidRatioError.
Proof.
  cbv zeta. repeat split; try reflexivity; discriminate.
Qed.

(** The end-to-end example of the specification: 24.576 MHz source,
    12.288 MHz master clock, 48 kHz, divider 0. *)
Lemma calc_mclk_div_exact_witness :
  csky_i2s_calc_mclk_div 48000 16 v1_1_48k =
  Some (0, set_mclk_fs_divider 256 v1_1_48k).
Proof.
  apply (proj1 (calc_mclk_div_exact 48000 16 v1_1_48k
                  ltac:(concrete) ltac:(lia) eq_refl eq_refl
                  ltac:(vm_compute; discriminate))).
  reflexivity.
Defined.

(** C1, as stated, fails for the master clock 256 * 44.1 kHz on a
    24.576 MHz source: the rate is supported, the master clock is an
    exact multiple of it with the admitted ratio 256, and
    [src_clk / (2 * mclk) - 1] is 0; but the reconstructed clock is
    12288000, not 11289600, and the calculator returns [-EINVAL], not
    0. *)
Lemma calc_mclk_div_roundtrip_fails :
  let s := v1_1_44k1 in
  let d := src_clk s / (2 * mclk s) - 1 in
  rate_44k_family 44100 /\
  mclk s mod 44100 = 0 /\
  mclk_fs_div_check s (mclk s / 44100) = None /\
  d = 0 /\
  src_clk s / (2 * (d + 1)) = 12288000 /\
  mclk s = 11289600 /\
  csky_i2s_calc_mclk_div 44100 16 s =
  Some (- EINVAL,
        log_msg (ERR_mclk_mismatch 11289600 12288000)
                (set_mclk_fs_divider 256 s)).
Proof.
  cbv zeta. unfold rate_44k_family.
  repeat split; try reflexivity. right; right; left; reflexivity.
Qed.

(** The reference-clock dividers on a 24.576 MHz source: 3 for 48 kHz,
    4 for 44.1 kHz (although 24576000 / (2 * 5) is not 2116800), and
    [-EINVAL] for 12 kHz. *)
Lemma calc_refclk_div_table_witness :
  csky_i2s_calc_refclk_div 48000 v1_1_48k = Some (3, v1_1_48k) /\
  csky_i2s_calc_refclk_div 44100 v1_1_48k = Some (4, v1_1_48k) /\
  24576000 / (2 * (4 + 1)) <> 2116800 /\
  csky_i2s_calc_refclk_div 12000 v1_1_48k = Some (- EINVAL, v1_1_48k).
Proof.
  assert (Hs : is_u32 (src_clk v1_1_48k)) by concrete.
  split; [| split; [| split]].
  - apply (proj1 (calc_refclk_div_table 48000 v1_1_48k Hs)).
    unfold rate_48k_family. lia.
  - apply (proj1 (proj2 (calc_refclk_div_table 44100 v1_1_48k Hs))).
    unfold rate_44k_family. lia.
  - vm_compute. discriminate.
  - apply (proj2 (proj2 (calc_refclk_div_table 12000 v1_1_48k Hs)));
      [unfold rate_48k_family | unfold rate_44k_family]; lia.
Defined.


(** A request on generation v1 that succeeds: the ratio is 512, and the
    configured [sclk_fs_divider] of 32 has been replaced by 64. *)
Lemma set_clk_rate_v1_ratio_witness :
  exists s',
    csky_i2s_set_clk_rate fixed_clk_set_rate fixed_clk_get_rate
      48000 16 v1_48k = Some (0, s') /\
    sclk_fs_divider v1_48k = 32 /\
    sclk_fs_divider s' = 64 /\
    mclk v1_48k mod 48000 = 0 /\
    mclk v1_48k / 48000 = 512.
Proof.
  eexists. split; [vm_compute; reflexivity |].
  split; [reflexivity |].
  pose proof (set_clk_rate_v1_ratio fixed_clk_set_rate fixed_clk_get_rate
                48000 16 v1_48k _ eq_refl eq_refl) as (H1 & H2 & H3 & _).
  split; [exact H1 | split; [exact H2 | exact H3]].
Defined.

(** A request that fails after the ratio check: the source clock equals
    the master clock.  The rate, the fixed 64 and the ratio 256 have been
    stored, and no register has been written. *)
Lemma set_clk_rate_failure_state_witness :
  let s' := set_mclk_fs_divider 256 (after_fs 48000 v1_1_slow_src) in
  csky_i2s_set_clk_rate fixed_clk_set_rate fixed_clk_get_rate
    48000 16 v1_1_slow_src = Some (- EINVAL, s') /\
  sample_rate s' = 48000 /\ sclk_fs_divider s' = 64 /\
  regs s' = regs v1_1_slow_src /\
  mclk_fs_divider s' = 256.
Proof.
  intros s'. split; [reflexivity |].
  destruct (proj2 (set_clk_rate_failure_state fixed_clk_set_rate
                     fixed_clk_get_rate 48000 16 v1_1_slow_src)
              v1_1_slow_src (- EINVAL) s' eq_refl eq_refl
              ltac:(vm_compute; discriminate))
    as (H1 & H2 & H3 & H4 & _).
  split; [exact H1 |]. split; [exact H2 |]. split; [exact H3 |].
  apply H4. split; reflexivity.
Defined.

(** C10, as stated, fails for a request that fails in the clock
    selection.  A controller that runs at 44.1 kHz and whose clock refuses
    the rate for 48 kHz returns the clock's error with [sample_rate] still
    44100; the same holds for the rate 12000, which the first [switch]
    rejects. *)
Lemma set_clk_rate_early_failure_keeps_rate :
  csky_i2s_set_clk_rate stuck_clk_set_rate fixed_clk_get_rate
    48000 16 v1_1_own_clk = Some (- EINVAL, v1_1_own_clk) /\
  csky_i2s_set_clk_rate fixed_clk_set_rate fixed_clk_get_rate
    12000 16 v1_1_own_clk = Some (- EINVAL, v1_1_own_clk) /\
  sample_rate v1_1_own_clk = 44100 /\
  sample_rate v1_1_own_clk <> 48000 /\
  sample_rate v1_1_own_clk <> 12000.
Proof.
  repeat split; try reflexivity; vm_compute; discriminate.
Qed.

(** With a source clock equal to the master clock the calculator returns
    -1 and the request returns [-EINVAL]. *)
Lemma set_clk_rate_negative_mclk_div_witness :
  let s3 := set_mclk_fs_divider 256 (after_fs 48000 v1_1_slow_src) in
  csky_i2s_calc_mclk_div 48000 16 (after_fs 48000 v1_1_slow_src) =
  Some (-1, s3) /\
  csky_i2s_set_clk_rate fixed_clk_set_rate fixed_clk_get_rate
    48000 16 v1_1_slow_src = Some (- EINVAL, s3) /\
  regs s3 = regs v1_1_slow_src /\ dev s3 = dev v1_1_slow_src.
Proof.
  exact (set_clk_rate_negative_mclk_div fixed_clk_set_rate
           fixed_clk_get_rate 48000 16 v1_1_slow_src v1_1_slow_src
           ltac:(lia) eq_refl ltac:(concrete) eq_refl eq_refl
           ltac:(vm_compute; reflexivity)).
Defined.

(** C5, as stated, fails for a source clock equal to the master clock:
    [src_clk / (2 * mclk) - 1] is -1 and the ratio 256 passes the check,
    but the request returns [-EINVAL] and writes no register. *)
Lemma set_clk_rate_rejects_negative_mclk_div :
  let s := v1_1_slow_src in
  src_clk s / (2 * mclk s) - 1 = -1 /\
  mclk s mod 48000 = 0 /\
  mclk_fs_div_check (after_fs 48000 s) (mclk s / 48000) = None /\
  exists s',
    csky_i2s_set_clk_rate fixed_clk_set_rate fixed_clk_get_rate
      48000 16 s = Some (- EINVAL, s') /\
    regs s' = [].
Proof.
  cbv zeta. repeat split. eexists. split; reflexivity.
Qed.

(** ** The request is its plan *)

Section PlanFacts.

Context {clk : Type}.
Variable clk_set_rate : clk -> Z -> clk * Z.
Variable clk_get_rate : clk -> Z.
Implicit Types s : csky_i2s clk.

Local Abbreviation select_clk := (select_i2s_clk clk_set_rate clk_get_rate).
Local Abbreviation set_clk_rate :=
  (csky_i2s_set_clk_rate clk_set_rate clk_get_rate).

Ltac run := unfold dev_err, csky_i2s_writel in *;
  unfold bind, ret, gets, modify, defined in *; cbv beta in *.

Lemma mclk_fs_div_check_after_fs_eq rate s r :
  mclk_fs_div_check (after_fs rate s) r =
  if ratio_admitted (has_mclk_sclk_div s) (audio_fmt s) r then None
  else Some (ratio_error (has_mclk_sclk_div s) (audio_fmt s) r).
Proof.
  unfold mclk_fs_div_check, ratio_admitted, ratio_error.
  change (has_mclk_sclk_div (after_fs rate s)) with (has_mclk_sclk_div s).
  change (audio_fmt (after_fs rate s)) with (audio_fmt s).
  change (sclk_fs_divider (after_fs rate s)) with 64.
  destruct (has_mclk_sclk_div s).
  - destruct (r =? 256), (r =? 384), (r =? 512), (r =? 768); reflexivity.
  - destruct (audio_fmt s);
      [ change (umul 8 64) with 512 | change (umul 4 64) with 256
      | change (umul 8 64) with 512 ];
      cbn [v1_mclk_sclk_ratio];
      change (64 * 8) with 512; change (64 * 4) with 256;
      match goal with
      | |- context [r =? ?x] => destruct (r =? x)
      end; reflexivity.
Qed.

Lemma ratio_admitted_range has fmt r :
  ratio_admitted has fmt r = true -> 256 <= r <= 768 /\ r mod 128 = 0.
Proof.
  unfold ratio_admitted. destruct has.
  - destruct (Z.eqb_spec r 256), (Z.eqb_spec r 384), (Z.eqb_spec r 512),
      (Z.eqb_spec r 768); cbn [orb]; try discriminate; intros _; subst;
      split; first [lia | reflexivity].
  - destruct fmt; cbn [v1_mclk_sclk_ratio]; intros H;
      apply Z.eqb_eq in H; subst; split; first [lia | reflexivity].
Qed.

Lemma write_dividers_fold has m r k s :
  write_dividers has m r k s =
  fold_left (fun s w => write_reg (fst w) (snd w) s)
    ([ (IIS_DIV0_LEVEL, m); (IIS_DIV1_LEVEL, 17);
       (IIS_DIV2_LEVEL, 31); (IIS_DIV3_LEVEL, r) ] ++
     (if has then [ (IIS_DIV4_LEVEL, k) ] else []))
    s.
Proof. unfold write_dividers. destruct has; reflexivity. Qed.

(** Once the clock selection lets a request continue, the request
    returns what its plan says and leaves the structure as the plan
    applied to it. *)
Lemma program_dividers_plan rate ws s1 :
  0 < rate -> wf_i2s s1 ->
  program_dividers rate ws s1 =
  Some (plan_ret (plan_of rate s1), apply_plan rate (plan_of rate s1) s1).
Proof.
  intros Hr Hwf.
  assert (Hwf2 : wf_i2s (after_fs rate s1)) by exact Hwf.
  rewrite program_dividers_unfold.
  rewrite (calc_mclk_div_unfold rate ws (after_fs rate s1) Hr Hwf2).
  unfold plan_of, request_plan, apply_plan.
  change (mclk (after_fs rate s1)) with (mclk s1).
  destruct (Z.eqb_spec (mclk s1 mod rate) 0) as [Hmod | Hmod];
    cbn [negb]; [| reflexivity].
  rewrite mclk_fs_div_check_after_fs_eq.
  destruct (ratio_admitted (has_mclk_sclk_div s1) (audio_fmt s1)
              (mclk s1 / rate)) eqn:Hadm; cbn [negb]; [| reflexivity].
  destruct (ratio_admitted_range _ _ _ Hadm) as [Hrange _].
  assert (Hm : 0 < mclk s1).
  { destruct Hwf as [_ [Hm0 _]].
    destruct (Z.eq_dec (mclk s1) 0) as [E | E]; [| lia].
    rewrite E, Z.div_0_l in Hrange; lia. }
  destruct (Z.eqb_spec (mclk s1) 0); [lia |].
  set (s3 := set_mclk_fs_divider (mclk s1 / rate) (after_fs rate s1)).
  unfold mclk_div_outcome.
  change (src_clk s3) with (src_clk s1). change (mclk s3) with (mclk s1).
  rewrite div2_div by assumption.
  set (q := src_clk s1 / (2 * mclk s1)).
  assert (Hq : 0 <= q).
  { apply Z.div_pos; [destruct Hwf as [[? _] _] |]; lia. }
  destruct (Z.eqb_spec q 0) as [Hq0 | Hq0]; [reflexivity |].
  destruct (Z.eqb_spec (src_clk s1 / (2 * q)) (mclk s1)) as [Hrt | Hrt];
    cbn [negb plan_ret plan_ratio plan_msgs plan_writes fold_left];
    [| reflexivity].
  destruct (Z.ltb_spec (q - 1) 0); [lia |].
  change (has_mclk_sclk_div s3) with (has_mclk_sclk_div s1).
  assert (Hsclk : has_mclk_sclk_div s1 = true ->
                  csky_i2s_calc_sclk_div s3 =
                  Some (mclk s1 / rate / 64 / 2 - 1, s3) /\
                  0 <= mclk s1 / rate / 64 / 2 - 1).
  { intros Hh.
    destruct (calc_sclk_div_v1_1 s3 eq_refl) as [E Hk].
    - rewrite Hh in Hadm. unfold ratio_admitted in Hadm.
      change (mclk_fs_divider s3) with (mclk s1 / rate). unfold v1_1_ratio.
      destruct (Z.eqb_spec (mclk s1 / rate) 256),
        (Z.eqb_spec (mclk s1 / rate) 384),
        (Z.eqb_spec (mclk s1 / rate) 512),
        (Z.eqb_spec (mclk s1 / rate) 768); try discriminate; tauto.
    - split; [exact E | apply Hk]. }
  assert (Hstep :
    (if has_mclk_sclk_div s1 then csky_i2s_calc_sclk_div s3
     else Some (0, s3)) =
    Some (if has_mclk_sclk_div s1 then mclk s1 / rate / 64 / 2 - 1 else 0,
          s3) /\
    has_mclk_sclk_div s1 &&
      ((if has_mclk_sclk_div s1 then mclk s1 / rate / 64 / 2 - 1 else 0)
       <? 0) = false).
  { destruct (has_mclk_sclk_div s1).
    - destruct (Hsclk eq_refl) as [-> Hk]. split; [reflexivity |].
      cbn [andb]. apply Z.ltb_ge. exact Hk.
    - split; reflexivity. }
  destruct Hstep as [-> ->].
  destruct (ref_clk_of_rate rate) as [ref |] eqn:Href.
  - assert (Hge : 2 <= ref).
    { unfold ref_clk_of_rate in Href.
      destruct (_ || _ || _ || _ || _) in Href;
        [inversion Href; lia |].
      destruct (_ || _ || _ || _) in Href; inversion Href; lia. }
    rewrite (calc_refclk_div_known rate ref s3 (proj1 Hwf) Href Hge).
    change (src_clk s3) with (src_clk s1).
    destruct (src_clk s1 / (2 * ref) - 1 <? 0); [reflexivity |].
    cbn [plan_ret plan_ratio plan_msgs plan_writes fold_left].
    rewrite write_dividers_fold.
    destruct (has_mclk_sclk_div s1); reflexivity.
  - unfold csky_i2s_calc_refclk_div. rewrite Href. reflexivity.
Qed.

Lemma fold_log_msg_fields (l : list dev_msg) s :
  let s' := fold_left (fun s m => log_msg m s) l s in
  same_clock_inputs s s' /\ i2s_clk s' = i2s_clk s /\
  src_clk s' = src_clk s /\ sample_rate s' = sample_rate s /\
  sclk_fs_divider s' = sclk_fs_divider s /\
  mclk_fs_divider s' = mclk_fs_divider s /\
  dev s' = dev s ++ l /\ regs s' = regs s.
Proof.
  revert s. induction l as [| m l IH]; intros s; cbn [fold_left].
  - unfold same_clock_inputs. rewrite app_nil_r. repeat split.
  - destruct (IH (log_msg m s))
      as ((H1 & H2 & H3 & H4 & H5) & H6 & H7 & H8 & H9 & H10 & H11 & H12).
    unfold same_clock_inputs.
    rewrite H1, H2, H3, H4, H5, H6, H7, H8, H9, H10, H11, H12.
    unfold log_msg; simpl. rewrite <- app_assoc. repeat split.
Qed.

Lemma fold_write_reg_fields (l : list (divider_reg * Z)) s :
  let s' := fold_left (fun s w => write_reg (fst w) (snd w) s) l s in
  same_clock_inputs s s' /\ i2s_clk s' = i2s_clk s /\
  src_clk s' = src_clk s /\ sample_rate s' = sample_rate s /\
  sclk_fs_divider s' = sclk_fs_divider s /\
  mclk_fs_divider s' = mclk_fs_divider s /\
  dev s' = dev s /\
  regs s' = regs s ++ map (fun w => (fst w, u32 (snd w))) l.
Proof.
  revert s. induction l as [| w l IH]; intros s; cbn [fold_left map].
  - unfold same_clock_inputs. rewrite app_nil_r. repeat split.
  - destruct (IH (write_reg (fst w) (snd w) s))
      as ((H1 & H2 & H3 & H4 & H5) & H6 & H7 & H8 & H9 & H10 & H11 & H12).
    unfold same_clock_inputs.
    rewrite H1, H2, H3, H4, H5, H6, H7, H8, H9, H10, H11, H12.
    unfold write_reg; simpl. rewrite <- app_assoc. repeat split.
Qed.

(** The structure after a plan has been carried out. *)
Lemma apply_plan_fields rate p s :
  let s' := apply_plan rate p s in
  same_clock_inputs s s' /\ i2s_clk s' = i2s_clk s /\
  src_clk s' = src_clk s /\
  sample_rate s' = rate /\ sclk_fs_divider s' = 64 /\
  mclk_fs_divider s' = match plan_ratio p with
                       | Some r => r
                       | None => mclk_fs_divider s
                       end /\
  dev s' = dev s ++ plan_msgs p /\
  regs s' = regs s ++ map (fun w => (fst w, u32 (snd w))) (plan_writes p).
Proof.
  unfold apply_plan.
  set (s1 := match plan_ratio p with
             | Some r => set_mclk_fs_divider r (after_fs rate s)
             | None => after_fs rate s
             end).
  set (s2 := fold_left (fun s m => log_msg m s) (plan_msgs p) s1).
  destruct (fold_write_reg_fields (plan_writes p) s2)
    as ((H1 & H2 & H3 & H4 & H5) & H6 & H7 & H8 & H9 & H10 & H11 & H12).
  destruct (fold_log_msg_fields (plan_msgs p) s1)
    as ((G1 & G2 & G3 & G4 & G5) & G6 & G7 & G8 & G9 & G10 & G11 & G12).
  fold s2 in G1, G2, G3, G4, G5, G6, G7, G8, G9, G10, G11, G12.
  cbv zeta. unfold same_clock_inputs.
  rewrite H1, H2, H3, H4, H5, H6, H7, H8, H9, H10, H11, H12.
  rewrite G1, G2, G3, G4, G5, G6, G7, G8, G9, G10, G11, G12.
  unfold s1. destruct (plan_ratio p); repeat split.
Qed.

Lemma emitted_app s s' l : dev s' = dev s ++ l -> emitted s s' = l.
Proof.
  intros H. unfold emitted. rewrite H.
  rewrite skipn_app, skipn_all, Nat.sub_diag. reflexivity.
Qed.

Lemma written_app s s' l : regs s' = regs s ++ l -> written s s' = l.
Proof.
  intros H. unfold written. rewrite H.
  rewrite skipn_app, skipn_all, Nat.sub_diag. reflexivity.
Qed.

Lemma plan_of_same_inputs rate s s' :
  same_clock_inputs s s' -> src_clk s' = src_clk s ->
  plan_of rate s' = plan_of rate s.
Proof.
  intros (H1 & H2 & H3 & _) H4. unfold plan_of.
  rewrite H1, H2, H3, H4. reflexivity.
Qed.

(** The clock selection leaves the inputs of the plan alone, but for the
    source clock when the controller has a clock of its own. *)
Lemma select_i2s_clk_same_inputs rate s o s1 :
  select_clk rate s = Some (o, s1) ->
  same_clock_inputs s s1 /\
  (i2s_clk s = None -> s1 = s /\ o = None).
Proof.
  unfold select_i2s_clk, retarget_i2s_clk, same_clock_inputs. run.
  destruct (i2s_clk s) as [c |].
  - destruct (_ || _ || _ || _ || _).
    + destruct (clk_set_rate c (clk_fs_48k s)) as [c' r].
      destruct (negb (r =? 0)); intros H; inversion H; subst; simpl;
        repeat split; discriminate.
    + destruct (_ || _ || _ || _).
      * destruct (clk_set_rate c (clk_fs_44k s)) as [c' r].
        destruct (negb (r =? 0)); intros H; inversion H; subst; simpl;
          repeat split; discriminate.
      * intros H; inversion H; subst. repeat split; discriminate.
  - intros H; inversion H; subst. repeat split.
Qed.

Lemma select_i2s_clk_wf rate s o s1 :
  select_clk rate s = Some (o, s1) -> wf_i2s s -> wf_i2s s1.
Proof.
  intros Hsel [Hs Hm].
  destruct (select_i2s_clk_frame _ _ _ _ _ _ Hsel)
    as (_ & Fm & _ & _ & _ & _ & _ & _ & Fs).
  split; [exact (Fs Hs) | rewrite Fm; exact Hm].
Qed.

(** A request that gets past the clock selection is its plan. *)
Lemma set_clk_rate_plan_from rate ws s s1 :
  0 < rate -> wf_i2s s ->
  select_clk rate s = Some (None, s1) ->
  set_clk_rate rate ws s =
  Some (plan_ret (plan_of rate s1), apply_plan rate (plan_of rate s1) s1).
Proof.
  intros Hr Hwf Hsel. rewrite set_clk_rate_unfold, Hsel.
  apply program_dividers_plan; [assumption |].
  exact (select_i2s_clk_wf _ _ _ _ Hsel Hwf).
Qed.

End PlanFacts.

(** ** More on the calculators *)

Section CalculatorFacts.

Context {clk : Type}.
Implicit Types s : csky_i2s clk.

Ltac run := unfold dev_err, csky_i2s_writel in *;
  unfold bind, ret, gets, modify, defined in *; cbv beta in *.

(** The clock reconstructed from the quotient [q = src / (2 * m)] is [m]
    exactly when the remainder of that division is below [2 * q]. *)
Lemma roundtrip_iff src m :
  0 <= src -> 0 < m -> 1 <= src / (2 * m) ->
  (src / (2 * (src / (2 * m))) = m <->
   src mod (2 * m) < 2 * (src / (2 * m))).
Proof.
  intros Hs Hm Hq.
  pose proof (Z.div_mod src (2 * m) ltac:(lia)) as Hdm.
  pose proof (Z.mod_pos_bound src (2 * m) ltac:(lia)) as Hb.
  set (q := src / (2 * m)) in *. set (r := src mod (2 * m)) in *.
  assert (E : src / (2 * q) = m + r / (2 * q)).
  { replace src with (m * (2 * q) + r) at 1 by lia.
    apply Z.div_add_l. lia. }
  rewrite E. split.
  - intros H. assert (H0 : r / (2 * q) = 0) by lia.
    apply Z.div_small_iff in H0; lia.
  - intros H. rewrite Z.div_small by lia. lia.
Qed.

Lemma quotient_ge_1_iff a b : 0 <= a -> 0 < b -> (1 <= a / b <-> b <= a).
Proof.
  intros Ha Hb. split.
  - intros H. destruct (Z.lt_ge_cases a b) as [Hlt | Hge]; [| exact Hge].
    rewrite Z.div_small in H by lia. lia.
  - intros H. apply Z.div_le_lower_bound; lia.
Qed.

(** X1.  The round trip of [csky_i2s_calc_mclk_div] tolerates a
    remainder.  For a master clock that has passed both checks and
    [q = src_clk / (2 * mclk)] at least 1, the divider [q - 1] is
    returned exactly when [src_clk mod (2 * mclk) < 2 * q]; with a larger
    remainder the call prints the mismatch and returns [-EINVAL].  So a
    source clock need not be an exact multiple of twice the master
    clock to be accepted. *)
Theorem calc_mclk_div_roundtrip_tolerance rate ws s :
  wf_i2s s ->
  0 < rate ->
  mclk s mod rate = 0 ->
  mclk_fs_div_check s (mclk s / rate) = None ->
  let q := src_clk s / (2 * mclk s) in
  let s1 := set_mclk_fs_divider (mclk s / rate) s in
  1 <= q ->
  (src_clk s mod (2 * mclk s) < 2 * q ->
   csky_i2s_calc_mclk_div rate ws s = Some (q - 1, s1)) /\
  (2 * q <= src_clk s mod (2 * mclk s) ->
   csky_i2s_calc_mclk_div rate ws s =
   Some (- EINVAL,
         log_msg (ERR_mclk_mismatch (mclk s) (src_clk s / (2 * q))) s1) /\
   mclk s < src_clk s / (2 * q)).
Proof.
  intros Hwf Hr Hmod Hc q s1 Hq.
  assert (H0 : mclk s <> 0).
  { intros E. unfold q in Hq. rewrite E, Z.mul_0_r, Z.div_0_r in Hq. lia. }
  assert (Hm : 0 < mclk s) by (destruct Hwf as [_ [? _]]; lia).
  assert (Hs : 0 <= src_clk s) by (destruct Hwf as [[? _] _]; lia).
  rewrite calc_mclk_div_passed_returns by assumption.
  unfold mclk_div_outcome. fold s1.
  change (src_clk s1) with (src_clk s). change (mclk s1) with (mclk s).
  rewrite div2_div by assumption. fold q.
  destruct (Z.eqb_spec q 0); [lia |].
  pose proof (roundtrip_iff (src_clk s) (mclk s) Hs Hm Hq) as Hrt.
  fold q in Hrt.
  destruct (Z.eqb_spec (src_clk s / (2 * q)) (mclk s)) as [E | E].
  - split; [reflexivity |]. intros Hbig. apply Hrt in E. lia.
  - split; [intros Hsmall; apply Hrt in Hsmall; contradiction |].
    intros Hbig. split; [reflexivity |].
    assert (mclk s <= src_clk s / (2 * q)); [| lia].
    apply Z.div_le_lower_bound; [lia |].
    pose proof (Z.mul_div_le (src_clk s) (2 * mclk s) ltac:(lia)).
    fold q in H. lia.
Qed.

(** X2.  [csky_i2s_calc_sclk_div] divides by [sclk_fs_divider]: it is
    undefined when that field is 0.  Otherwise, for a 32-bit
    [mclk_fs_divider], it returns
    [mclk_fs_divider / (2 * sclk_fs_divider) - 1] and leaves the
    structure alone; the result is -1, which the request takes for a
    failure, exactly when [mclk_fs_divider] is below twice
    [sclk_fs_divider]. *)
Theorem calc_sclk_div_value s :
  is_u32 (mclk_fs_divider s) ->
  (sclk_fs_divider s = 0 -> csky_i2s_calc_sclk_div s = None) /\
  (0 < sclk_fs_divider s ->
   let d := mclk_fs_divider s / (2 * sclk_fs_divider s) - 1 in
   csky_i2s_calc_sclk_div s = Some (d, s) /\
   -1 <= d /\
   (d = -1 <-> mclk_fs_divider s < 2 * sclk_fs_divider s)).
Proof.
  intros Hm. unfold is_u32 in Hm. rewrite modulus_eq in Hm. split.
  - intros E. unfold csky_i2s_calc_sclk_div. run. rewrite E. reflexivity.
  - intros Hd d.
    assert (Hq : 0 <= mclk_fs_divider s / (2 * sclk_fs_divider s)
                 < 2 ^ 31).
    { split; [apply Z.div_pos; lia |].
      apply Z.div_lt_upper_bound; lia. }
    split; [| split].
    + unfold csky_i2s_calc_sclk_div. run.
      rewrite udiv_nonzero by lia.
      rewrite Z.div_div by lia.
      rewrite (Z.mul_comm (sclk_fs_divider s) 2).
      rewrite s32_usub_1 by (unfold int_max; lia). reflexivity.
    + unfold d. lia.
    + unfold d. split.
      * intros E.
        destruct (Z.lt_ge_cases (mclk_fs_divider s)
                    (2 * sclk_fs_divider s)) as [Hlt | Hge]; [exact Hlt |].
        apply (quotient_ge_1_iff (mclk_fs_divider s)
                 (2 * sclk_fs_divider s)) in Hge; lia.
      * intros Hlt. rewrite Z.div_small by lia. reflexivity.
Qed.

(** X3.  For a supported rate with reference clock [ref],
    [csky_i2s_calc_refclk_div] returns a negative value exactly when the
    source clock is below [2 * ref]; a non-negative divider [d] yields a
    clock [src_clk / (2 * (d + 1))] that is never below [ref], and that is
    [ref] exactly when [src_clk mod (2 * ref) < 2 * (d + 1)]. *)
Theorem calc_refclk_div_threshold rate ref s :
  is_u32 (src_clk s) ->
  ref_clk_of_rate rate = Some ref ->
  let d := src_clk s / (2 * ref) - 1 in
  csky_i2s_calc_refclk_div rate s = Some (d, s) /\
  (d < 0 <-> src_clk s < 2 * ref) /\
  (0 <= d ->
   ref <= divided (src_clk s) d /\
   (divided (src_clk s) d = ref <->
    src_clk s mod (2 * ref) < 2 * (d + 1))).
Proof.
  intros Hs Href d.
  assert (Hge : 2 <= ref).
  { unfold ref_clk_of_rate in Href.
    destruct (_ || _ || _ || _ || _) in Href; [inversion Href; lia |].
    destruct (_ || _ || _ || _) in Href; inversion Href; lia. }
  assert (Hs0 : 0 <= src_clk s) by (destruct Hs; lia).
  pose proof (quotient_ge_1_iff (src_clk s) (2 * ref) Hs0 ltac:(lia))
    as Hq1.
  split; [apply calc_refclk_div_known; assumption |].
  split; [unfold d; lia |].
  intros Hd. unfold divided.
  replace (d + 1) with (src_clk s / (2 * ref)) by (unfold d; lia).
  split.
  - apply Z.div_le_lower_bound; [unfold d in Hd; lia |].
    pose proof (Z.mul_div_le (src_clk s) (2 * ref) ltac:(lia)). lia.
  - apply roundtrip_iff; [assumption | lia | unfold d in Hd; lia].
Qed.

End CalculatorFacts.

(** ** More on the request *)

Section RequestFacts.

Context {clk : Type}.
Variable clk_set_rate : clk -> Z -> clk * Z.
Variable clk_get_rate : clk -> Z.
Implicit Types s : csky_i2s clk.

Local Abbreviation select_clk := (select_i2s_clk clk_set_rate clk_get_rate).
Local Abbreviation set_clk_rate :=
  (csky_i2s_set_clk_rate clk_set_rate clk_get_rate).

Ltac run := unfold dev_err, csky_i2s_writel in *;
  unfold bind, ret, gets, modify, defined in *; cbv beta in *.

Lemma ref_clk_of_rate_ge_2 rate ref :
  ref_clk_of_rate rate = Some ref -> 2 <= ref.
Proof.
  unfold ref_clk_of_rate. intros Href.
  destruct (_ || _ || _ || _ || _) in Href; [inversion Href; lia |].
  destruct (_ || _ || _ || _) in Href; inversion Href; lia.
Qed.

(** The plans that return 0. *)
Lemma request_plan_success has fmt src mclk rate :
  0 <= src -> 0 <= mclk -> 0 < rate ->
  let p := request_plan has fmt src mclk rate in
  let r := mclk / rate in
  let q := src / (2 * mclk) in
  (plan_ret p = 0 <->
   mclk mod rate = 0 /\ ratio_admitted has fmt r = true /\
   2 * mclk <= src /\ src mod (2 * mclk) < 2 * q /\
   exists ref, ref_clk_of_rate rate = Some ref /\ 2 * ref <= src) /\
  (plan_ret p = 0 ->
   0 < mclk /\ 1 <= q /\ src / (2 * q) = mclk /\
   exists ref,
     ref_clk_of_rate rate = Some ref /\ 2 * ref <= src /\
     p = Build_plan 0 (Some r) []
           ([ (IIS_DIV0_LEVEL, q - 1); (IIS_DIV1_LEVEL, 17);
              (IIS_DIV2_LEVEL, 31);
              (IIS_DIV3_LEVEL, src / (2 * ref) - 1) ] ++
            (if has then [ (IIS_DIV4_LEVEL, r / 64 / 2 - 1) ] else []))).
Proof.
  intros Hs Hm Hr p r q. unfold p, request_plan. fold r. fold q.
  destruct (Z.eqb_spec (mclk mod rate) 0) as [Hmod | Hmod]; cbn [negb].
  2: { cbn [plan_ret]. unfold EINVAL.
       split; [split; [lia | tauto] | lia]. }
  destruct (ratio_admitted has fmt r) eqn:Hadm; cbn [negb].
  2: { cbn [plan_ret]. unfold EINVAL.
       split; [split; [lia | intros (_ & ? & _); discriminate] | lia]. }
  destruct (ratio_admitted_range _ _ _ Hadm) as [Hrange _].
  assert (Hm0 : 0 < mclk).
  { destruct (Z.eq_dec mclk 0) as [E | E]; [| lia].
    unfold r in Hrange. rewrite E, Z.div_0_l in Hrange; lia. }
  assert (Hq : 0 <= q) by (apply Z.div_pos; lia).
  pose proof (quotient_ge_1_iff src (2 * mclk) Hs ltac:(lia)) as Hq1.
  fold q in Hq1.
  destruct (Z.eqb_spec q 0) as [Hq0 | Hq0].
  { cbn [plan_ret]. unfold EINVAL.
    split; [split; [lia | intros (_ & _ & ? & _); lia] | lia]. }
  assert (Hq1' : 1 <= q) by lia.
  pose proof (roundtrip_iff src mclk Hs Hm0 Hq1') as Hrt. fold q in Hrt.
  destruct (Z.eqb_spec (src / (2 * q)) mclk) as [E | E]; cbn [negb].
  2: { cbn [plan_ret]. unfold EINVAL.
       split; [split; [lia | intros (_ & _ & _ & ? & _); tauto] | lia]. }
  destruct (ref_clk_of_rate rate) as [ref |] eqn:Href.
  2: { cbn [plan_ret]. unfold EINVAL.
       split; [split; [lia |] | lia].
       intros (_ & _ & _ & _ & ref & ? & _). discriminate. }
  pose proof (ref_clk_of_rate_ge_2 _ _ Href) as Hge.
  pose proof (quotient_ge_1_iff src (2 * ref) Hs ltac:(lia)) as Hr1.
  destruct (Z.ltb_spec (src / (2 * ref) - 1) 0) as [Hneg | Hpos].
  { cbn [plan_ret]. unfold EINVAL.
    split; [split; [lia |] | lia].
    intros (_ & _ & _ & _ & ref' & Href' & Hsrc).
    inversion Href'; subst ref'. lia. }
  cbn [plan_ret]. split.
  - split; [intros _ | reflexivity].
    repeat split; try assumption; try tauto; try lia.
    exists ref. split; [reflexivity | lia].
  - intros _. repeat split; try assumption.
    exists ref. split; [reflexivity |]. split; [lia | reflexivity].
Qed.

(** A plan prints at most one diagnostic, and none when it returns 0 or
    writes a register; it writes registers only when it returns 0. *)
Lemma request_plan_msgs has fmt src mclk rate :
  let p := request_plan has fmt src mclk rate in
  (plan_msgs p = [] \/ exists m, plan_msgs p = [m]) /\
  (plan_ret p = 0 \/ plan_ret p = - EINVAL) /\
  (plan_ret p = 0 -> plan_msgs p = []) /\
  (plan_ret p <> 0 -> plan_writes p = []).
Proof.
  unfold request_plan.
  destruct (negb (mclk mod rate =? 0));
    [cbn; unfold EINVAL; repeat split; eauto; lia |].
  destruct (negb (ratio_admitted has fmt (mclk / rate)));
    [cbn; unfold EINVAL; repeat split; eauto; lia |].
  destruct (src / (2 * mclk) =? 0);
    [cbn; unfold EINVAL; repeat split; eauto; lia |].
  destruct (negb (_ =? mclk));
    [cbn; unfold EINVAL; repeat split; eauto; lia |].
  destruct (ref_clk_of_rate rate);
    [| cbn; unfold EINVAL; repeat split; eauto; lia].
  destruct (_ <? 0);
    cbn [plan_ret plan_msgs plan_writes]; unfold EINVAL;
    repeat split; eauto; lia.
Qed.

(** The values a plan writes fit the registers. *)
Lemma request_plan_writes_u32 has fmt src mclk rate :
  is_u32 src -> 0 <= mclk -> 0 < rate ->
  let p := request_plan has fmt src mclk rate in
  map (fun w => (fst w, u32 (snd w))) (plan_writes p) = plan_writes p.
Proof.
  intros Hsrc Hm Hr p. subst p.
  assert (Hs : 0 <= src) by (destruct Hsrc; lia).
  destruct (Z.eq_dec (plan_ret (request_plan has fmt src mclk rate)) 0)
    as [E | E].
  2: { rewrite (proj2 (proj2 (proj2 (request_plan_msgs has fmt src mclk
                                         rate))) E). reflexivity. }
  destruct (proj2 (request_plan_success has fmt src mclk rate Hs Hm Hr) E)
    as (Hm0 & Hq & _ & ref & Href & Hsrc2 & ->).
  pose proof (ref_clk_of_rate_ge_2 _ _ Href) as Hge.
  destruct (proj1 (proj1 (request_plan_success has fmt src mclk rate
                            Hs Hm Hr)) E) as (_ & Hadm & _).
  destruct (ratio_admitted_range _ _ _ Hadm) as [Hrange _].
  unfold is_u32 in Hsrc. rewrite modulus_eq in Hsrc.
  assert (H0 : u32 (src / (2 * mclk) - 1) = src / (2 * mclk) - 1).
  { apply u32_nonneg_small. split; [lia |].
    assert (src / (2 * mclk) < 2 ^ 31); [| lia].
    apply Z.div_lt_upper_bound; lia. }
  assert (H3 : u32 (src / (2 * ref) - 1) = src / (2 * ref) - 1).
  { apply u32_nonneg_small.
    pose proof (quotient_ge_1_iff src (2 * ref) Hs ltac:(lia)).
    split; [lia |].
    assert (src / (2 * ref) < 2 ^ 31); [| lia].
    apply Z.div_lt_upper_bound; lia. }
  assert (H4 : u32 (mclk / rate / 64 / 2 - 1) = mclk / rate / 64 / 2 - 1).
  { apply u32_nonneg_small.
    rewrite Z.div_div by lia. change (64 * 2) with 128.
    pose proof (Z.div_le_mono 256 (mclk / rate) 128 ltac:(lia)
                  ltac:(lia)) as L.
    pose proof (Z.div_le_mono (mclk / rate) 768 128 ltac:(lia)
                  ltac:(lia)) as U.
    change (256 / 128) with 2 in L. change (768 / 128) with 6 in U. lia. }
  cbn [plan_writes]. destruct has; cbn [app map fst snd];
    rewrite H0, H3, ?H4; reflexivity.
Qed.

(** What a request that gets past the clock selection returns, prints,
    writes and stores, read off its plan. *)
Lemma set_clk_rate_observed rate ws s s1 :
  wf_i2s s ->
  0 < rate ->
  select_clk rate s = Some (None, s1) ->
  let p := plan_of rate s1 in
  exists s',
    set_clk_rate rate ws s = Some (plan_ret p, s') /\
    emitted s s' = plan_msgs p /\
    written s s' = plan_writes p /\
    sample_rate s' = rate /\ sclk_fs_divider s' = 64 /\
    mclk_fs_divider s' = match plan_ratio p with
                         | Some r => r
                         | None => mclk_fs_divider s
                         end.
Proof.
  intros Hwf Hr Hsel p.
  pose proof (select_i2s_clk_wf _ _ _ _ _ _ Hsel Hwf) as Hwf1.
  destruct (select_i2s_clk_frame _ _ _ _ _ _ Hsel)
    as (_ & _ & _ & _ & _ & Ff & Fd & Fr & _).
  exists (apply_plan rate p s1).
  split; [apply set_clk_rate_plan_from; assumption |].
  destruct (apply_plan_fields rate p s1)
    as (_ & _ & _ & H1 & H2 & H3 & H4 & H5).
  split; [apply emitted_app; rewrite H4, Fd; reflexivity |].
  split.
  - apply written_app. rewrite H5, Fr. f_equal.
    apply request_plan_writes_u32;
      [exact (proj1 Hwf1) | destruct Hwf1 as [_ [? _]]; assumption
      | assumption].
  - split; [exact H1 |]. split; [exact H2 |]. rewrite H3, Ff. reflexivity.
Qed.

(** X4.  A request that gets past the clock selection is a function of
    the generation, the format, the source clock, the master clock and
    the rate: the value it returns, the diagnostic it prints, the
    registers it writes and the ratio it stores are those of
    [request_plan]; besides, it records the rate and sets
    [sclk_fs_divider] to 64. *)
Theorem set_clk_rate_pure rate ws s s1 :
  wf_i2s s ->
  0 < rate ->
  select_clk rate s = Some (None, s1) ->
  let p := plan_of rate s1 in
  exists s',
    set_clk_rate rate ws s = Some (plan_ret p, s') /\
    emitted s s' = plan_msgs p /\
    written s s' = plan_writes p /\
    sample_rate s' = rate /\ sclk_fs_divider s' = 64 /\
    mclk_fs_divider s' = match plan_ratio p with
                         | Some r => r
                         | None => mclk_fs_divider s
                         end.
Proof. exact (set_clk_rate_observed rate ws s s1). Qed.

(** X5.  A request that gets past the clock selection returns 0 exactly
    when the master clock is an exact multiple of the rate with an
    admitted ratio, the source clock is at least twice the master clock
    with a remainder that the round trip tolerates, and the rate is a
    supported one whose reference clock, doubled, does not exceed the
    source clock. *)
Theorem set_clk_rate_success_iff rate ws s s1 :
  wf_i2s s ->
  0 < rate ->
  select_clk rate s = Some (None, s1) ->
  ((exists s', set_clk_rate rate ws s = Some (0, s')) <->
   mclk s mod rate = 0 /\
   ratio_admitted (has_mclk_sclk_div s) (audio_fmt s) (mclk s / rate)
   = true /\
   2 * mclk s <= src_clk s1 /\
   src_clk s1 mod (2 * mclk s) < 2 * (src_clk s1 / (2 * mclk s)) /\
   exists ref, ref_clk_of_rate rate = Some ref /\
               2 * ref <= src_clk s1).
Proof.
  intros Hwf Hr Hsel.
  pose proof (select_i2s_clk_wf _ _ _ _ _ _ Hsel Hwf) as [Hs1 Hm1].
  destruct (select_i2s_clk_frame _ _ _ _ _ _ Hsel)
    as (Fh & Fm & _ & Ff & _).
  rewrite (set_clk_rate_plan_from _ _ rate ws s s1 Hr Hwf Hsel).
  unfold plan_of. rewrite Fh, Fm, Ff.
  destruct (request_plan_success (has_mclk_sclk_div s) (audio_fmt s)
              (src_clk s1) (mclk s) rate)
    as [Hiff _];
    [destruct Hs1; lia | destruct Hwf as [_ [? _]]; lia | assumption |].
  rewrite <- Hiff. split.
  - intros (s' & H). inversion H. reflexivity.
  - intros ->. eauto.
Qed.

Lemma calc_mclk_div_same_inputs rate ws s m s' :
  csky_i2s_calc_mclk_div rate ws s = Some (m, s') ->
  same_clock_inputs s s' /\ i2s_clk s' = i2s_clk s /\
  src_clk s' = src_clk s.
Proof.
  intros Hrun. unfold same_clock_inputs.
  assert (Hr : rate <> 0).
  { intros ->. rewrite calc_mclk_div_rate_0 in Hrun. discriminate. }
  destruct (calc_mclk_div_checks rate ws s Hr) as [Hnm Hck].
  destruct (Z.eq_dec (mclk s mod rate) 0) as [Hmod | Hmod].
  2: { rewrite (Hnm Hmod) in Hrun. inversion Hrun; subst.
       repeat split. }
  destruct (mclk_fs_div_check s (mclk s / rate)) as [e |] eqn:Hc.
  { rewrite (Hck Hmod e eq_refl) in Hrun. inversion Hrun; subst.
    repeat split. }
  destruct (calc_mclk_div_passed _ _ _ _ _ Hr Hmod Hc Hrun)
    as [-> | (got & _ & ->)]; repeat split.
Qed.

(** X6.  Whatever a request returns, it has not changed the
    generation, the format, the master clock or the two rates kept for
    the clock; on a controller without a clock of its own it has not
    changed the source clock either. *)
Theorem set_clk_rate_preserves rate ws s v s' :
  set_clk_rate rate ws s = Some (v, s') ->
  same_clock_inputs s s' /\
  (i2s_clk s = None -> i2s_clk s' = None /\ src_clk s' = src_clk s).
Proof.
  rewrite set_clk_rate_unfold.
  destruct (select_clk rate s) as [[o s1] |] eqn:Hsel; [| discriminate].
  destruct (select_i2s_clk_same_inputs _ _ _ _ _ _ Hsel) as [Hin Hnone].
  assert (Hbase : same_clock_inputs s s1 /\
                  (i2s_clk s = None ->
                   i2s_clk s1 = None /\ src_clk s1 = src_clk s)).
  { split; [exact Hin |]. intros E. destruct (Hnone E) as [-> _].
    split; [exact E | reflexivity]. }
  destruct o as [r |]; [intros H; inversion H; subst; exact Hbase |].
  rewrite program_dividers_unfold.
  destruct (csky_i2s_calc_mclk_div rate ws (after_fs rate s1))
    as [[m s3] |] eqn:Hm; [| discriminate].
  destruct (calc_mclk_div_same_inputs _ _ _ _ _ Hm)
    as ((G1 & G2 & G3 & G4 & G5) & G6 & G7).
  change (has_mclk_sclk_div (after_fs rate s1))
    with (has_mclk_sclk_div s1) in G1.
  change (audio_fmt (after_fs rate s1)) with (audio_fmt s1) in G2.
  change (mclk (after_fs rate s1)) with (mclk s1) in G3.
  change (clk_fs_44k (after_fs rate s1)) with (clk_fs_44k s1) in G4.
  change (clk_fs_48k (after_fs rate s1)) with (clk_fs_48k s1) in G5.
  change (i2s_clk (after_fs rate s1)) with (i2s_clk s1) in G6.
  change (src_clk (after_fs rate s1)) with (src_clk s1) in G7.
  destruct Hbase as ((B1 & B2 & B3 & B4 & B5) & B6).
  assert (H3 : same_clock_inputs s s3 /\
               (i2s_clk s = None ->
                i2s_clk s3 = None /\ src_clk s3 = src_clk s)).
  { unfold same_clock_inputs.
    rewrite G1, G2, G3, G4, G5, G6, G7, B1, B2, B3, B4, B5.
    repeat split; apply B6; assumption. }
  destruct (m <? 0); [intros H; inversion H; subst; exact H3 |].
  destruct (if has_mclk_sclk_div s3 then csky_i2s_calc_sclk_div s3
            else Some (0, s3)) as [[k s4] |] eqn:Hk; [| discriminate].
  assert (Hs4 : s4 = s3).
  { destruct (has_mclk_sclk_div s3).
    - exact (calc_sclk_div_pure _ _ _ Hk).
    - inversion Hk; reflexivity. }
  subst s4.
  destruct (has_mclk_sclk_div s3 && (k <? 0));
    [intros H; inversion H; subst; exact H3 |].
  destruct (csky_i2s_calc_refclk_div rate s3) as [[r s5] |] eqn:Href;
    [| discriminate].
  pose proof (calc_refclk_div_pure _ _ _ _ Href) as ->.
  destruct (r <? 0); intros H; inversion H; subst; [exact H3 |].
  rewrite write_dividers_fold.
  match goal with
  | |- context [fold_left ?f ?l s3] =>
      destruct (fold_write_reg_fields l s3)
        as ((W1 & W2 & W3 & W4 & W5) & W6 & W7 & _)
  end.
  destruct H3 as ((C1 & C2 & C3 & C4 & C5) & C6).
  unfold same_clock_inputs.
  rewrite W1, W2, W3, W4, W5, W6, W7.
  repeat split; try assumption; apply C6; assumption.
Qed.

(** X7.  A request prints at most one diagnostic, and prints one only
    when it returns [-EINVAL]; a request that returns 0 prints none, and
    a request that does not return 0 writes no register. *)
Theorem set_clk_rate_diagnostics rate ws s v s' :
  wf_i2s s ->
  0 < rate ->
  set_clk_rate rate ws s = Some (v, s') ->
  (emitted s s' = [] \/
   (v = - EINVAL /\ exists m, emitted s s' = [m])) /\
  (v = 0 -> emitted s s' = []) /\
  (v <> 0 -> written s s' = []).
Proof.
  intros Hwf Hr Hrun.
  destruct (select_i2s_clk_returns clk_set_rate clk_get_rate rate s)
    as (o & s1 & Hsel).
  destruct (select_i2s_clk_frame _ _ _ _ _ _ Hsel)
    as (_ & _ & _ & _ & _ & _ & Fd & Fr & _).
  destruct o as [r |].
  - rewrite set_clk_rate_unfold, Hsel in Hrun. inversion Hrun; subst.
    assert (E : emitted s s' = []).
    { apply emitted_app. rewrite Fd, app_nil_r. reflexivity. }
    split; [left; exact E |]. split; [intros _; exact E |].
    intros _. apply written_app. rewrite Fr, app_nil_r. reflexivity.
  - destruct (set_clk_rate_observed rate ws s s1 Hwf Hr Hsel)
      as (s'' & Hrun' & He & Hw & _).
    rewrite Hrun in Hrun'. inversion Hrun'; subst v s''.
    rewrite He, Hw. unfold plan_of.
    destruct (request_plan_msgs (has_mclk_sclk_div s1) (audio_fmt s1)
                (src_clk s1) (mclk s1) rate)
      as (Hlen & Hret & Hok & Hko).
    split; [| split; assumption].
    destruct Hlen as [E | (m & E)]; [left; exact E |].
    right. split; [| eauto].
    destruct Hret as [E0 | E0]; [| exact E0].
    rewrite (Hok E0) in E. discriminate.
Qed.

(** X8.  Some failures are silent.  When the master clock has passed
    both checks, a request returns [-EINVAL] without a diagnostic and
    without a register write if the source clock is below twice the
    master clock, or if the round trip is passed and the rate is not a
    supported one or its reference clock, doubled, exceeds the source
    clock. *)
Theorem set_clk_rate_silent_failure rate ws s s1 :
  wf_i2s s ->
  0 < rate ->
  select_clk rate s = Some (None, s1) ->
  mclk s mod rate = 0 ->
  ratio_admitted (has_mclk_sclk_div s) (audio_fmt s) (mclk s / rate)
  = true ->
  src_clk s1 < 2 * mclk s \/
  (src_clk s1 mod (2 * mclk s) < 2 * (src_clk s1 / (2 * mclk s)) /\
   (ref_clk_of_rate rate = None \/
    exists ref, ref_clk_of_rate rate = Some ref /\
                src_clk s1 < 2 * ref)) ->
  exists s',
    set_clk_rate rate ws s = Some (- EINVAL, s') /\
    emitted s s' = [] /\ written s s' = [] /\
    mclk_fs_divider s' = mclk s / rate.
Proof.
  intros Hwf Hr Hsel Hmod Hadm Hcase.
  pose proof (select_i2s_clk_wf _ _ _ _ _ _ Hsel Hwf) as [Hs1 Hm1].
  destruct (select_i2s_clk_frame _ _ _ _ _ _ Hsel)
    as (Fh & Fm & _ & Ff & _).
  destruct (set_clk_rate_observed rate ws s s1 Hwf Hr Hsel)
    as (s' & Hrun & He & Hw & _ & _ & Hst).
  exists s'. revert Hrun He Hw Hst.
  unfold plan_of, request_plan. rewrite Fh, Fm, Ff, Hmod, Hadm.
  cbn [Z.eqb negb].
  destruct (ratio_admitted_range _ _ _ Hadm) as [Hrange _].
  assert (Hm0 : 0 < mclk s).
  { destruct Hwf as [_ [Hm0 _]].
    destruct (Z.eq_dec (mclk s) 0) as [E | E]; [| lia].
    rewrite E, Z.div_0_l in Hrange; lia. }
  assert (Hs0 : 0 <= src_clk s1) by (destruct Hs1; lia).
  pose proof (quotient_ge_1_iff (src_clk s1) (2 * mclk s) Hs0
                ltac:(lia)) as Hq1.
  assert (Hq : 0 <= src_clk s1 / (2 * mclk s))
    by (apply Z.div_pos; lia).
  destruct (Z.eqb_spec (src_clk s1 / (2 * mclk s)) 0) as [Hq0 | Hq0].
  { cbn [plan_ret plan_msgs plan_writes plan_ratio]. tauto. }
  destruct Hcase as [Hlow | [Hrt Href]]; [lia |].
  apply (roundtrip_iff (src_clk s1) (mclk s) Hs0 Hm0 ltac:(lia)) in Hrt.
  rewrite Hrt, Z.eqb_refl. cbn [negb].
  destruct Href as [-> | (ref & -> & Hlow)].
  { cbn [plan_ret plan_msgs plan_writes plan_ratio]. tauto. }
  pose proof (ref_clk_of_rate_ge_2 rate ref) as Hge.
  assert (E : src_clk s1 / (2 * ref) = 0) by (apply Z.div_small; lia).
  rewrite E. cbn [Z.sub Z.add Z.opp Z.ltb Z.compare].
  cbn [plan_ret plan_msgs plan_writes plan_ratio]. tauto.
Qed.

(** X9.  On a controller without a clock of its own, a request made a
    second time returns what it returned the first time, prints the same
    diagnostic and writes the same registers again, and leaves every
    field of the structure as the first request left it. *)
Theorem set_clk_rate_idempotent rate ws s v s1 :
  wf_i2s s ->
  0 < rate ->
  i2s_clk s = None ->
  set_clk_rate rate ws s = Some (v, s1) ->
  exists s2,
    set_clk_rate rate ws s1 = Some (v, s2) /\
    emitted s1 s2 = emitted s s1 /\
    written s1 s2 = written s s1 /\
    same_clock_inputs s1 s2 /\ src_clk s2 = src_clk s1 /\
    sample_rate s2 = sample_rate s1 /\
    sclk_fs_divider s2 = sclk_fs_divider s1 /\
    mclk_fs_divider s2 = mclk_fs_divider s1.
Proof.
  intros Hwf Hr Hnone Hrun.
  assert (Hsel : select_clk rate s = Some (None, s)).
  { unfold select_i2s_clk. run. rewrite Hnone. reflexivity. }
  rewrite (set_clk_rate_plan_from _ _ rate ws s s Hr Hwf Hsel) in Hrun.
  injection Hrun as Hv Hs1.
  set (p := plan_of rate s) in *.
  destruct (apply_plan_fields rate p s)
    as (Hin & Hclk & Hsrc & Hrate & Hsclk & Hfs & Hdev & Hregs).
  rewrite Hs1 in Hin, Hclk, Hsrc, Hrate, Hsclk, Hfs, Hdev, Hregs.
  assert (Hwf1 : wf_i2s s1).
  { destruct Hwf as [Ha Hb]. destruct Hin as (_ & _ & Hm & _).
    split; [rewrite Hsrc | rewrite Hm]; assumption. }
  assert (Hsel1 : select_clk rate s1 = Some (None, s1)).
  { unfold select_i2s_clk. run. rewrite Hclk, Hnone. reflexivity. }
  assert (Hp : plan_of rate s1 = p)
    by (apply plan_of_same_inputs; assumption).
  exists (apply_plan rate p s1).
  rewrite (set_clk_rate_plan_from _ _ rate ws s1 s1 Hr Hwf1 Hsel1), Hp.
  split; [rewrite Hv; reflexivity |].
  destruct (apply_plan_fields rate p s1)
    as (Gin & _ & Gsrc & Grate & Gsclk & Gfs & Gdev & Gregs).
  rewrite (emitted_app _ _ _ Gdev), (emitted_app _ _ _ Hdev).
  rewrite (written_app _ _ _ Gregs), (written_app _ _ _ Hregs).
  repeat split; try apply Gin; try assumption; try congruence.
  rewrite Gfs, Hfs. destruct (plan_ratio p); reflexivity.
Qed.


(** X11.  The dividers of a successful request reconstruct the
    requested rate.  With a divider register holding [n] halving its
    input [n + 1] times over, the written DIV0 makes the master clock of
    the source clock exactly; on generation v1.1 the written DIV4 makes
    64 times the rate of the master clock, as the fixed ratio (8, or 4
    for RIGHT_J) does on generation v1; the written DIV2, 31, makes the
    rate of that; and the written DIV3 makes a clock that is not below
    the reference clock of the rate. *)
Theorem set_clk_rate_dividers_reconstruct rate ws s s' :
  wf_i2s s ->
  0 < rate ->
  set_clk_rate rate ws s = Some (0, s') ->
  exists d0 d3 d4 ref,
    written s s' =
    [ (IIS_DIV0_LEVEL, d0); (IIS_DIV1_LEVEL, 17); (IIS_DIV2_LEVEL, 31);
      (IIS_DIV3_LEVEL, d3) ] ++
    (if has_mclk_sclk_div s then [ (IIS_DIV4_LEVEL, d4) ] else []) /\
    divided (src_clk s') d0 = mclk s /\
    (if has_mclk_sclk_div s then divided (mclk s) d4
     else mclk s / v1_mclk_sclk_ratio (audio_fmt s)) = 64 * rate /\
    divided (64 * rate) 31 = rate /\
    ref_clk_of_rate rate = Some ref /\
    ref <= divided (src_clk s') d3.
Proof.
  intros Hwf Hr Hrun.
  destruct (select_i2s_clk_returns clk_set_rate clk_get_rate rate s)
    as (o & s1 & Hsel).
  destruct o as [r |].
  { rewrite set_clk_rate_unfold, Hsel in Hrun. inversion Hrun; subst.
    exfalso. exact (select_i2s_clk_early _ _ _ _ _ _ Hsel eq_refl). }
  pose proof (select_i2s_clk_wf _ _ _ _ _ _ Hsel Hwf) as [Hs1 Hm1].
  destruct (select_i2s_clk_frame _ _ _ _ _ _ Hsel)
    as (Fh & Fm & _ & Ff & _).
  destruct (set_clk_rate_observed rate ws s s1 Hwf Hr Hsel)
    as (s'' & Hrun' & _ & Hw & _).
  rewrite Hrun in Hrun'. injection Hrun' as Hret Hs''. subst s''.
  rewrite set_clk_rate_unfold, Hsel in Hrun.
  rewrite program_dividers_plan in Hrun by (try split; assumption).
  injection Hrun as Hret' Hs'.
  destruct (apply_plan_fields rate (plan_of rate s1) s1)
    as (_ & _ & Hsrc & _).
  rewrite Hs' in Hsrc.
  assert (Hs0 : 0 <= src_clk s1) by (destruct Hs1; lia).
  assert (Hm0 : 0 <= mclk s1) by (destruct Hm1; lia).
  unfold plan_of in Hw, Hret.
  destruct (request_plan_success (has_mclk_sclk_div s1) (audio_fmt s1)
              (src_clk s1) (mclk s1) rate Hs0 Hm0 Hr) as [Hiff Hshape].
  symmetry in Hret.
  destruct (Hshape Hret) as (Hm & Hq & Hrt & ref & Href & Hsrc2 & Hp).
  destruct (proj1 Hiff Hret) as (Hmod & Hadm & _).
  rewrite Hp in Hw. cbn [plan_writes] in Hw.
  rewrite Fh, Fm in *. rewrite Ff in Hadm.
  exists (src_clk s1 / (2 * mclk s) - 1), (src_clk s1 / (2 * ref) - 1),
    (mclk s / rate / 64 / 2 - 1), ref.
  split; [exact Hw |]. rewrite Hsrc. unfold divided.
  replace (src_clk s1 / (2 * mclk s) - 1 + 1)
    with (src_clk s1 / (2 * mclk s)) by lia.
  replace (src_clk s1 / (2 * ref) - 1 + 1)
    with (src_clk s1 / (2 * ref)) by lia.
  split; [exact Hrt |].
  assert (Hmul : mclk s = rate * (mclk s / rate)).
  { pose proof (Z.div_mod (mclk s) rate ltac:(lia)). lia. }
  split.
  - unfold ratio_admitted in Hadm.
    destruct (has_mclk_sclk_div s).
    + destruct (Z.eqb_spec (mclk s / rate) 256) as [E | _];
        [rewrite E in *; change (256 / 64 / 2 - 1 + 1) with 2;
         change (2 * 2) with 4; rewrite Hmul at 1;
         symmetry; apply Z.div_unique_exact; lia |].
      destruct (Z.eqb_spec (mclk s / rate) 384) as [E | _];
        [rewrite E in *; change (384 / 64 / 2 - 1 + 1) with 3;
         change (2 * 3) with 6; rewrite Hmul at 1;
         symmetry; apply Z.div_unique_exact; lia |].
      destruct (Z.eqb_spec (mclk s / rate) 512) as [E | _];
        [rewrite E in *; change (512 / 64 / 2 - 1 + 1) with 4;
         change (2 * 4) with 8; rewrite Hmul at 1;
         symmetry; apply Z.div_unique_exact; lia |].
      destruct (Z.eqb_spec (mclk s / rate) 768) as [E | _];
        [| discriminate].
      rewrite E in *. change (768 / 64 / 2 - 1 + 1) with 6.
      change (2 * 6) with 12. rewrite Hmul at 1.
      symmetry; apply Z.div_unique_exact; lia.
    + apply Z.eqb_eq in Hadm. rewrite Hadm in Hmul.
      destruct (audio_fmt s); cbn [v1_mclk_sclk_ratio] in *;
        rewrite Hmul at 1; symmetry; apply Z.div_unique_exact; lia.
  - split; [change (2 * (31 + 1)) with 64;
            symmetry; apply Z.div_unique_exact; lia |].
    split; [exact Href |].
    pose proof (ref_clk_of_rate_ge_2 _ _ Href) as Hge.
    pose proof (quotient_ge_1_iff (src_clk s1) (2 * ref) Hs0
                  ltac:(lia)) as Hq1.
    apply Z.div_le_lower_bound; [lia |].
    pose proof (Z.mul_div_le (src_clk s1) (2 * ref) ltac:(lia)). lia.
Qed.

(** X12.  A recipe for a request that succeeds, on a controller without
    a clock of its own: announce with [csky_i2s_set_dai_sysclk] a master
    clock of [k] times the rate, [k] an admitted ratio, on a source clock
    of [2 * n] times that master clock and at least twice the reference
    clock of the rate.  The request then returns 0 and writes [n - 1] to
    DIV0. *)
Theorem sysclk_then_rate_succeeds rate ws n k ref s :
  i2s_clk s = None ->
  is_u32 (src_clk s) ->
  0 < rate ->
  1 <= n ->
  ratio_admitted (has_mclk_sclk_div s) (audio_fmt s) k = true ->
  src_clk s = 2 * n * (k * rate) ->
  ref_clk_of_rate rate = Some ref ->
  2 * ref <= src_clk s ->
  exists s',
    bind (csky_i2s_set_dai_sysclk (k * rate))
         (fun _ => set_clk_rate rate ws) s = Some (0, s') /\
    mclk s' = k * rate /\
    written s s' =
    [ (IIS_DIV0_LEVEL, n - 1); (IIS_DIV1_LEVEL, 17); (IIS_DIV2_LEVEL, 31);
      (IIS_DIV3_LEVEL, src_clk s / (2 * ref) - 1) ] ++
    (if has_mclk_sclk_div s then [ (IIS_DIV4_LEVEL, k / 64 / 2 - 1) ]
     else []).
Proof.
  intros Hnone Hsrc Hr Hn Hadm Hsrc2 Href Hsrc3.
  destruct (ratio_admitted_range _ _ _ Hadm) as [Hk _].
  set (s0 := set_mclk (k * rate) s).
  assert (Hwf0 : wf_i2s s0).
  { split; [exact Hsrc |]. unfold s0, is_u32; simpl.
    unfold is_u32 in Hsrc. rewrite modulus_eq in *. nia. }
  assert (Hsel : select_clk rate s0 = Some (None, s0)).
  { unfold select_i2s_clk. run. unfold s0; simpl. rewrite Hnone.
    reflexivity. }
  destruct (set_clk_rate_observed rate ws s0 s0 Hwf0 Hr Hsel)
    as (s' & Hrun & _ & Hw & _).
  assert (Hplan : plan_of rate s0 =
                  Build_plan 0 (Some k) []
                    ([ (IIS_DIV0_LEVEL, n - 1); (IIS_DIV1_LEVEL, 17);
                       (IIS_DIV2_LEVEL, 31);
                       (IIS_DIV3_LEVEL, src_clk s / (2 * ref) - 1) ] ++
                     (if has_mclk_sclk_div s
                      then [ (IIS_DIV4_LEVEL, k / 64 / 2 - 1) ]
                      else []))).
  { unfold plan_of.
    change (has_mclk_sclk_div s0) with (has_mclk_sclk_div s).
    change (audio_fmt s0) with (audio_fmt s).
    change (src_clk s0) with (src_clk s).
    change (mclk s0) with (k * rate).
    unfold request_plan.
    rewrite Z.mod_mul by lia. rewrite Z.div_mul by lia.
    cbn [Z.eqb negb]. rewrite Hadm. cbn [negb].
    assert (Eq : src_clk s / (2 * (k * rate)) = n).
    { rewrite Hsrc2.
      replace (2 * n * (k * rate)) with (n * (2 * (k * rate))) by ring.
      apply Z.div_mul. lia. }
    rewrite Eq.
    destruct (Z.eqb_spec n 0); [lia |].
    assert (Ert : src_clk s / (2 * n) = k * rate).
    { rewrite Hsrc2.
      replace (2 * n * (k * rate)) with (k * rate * (2 * n)) by ring.
      apply Z.div_mul. lia. }
    rewrite Ert, Z.eqb_refl. cbn [negb]. rewrite Href.
    pose proof (ref_clk_of_rate_ge_2 _ _ Href) as Hge.
    pose proof (quotient_ge_1_iff (src_clk s) (2 * ref)
                  ltac:(destruct Hsrc; lia) ltac:(lia)) as Hq1.
    destruct (Z.ltb_spec (src_clk s / (2 * ref) - 1) 0); [lia |].
    reflexivity. }
  rewrite Hplan in Hrun, Hw. cbn [plan_ret plan_writes] in Hrun, Hw.
  exists s'. split; [exact Hrun |]. split.
  - pose proof (set_clk_rate_plan_from _ _ rate ws s0 s0 Hr Hwf0 Hsel)
      as Hrun2.
    rewrite Hrun in Hrun2. injection Hrun2 as _ Hs'.
    destruct (apply_plan_fields rate (plan_of rate s0) s0)
      as ((_ & _ & Hm & _) & _).
    rewrite Hs'. exact Hm.
  - exact Hw.
Qed.

End RequestFacts.

(** ** The stream callbacks *)

Section StreamFacts.

Context {clk : Type}.
Variable clk_set_rate : clk -> Z -> clk * Z.
Variable clk_get_rate : clk -> Z.
Variable FSSTA_RES_MASK : Z.
Variable FSSTA_RES_SHIFT : Z.
Variable FSSTA_RES16_FIFO16 : Z.
Variable FSSTA_RES24_FIFO24 : Z.
Variable IIS_FIFOINT_TX_FIFO_EMPTY : Z.
Variable DMACR_EN_TX_DMA : Z.
Variable AUDIOEN_IIS_EN : Z.
Variable CONFIG_CSKY_HDMI : bool.
Implicit Types d : csky_i2s_stream clk.

Local Abbreviation set_clk_rate :=
  (csky_i2s_set_clk_rate clk_set_rate clk_get_rate).
Local Abbreviation hw_params :=
  (csky_i2s_hw_params clk_set_rate clk_get_rate FSSTA_RES_MASK
     FSSTA_RES_SHIFT FSSTA_RES16_FIFO16 FSSTA_RES24_FIFO24).
Local Abbreviation fssta_value :=
  (fssta_with FSSTA_RES_MASK FSSTA_RES_SHIFT).
Local Abbreviation trigger :=
  (csky_i2s_trigger IIS_FIFOINT_TX_FIFO_EMPTY DMACR_EN_TX_DMA
     AUDIOEN_IIS_EN CONFIG_CSKY_HDMI).
Local Abbreviation start_playback :=
  (csky_i2s_start_playback IIS_FIFOINT_TX_FIFO_EMPTY DMACR_EN_TX_DMA
     AUDIOEN_IIS_EN CONFIG_CSKY_HDMI).
Local Abbreviation trigger_all :=
  (trigger_each IIS_FIFOINT_TX_FIFO_EMPTY DMACR_EN_TX_DMA
     AUDIOEN_IIS_EN CONFIG_CSKY_HDMI).
Local Abbreviation write_ok :=
  (trigger_write_ok IIS_FIFOINT_TX_FIFO_EMPTY DMACR_EN_TX_DMA
     AUDIOEN_IIS_EN).

Ltac drun := unfold csky_i2s_writel_ctl, csky_hdmi_audio_config in *;
  unfold dbind, dret, dgets, dmodify, on_clock in *; cbv beta in *.

Lemma ctl_written_app d d' l : ctl d' = ctl d ++ l -> ctl_written d d' = l.
Proof.
  intros H. unfold ctl_written. rewrite H.
  rewrite skipn_app, skipn_all, Nat.sub_diag. reflexivity.
Qed.

(** The accepted calls of [csky_i2s_hw_params], in direct style. *)
Lemma hw_params_accepted fssta channels physical_width rate width d :
  channels <= 2 ->
  physical_width = 16 \/ physical_width = 24 \/ physical_width = 32 ->
  hw_params fssta channels physical_width rate width d =
  match set_clk_rate rate width (clock d) with
  | Some (v, s') =>
      Some (v, set_clock s'
                 (write_ctl IIS_FSSTA
                    (fssta_value fssta
                       (hw_params_res FSSTA_RES16_FIFO16
                          FSSTA_RES24_FIFO24 physical_width))
                    (set_addr_width
                       (hw_params_addr_width channels physical_width) d)))
  | None => None
  end.
Proof.
  intros Hc Hw. unfold csky_i2s_hw_params, hw_params_apply,
    hw_params_addr_width, hw_params_res. drun.
  destruct (Z.ltb_spec 2 channels); [lia |].
  destruct Hw as [-> | [-> | ->]]; cbn [Z.eqb Pos.eqb];
    reflexivity.
Qed.

(** X13.  [csky_i2s_hw_params] rejects more than two channels, and a
    physical width other than 16, 24 or 32, with [-EINVAL] before it has
    changed anything: no register is written, the DMA bus width and the
    clock configuration are as before. *)
Theorem hw_params_rejects fssta channels physical_width rate width d :
  2 < channels \/
  (physical_width <> 16 /\ physical_width <> 24 /\ physical_width <> 32) ->
  hw_params fssta channels physical_width rate width d =
  Some (- EINVAL, d).
Proof.
  intros H. unfold csky_i2s_hw_params. drun.
  destruct (Z.ltb_spec 2 channels); [reflexivity |].
  destruct H as [H | (H16 & H24 & H32)]; [lia |].
  destruct (Z.eqb_spec physical_width 16); [contradiction |].
  destruct (Z.eqb_spec physical_width 24); [contradiction |].
  destruct (Z.eqb_spec physical_width 32); [contradiction |].
  reflexivity.
Qed.

(** X14.  An accepted call of [csky_i2s_hw_params] (at most two
    channels, physical width 16, 24 or 32) returns what
    [csky_i2s_set_clk_rate] returns for the rate, and is not undone when
    that fails: whatever the value returned, the DMA bus width has been
    set (4 bytes for 16-bit stereo and for 32 bits, 2 for 16-bit mono, 3
    for 24 bits) and [IIS_FSSTA] has been written once, with the same
    resolution code for 32 bits as for 24. *)
Theorem hw_params_effects fssta channels physical_width rate width d v d' :
  channels <= 2 ->
  physical_width = 16 \/ physical_width = 24 \/ physical_width = 32 ->
  hw_params fssta channels physical_width rate width d = Some (v, d') ->
  set_clk_rate rate width (clock d) = Some (v, clock d') /\
  addr_width d' = hw_params_addr_width channels physical_width /\
  ctl_written d d' =
  [ (IIS_FSSTA,
     fssta_value fssta
       (if physical_width =? 16 then FSSTA_RES16_FIFO16
        else FSSTA_RES24_FIFO24)) ] /\
  use_pio d' = use_pio d /\ hdmi d' = hdmi d.
Proof.
  intros Hc Hw. rewrite hw_params_accepted by assumption.
  destruct (set_clk_rate rate width (clock d)) as [[v0 s'] |];
    [| discriminate].
  intros H. injection H as Hv Hd. subst v0 d'. cbn.
  split; [reflexivity |]. split; [reflexivity |].
  split; [| split; reflexivity].
  unfold ctl_written; cbn.
  rewrite skipn_app, skipn_all, Nat.sub_diag. cbn.
  unfold fssta_with, hw_params_res, u32.
  rewrite Z.mod_mod by (rewrite modulus_eq; lia). reflexivity.
Qed.

(** X15.  The value [csky_i2s_hw_params] writes to [IIS_FSSTA] is the
    32-bit value read with the resolution field replaced: a bit in the
    field [FSSTA_RES_MASK << FSSTA_RES_SHIFT] is the bit of the
    resolution code, and a bit outside the field that the resolution
    code does not set is the bit read. *)
Theorem fssta_with_bits fssta res i :
  0 <= i < 32 ->
  let field := Z.shiftl FSSTA_RES_MASK FSSTA_RES_SHIFT in
  is_u32 (fssta_value fssta res) /\
  Z.testbit (fssta_value fssta res) i =
  (Z.testbit fssta i && negb (Z.testbit field i)) || Z.testbit res i /\
  (Z.testbit field i = true ->
   Z.testbit (fssta_value fssta res) i = Z.testbit res i) /\
  (Z.testbit field i = false -> Z.testbit res i = false ->
   Z.testbit (fssta_value fssta res) i = Z.testbit fssta i).
Proof.
  intros Hi field.
  assert (Hbits : Z.testbit (fssta_value fssta res) i =
                  (Z.testbit fssta i && negb (Z.testbit field i))
                  || Z.testbit res i).
  { unfold fssta_with, u32, modulus.
    rewrite Z.mod_pow2_bits_low by lia. rewrite Z.lor_spec.
    rewrite Z.mod_pow2_bits_low by lia. rewrite Z.land_spec.
    rewrite Z.mod_pow2_bits_low by lia. rewrite Z.lnot_spec by lia.
    reflexivity. }
  split; [apply u32_range |]. split; [exact Hbits |]. split.
  - intros Hf. rewrite Hbits, Hf. cbn [negb].
    rewrite andb_false_r. reflexivity.
  - intros Hf Hres. rewrite Hbits, Hf, Hres. cbn [negb].
    rewrite andb_true_r, orb_false_r. reflexivity.
Qed.

Lemma stop_playback_eq d :
  csky_i2s_stop_playback d =
  Some (tt, set_ctl (ctl d ++ [ (IIS_IMR, 0); (IIS_DMACR, 0);
                                (IIS_AUDIOEN, 0) ]) d).
Proof.
  unfold csky_i2s_stop_playback. drun. unfold write_ctl, set_ctl.
  cbn [ctl clock use_pio config_hdmi addr_width hdmi].
  change (u32 0) with 0. rewrite <- !app_assoc. reflexivity.
Qed.

Lemma start_playback_eq d :
  exists d',
    start_playback d = Some (tt, d') /\
    ctl d' = ctl d ++
             [ (if use_pio d then (IIS_IMR, u32 IIS_FIFOINT_TX_FIFO_EMPTY)
                else (IIS_DMACR, u32 DMACR_EN_TX_DMA));
               (IIS_AUDIOEN, u32 AUDIOEN_IIS_EN) ] /\
    hdmi d' = hdmi d ++
              (if CONFIG_CSKY_HDMI && (config_hdmi d =? 1)
               then [ (sample_rate (clock d), audio_fmt (clock d)) ]
               else []) /\
    clock d' = clock d /\ use_pio d' = use_pio d /\
    addr_width d' = addr_width d /\ config_hdmi d' = config_hdmi d.
Proof.
  unfold csky_i2s_start_playback. drun. unfold write_ctl, set_ctl, set_hdmi.
  destruct (use_pio d) eqn:Hpio; destruct CONFIG_CSKY_HDMI;
    cbn [ctl clock use_pio config_hdmi addr_width hdmi andb];
    try destruct (config_hdmi d =? 1);
    cbn [ctl clock use_pio config_hdmi addr_width hdmi];
    eexists; (split; [reflexivity |]);
    cbn [ctl clock use_pio config_hdmi addr_width hdmi];
    rewrite <- ?app_assoc, ?app_nil_r; repeat split; assumption.
Qed.

(** One call of [csky_i2s_trigger]. *)
Lemma trigger_step stream cmd d :
  exists v d',
    trigger stream cmd d = Some (v, d') /\
    (v = 0 \/ v = - EINVAL) /\
    (v = 0 <->
     stream = SNDRV_PCM_STREAM_PLAYBACK /\
     cmd <> SNDRV_PCM_TRIGGER_other) /\
    (v <> 0 -> d' = d) /\
    clock d' = clock d /\ use_pio d' = use_pio d /\
    addr_width d' = addr_width d /\ config_hdmi d' = config_hdmi d /\
    exists l, ctl d' = ctl d ++ l /\ Forall (write_ok (use_pio d)) l.
Proof.
  assert (Hrej : forall P : Prop, ~ P ->
            exists v d',
              Some (- EINVAL, d) = Some (v, d') /\
              (v = 0 \/ v = - EINVAL) /\
              (v = 0 <-> P) /\ (v <> 0 -> d' = d) /\
              clock d' = clock d /\ use_pio d' = use_pio d /\
              addr_width d' = addr_width d /\
              config_hdmi d' = config_hdmi d /\
              exists l, ctl d' = ctl d ++ l /\
                        Forall (write_ok (use_pio d)) l).
  { intros P HP. exists (- EINVAL), d.
    split; [reflexivity |]. split; [right; reflexivity |].
    split; [unfold EINVAL; split; [lia | tauto] |].
    split; [reflexivity |]. repeat split.
    exists []. rewrite app_nil_r. split; [reflexivity | constructor]. }
  assert (Hstop :
            exists v d',
              dbind csky_i2s_stop_playback (fun _ => dret 0) d
              = Some (v, d') /\
              v = 0 /\
              clock d' = clock d /\ use_pio d' = use_pio d /\
              addr_width d' = addr_width d /\
              config_hdmi d' = config_hdmi d /\
              exists l, ctl d' = ctl d ++ l /\
                        Forall (write_ok (use_pio d)) l).
  { unfold dbind. rewrite stop_playback_eq. eexists 0, _.
    split; [reflexivity |]. repeat split.
    eexists. split; [reflexivity |].
    repeat constructor; unfold trigger_write_ok; cbn; auto. }
  assert (Hstart :
            exists v d',
              dbind start_playback (fun _ => dret 0) d = Some (v, d') /\
              v = 0 /\
              clock d' = clock d /\ use_pio d' = use_pio d /\
              addr_width d' = addr_width d /\
              config_hdmi d' = config_hdmi d /\
              exists l, ctl d' = ctl d ++ l /\
                        Forall (write_ok (use_pio d)) l).
  { destruct (start_playback_eq d)
      as (d' & E & Hc & _ & H1 & H2 & H3 & H4).
    unfold dbind. rewrite E. exists 0, d'.
    split; [reflexivity |]. repeat split; try assumption.
    eexists. split; [exact Hc |].
    destruct (use_pio d);
      (apply Forall_cons;
       [unfold trigger_write_ok; cbn [fst snd]; right; split; reflexivity
       | apply Forall_cons;
         [unfold trigger_write_ok; cbn [fst snd]; right; reflexivity
         | apply Forall_nil]]). }
  assert (Hok : forall c : D Z,
            (exists v d',
               c d = Some (v, d') /\ v = 0 /\
               clock d' = clock d /\ use_pio d' = use_pio d /\
               addr_width d' = addr_width d /\
               config_hdmi d' = config_hdmi d /\
               exists l, ctl d' = ctl d ++ l /\
                         Forall (write_ok (use_pio d)) l) ->
            forall P : Prop, P ->
            exists v d',
              c d = Some (v, d') /\
              (v = 0 \/ v = - EINVAL) /\
              (v = 0 <-> P) /\ (v <> 0 -> d' = d) /\
              clock d' = clock d /\ use_pio d' = use_pio d /\
              addr_width d' = addr_width d /\
              config_hdmi d' = config_hdmi d /\
              exists l, ctl d' = ctl d ++ l /\
                        Forall (write_ok (use_pio d)) l).
  { intros c (v & d' & E & -> & H) P HP. exists 0, d'.
    split; [exact E |]. split; [left; reflexivity |].
    split; [tauto |]. split; [intros; contradiction | exact H]. }
  destruct stream.
  - destruct cmd; cbn [csky_i2s_trigger];
      first [ apply (Hok _ Hstop); split; [reflexivity | discriminate]
            | apply (Hok _ Hstart); split; [reflexivity | discriminate]
            | apply Hrej; intros [_ H]; apply H; reflexivity ].
  - destruct cmd; cbn [csky_i2s_trigger]; unfold dret;
      apply Hrej; intros [H _]; discriminate.
Qed.

(** X16.  [csky_i2s_trigger] returns 0 exactly for a playback stream
    and one of the six commands it names; every other call returns
    [-EINVAL] and changes nothing.  No call changes the clock
    configuration or the DMA bus width. *)
Theorem trigger_accepts_iff stream cmd d :
  exists v d',
    trigger stream cmd d = Some (v, d') /\
    (v = 0 \/ v = - EINVAL) /\
    (v = 0 <->
     stream = SNDRV_PCM_STREAM_PLAYBACK /\
     cmd <> SNDRV_PCM_TRIGGER_other) /\
    (v <> 0 -> d' = d) /\
    clock d' = clock d /\ addr_width d' = addr_width d.
Proof.
  destruct (trigger_step stream cmd d)
    as (v & d' & H1 & H2 & H3 & H4 & H5 & _ & H6 & _).
  exists v, d'. split; [exact H1 |]. split; [exact H2 |].
  split; [exact H3 |]. split; [exact H4 |]. split; [exact H5 | exact H6].
Qed.

(** X17.  Over any sequence of calls of [csky_i2s_trigger], whatever
    each returns, a stream in PIO mode never sees a value other than 0
    written to [IIS_DMACR], a stream in DMA mode never sees a value other
    than 0 written to [IIS_IMR], [IIS_AUDIOEN] is only written with 0 or
    with the enable code, and [IIS_FSSTA] is not written; the mode, the
    clock configuration and the DMA bus width stay as they are. *)
Theorem trigger_each_writes calls d :
  exists d',
    trigger_all calls d = Some (tt, d') /\
    clock d' = clock d /\ use_pio d' = use_pio d /\
    addr_width d' = addr_width d /\
    Forall (write_ok (use_pio d)) (ctl_written d d').
Proof.
  assert (H : exists d',
            trigger_all calls d = Some (tt, d') /\
            clock d' = clock d /\ use_pio d' = use_pio d /\
            addr_width d' = addr_width d /\
            exists l, ctl d' = ctl d ++ l /\
                      Forall (write_ok (use_pio d)) l).
  { revert d. induction calls as [| [stream cmd] rest IH]; intros d.
    - exists d. cbn. repeat split.
      exists []. rewrite app_nil_r. split; [reflexivity | constructor].
    - destruct (trigger_step stream cmd d)
        as (v & d1 & E1 & _ & _ & _ & C1 & P1 & A1 & _ & l1 & L1 & F1).
      destruct (IH d1) as (d2 & E2 & C2 & P2 & A2 & l2 & L2 & F2).
      exists d2. cbn [trigger_each]. unfold dbind at 1. rewrite E1.
      split; [exact E2 |].
      split; [congruence |]. split; [congruence |].
      split; [congruence |].
      exists (l1 ++ l2). split.
      + rewrite L2, L1, app_assoc. reflexivity.
      + apply Forall_app. split; [exact F1 |].
        rewrite <- P1. exact F2. }
  destruct H as (d' & E & C & P & A & l & L & F).
  exists d'. repeat split; try assumption.
  rewrite (ctl_written_app _ _ _ L). exact F.
Qed.

(** X18.  With HDMI audio configured, a start command that follows an
    accepted call of [csky_i2s_hw_params] on a controller without a clock
    of its own hands [csky_hdmi_audio_config] the rate of that call,
    whether the call returned 0 or not. *)
Theorem hw_params_then_start_hdmi
  fssta channels physical_width rate width d :
  CONFIG_CSKY_HDMI = true ->
  config_hdmi d = 1 ->
  i2s_clk (clock d) = None ->
  wf_i2s (clock d) ->
  0 < rate ->
  channels <= 2 ->
  physical_width = 16 \/ physical_width = 24 \/ physical_width = 32 ->
  exists v d1 d2,
    hw_params fssta channels physical_width rate width d = Some (v, d1) /\
    trigger SNDRV_PCM_STREAM_PLAYBACK SNDRV_PCM_TRIGGER_START d1 =
    Some (0, d2) /\
    hdmi d2 = hdmi d ++ [(rate, audio_fmt (clock d))].
Proof.
  intros Hcfg Hh Hnone Hwf Hr Hc Hw.
  rewrite hw_params_accepted by assumption.
  assert (Hsel : select_i2s_clk clk_set_rate clk_get_rate rate (clock d)
                 = Some (None, clock d)).
  { unfold select_i2s_clk, bind, gets, ret. rewrite Hnone. reflexivity. }
  rewrite (set_clk_rate_plan_from _ _ rate width _ _ Hr Hwf Hsel).
  destruct (apply_plan_fields rate (plan_of rate (clock d)) (clock d))
    as ((_ & Hf & _) & _ & _ & Hrate & _).
  match goal with
  | |- exists v d1 d2, Some (?v0, ?d0) = Some (v, d1) /\ _ =>
      set (d1 := d0); exists v0, d1
  end.
  destruct (start_playback_eq d1) as (d2 & E & _ & Hh2 & _).
  exists d2. split; [reflexivity |]. split.
  - cbn [csky_i2s_trigger]. unfold dbind. rewrite E. reflexivity.
  - rewrite Hh2.
    change (hdmi d1) with (hdmi d).
    change (config_hdmi d1) with (config_hdmi d).
    change (clock d1) with (apply_plan rate (plan_of rate (clock d))
                              (clock d)).
    rewrite Hcfg, Hh, Hrate, Hf. reflexivity.
Qed.

End StreamFacts.

(** ** More instances *)

(** A source clock of 24576001 Hz is accepted for the master clock
    12288000 Hz: the remainder 1 is below 2. *)
Lemma calc_mclk_div_roundtrip_tolerance_witness :
  src_clk v1_1_48k_plus1 mod (2 * mclk v1_1_48k_plus1) = 1 /\
  csky_i2s_calc_mclk_div 48000 16 v1_1_48k_plus1 =
  Some (0, set_mclk_fs_divider 256 v1_1_48k_plus1).
Proof.
  split; [reflexivity |].
  apply (proj1 (calc_mclk_div_roundtrip_tolerance 48000 16 v1_1_48k_plus1
                  ltac:(concrete) ltac:(lia) eq_refl eq_refl
                  ltac:(vm_compute; discriminate))).
  reflexivity.
Defined.

(** The serial-clock divider for the ratios 256 and 64 is 1; with
    [sclk_fs_divider] still 0 the calculator is undefined. *)
Lemma calc_sclk_div_value_witness :
  csky_i2s_calc_sclk_div v1_1_48k = None /\
  csky_i2s_calc_sclk_div (set_mclk_fs_divider 256 (after_fs 48000 v1_1_48k))
  = Some (1, set_mclk_fs_divider 256 (after_fs 48000 v1_1_48k)).
Proof.
  split.
  - apply (proj1 (calc_sclk_div_value v1_1_48k ltac:(concrete))).
    reflexivity.
  - apply (proj2 (calc_sclk_div_value
                    (set_mclk_fs_divider 256 (after_fs 48000 v1_1_48k))
                    ltac:(concrete))).
    reflexivity.
Defined.

(** On a 24.576 MHz source the reference divider for 48 kHz is 3, and
    it yields the reference clock exactly. *)
Lemma calc_refclk_div_threshold_witness :
  csky_i2s_calc_refclk_div 48000 v1_1_48k = Some (3, v1_1_48k) /\
  divided (src_clk v1_1_48k) 3 = 3072000.
Proof.
  destruct (calc_refclk_div_threshold 48000 3072000 v1_1_48k
              ltac:(concrete) eq_refl) as (H1 & _ & _).
  split; [exact H1 | reflexivity].
Defined.

(** The plan of the end-to-end example. *)
Lemma set_clk_rate_pure_witness :
  plan_of 48000 v1_1_48k =
  Build_plan 0 (Some 256) []
    [ (IIS_DIV0_LEVEL, 0); (IIS_DIV1_LEVEL, 17); (IIS_DIV2_LEVEL, 31);
      (IIS_DIV3_LEVEL, 3); (IIS_DIV4_LEVEL, 1) ] /\
  exists s',
    csky_i2s_set_clk_rate fixed_clk_set_rate fixed_clk_get_rate
      48000 16 v1_1_48k = Some (0, s') /\
    emitted v1_1_48k s' = [] /\
    written v1_1_48k s' =
    [ (IIS_DIV0_LEVEL, 0); (IIS_DIV1_LEVEL, 17); (IIS_DIV2_LEVEL, 31);
      (IIS_DIV3_LEVEL, 3); (IIS_DIV4_LEVEL, 1) ].
Proof.
  split; [reflexivity |].
  destruct (set_clk_rate_pure fixed_clk_set_rate fixed_clk_get_rate
              48000 16 v1_1_48k v1_1_48k ltac:(concrete) ltac:(lia)
              eq_refl) as (s' & H1 & H2 & H3 & _).
  exists s'. split; [exact H1 |]. split; [exact H2 | exact H3].
Defined.

(** The end-to-end example meets the conditions of success. *)
Lemma set_clk_rate_success_iff_witness :
  exists s',
    csky_i2s_set_clk_rate fixed_clk_set_rate fixed_clk_get_rate
      48000 16 v1_1_48k = Some (0, s').
Proof.
  apply (proj2 (set_clk_rate_success_iff fixed_clk_set_rate
                  fixed_clk_get_rate 48000 16 v1_1_48k v1_1_48k
                  ltac:(concrete) ltac:(lia) eq_refl)).
  split; [reflexivity |]. split; [reflexivity |].
  split; [vm_compute; discriminate |]. split; [reflexivity |].
  exists 3072000. split; [reflexivity | vm_compute; discriminate].
Defined.

(** A failing request leaves the master clock of 10 MHz in place. *)
Lemma set_clk_rate_preserves_witness :
  csky_i2s_set_clk_rate fixed_clk_set_rate fixed_clk_get_rate
    48000 16 v1_1_10mhz =
  Some (- EINVAL,
        log_msg ERR_mclk_not_multiple_of_fs (after_fs 48000 v1_1_10mhz)) /\
  same_clock_inputs v1_1_10mhz
    (log_msg ERR_mclk_not_multiple_of_fs (after_fs 48000 v1_1_10mhz)).
Proof.
  split; [reflexivity |].
  exact (proj1 (set_clk_rate_preserves fixed_clk_set_rate
                  fixed_clk_get_rate 48000 16 v1_1_10mhz _ _ eq_refl)).
Defined.

(** The failing request above prints one diagnostic. *)
Lemma set_clk_rate_diagnostics_witness :
  let s' := log_msg ERR_mclk_not_multiple_of_fs
              (after_fs 48000 v1_1_10mhz) in
  emitted v1_1_10mhz s' = [ERR_mclk_not_multiple_of_fs] /\
  written v1_1_10mhz s' = [].
Proof.
  destruct (set_clk_rate_diagnostics fixed_clk_set_rate fixed_clk_get_rate
              48000 16 v1_1_10mhz (- EINVAL)
              (log_msg ERR_mclk_not_multiple_of_fs
                 (after_fs 48000 v1_1_10mhz))
              ltac:(concrete) ltac:(lia) eq_refl) as (_ & _ & H).
  split; [reflexivity |]. apply H. vm_compute. discriminate.
Defined.

(** With a source clock equal to the master clock the request fails
    without a word. *)
Lemma set_clk_rate_silent_failure_witness :
  exists s',
    csky_i2s_set_clk_rate fixed_clk_set_rate fixed_clk_get_rate
      48000 16 v1_1_slow_src = Some (- EINVAL, s') /\
    emitted v1_1_slow_src s' = [] /\ written v1_1_slow_src s' = [] /\
    mclk_fs_divider s' = 256.
Proof.
  apply (set_clk_rate_silent_failure fixed_clk_set_rate fixed_clk_get_rate
           48000 16 v1_1_slow_src v1_1_slow_src
           ltac:(concrete) ltac:(lia) eq_refl eq_refl eq_refl).
  left. reflexivity.
Defined.

(** The end-to-end example made twice writes the five dividers twice. *)
Lemma set_clk_rate_idempotent_witness :
  exists s1 s2,
    csky_i2s_set_clk_rate fixed_clk_set_rate fixed_clk_get_rate
      48000 16 v1_1_48k = Some (0, s1) /\
    csky_i2s_set_clk_rate fixed_clk_set_rate fixed_clk_get_rate
      48000 16 s1 = Some (0, s2) /\
    written s1 s2 = written v1_1_48k s1 /\
    mclk_fs_divider s2 = mclk_fs_divider s1.
Proof.
  eexists. 
  destruct (set_clk_rate_idempotent fixed_clk_set_rate fixed_clk_get_rate
              48000 16 v1_1_48k 0 _ ltac:(concrete) ltac:(lia)
              eq_refl eq_refl)
    as (s2 & H1 & _ & H3 & _ & _ & _ & _ & H8).
  exists s2. split; [reflexivity |].
  split; [exact H1 |]. split; [exact H3 | exact H8].
Defined.


(** The dividers of the end-to-end example: 24.576 MHz / 2 is the master
    clock, the master clock / 4 is 64 * 48 kHz, and that / 64 is
    48 kHz. *)
Lemma set_clk_rate_dividers_reconstruct_witness :
  divided 24576000 0 = 12288000 /\
  divided 12288000 1 = 64 * 48000 /\
  divided (64 * 48000) 31 = 48000 /\
  exists d0 d3 d4 ref s',
    csky_i2s_set_clk_rate fixed_clk_set_rate fixed_clk_get_rate
      48000 16 v1_1_48k = Some (0, s') /\
    written v1_1_48k s' =
    [ (IIS_DIV0_LEVEL, d0); (IIS_DIV1_LEVEL, 17); (IIS_DIV2_LEVEL, 31);
      (IIS_DIV3_LEVEL, d3); (IIS_DIV4_LEVEL, d4) ] /\
    divided (src_clk s') d0 = 12288000 /\
    divided 12288000 d4 = 64 * 48000 /\
    ref <= divided (src_clk s') d3.
Proof.
  split; [reflexivity |]. split; [reflexivity |]. split; [reflexivity |].
  destruct (set_clk_rate_dividers_reconstruct fixed_clk_set_rate
              fixed_clk_get_rate 48000 16 v1_1_48k _
              ltac:(concrete) ltac:(lia) eq_refl)
    as (d0 & d3 & d4 & ref & H1 & H2 & H3 & _ & _ & H6).
  exists d0, d3, d4, ref. eexists.
  split; [reflexivity |]. split; [exact H1 |].
  split; [exact H2 |]. split; [exact H3 | exact H6].
Defined.

(** Announcing 256 * 48 kHz on the controller whose master clock was
    10 MHz makes the 48 kHz request succeed. *)
Lemma sysclk_then_rate_succeeds_witness :
  exists s',
    bind (csky_i2s_set_dai_sysclk (256 * 48000))
         (fun _ => csky_i2s_set_clk_rate fixed_clk_set_rate
                     fixed_clk_get_rate 48000 16) v1_1_10mhz
    = Some (0, s') /\
    mclk s' = 256 * 48000 /\
    written v1_1_10mhz s' =
    [ (IIS_DIV0_LEVEL, 1 - 1); (IIS_DIV1_LEVEL, 17); (IIS_DIV2_LEVEL, 31);
      (IIS_DIV3_LEVEL, src_clk v1_1_10mhz / (2 * 3072000) - 1);
      (IIS_DIV4_LEVEL, 256 / 64 / 2 - 1) ].
Proof.
  exact (sysclk_then_rate_succeeds fixed_clk_set_rate fixed_clk_get_rate
           48000 16 1 256 3072000 v1_1_10mhz eq_refl ltac:(concrete)
           ltac:(lia) ltac:(lia) eq_refl eq_refl eq_refl
           ltac:(vm_compute; discriminate)).
Defined.

(** Three channels are refused. *)
Lemma hw_params_rejects_witness :
  csky_i2s_hw_params fixed_clk_set_rate fixed_clk_get_rate 3 1 0 2
    0 3 16 48000 16 dma_stream_48k = Some (- EINVAL, dma_stream_48k).
Proof.
  apply hw_params_rejects. left. lia.
Defined.

(** A 16-bit stereo call on the controller whose master clock is 10 MHz
    fails in the rate request, and has set the bus width to 4 and written
    [IIS_FSSTA] all the same. *)
Lemma hw_params_effects_witness :
  exists d',
    csky_i2s_hw_params fixed_clk_set_rate fixed_clk_get_rate 3 1 0 2
      5 2 16 48000 16 dma_stream_10mhz = Some (- EINVAL, d') /\
    addr_width d' = 4 /\
    ctl_written dma_stream_10mhz d' = [ (IIS_FSSTA, fssta_with 3 1 5 0) ].
Proof.
  eexists.
  split; [reflexivity |].
  destruct (hw_params_effects fixed_clk_set_rate fixed_clk_get_rate
              3 1 0 2 5 2 16 48000 16 dma_stream_10mhz (- EINVAL) _
              ltac:(lia) ltac:(lia) eq_refl) as (_ & H2 & H3 & _).
  split; [exact H2 | exact H3].
Defined.

(** With a two-bit field at bit 1, bit 0 of the value read survives and
    bit 1 becomes that of the resolution code. *)
Lemma fssta_with_bits_witness :
  Z.testbit (fssta_with 3 1 5 2) 0 = Z.testbit 5 0 /\
  Z.testbit (fssta_with 3 1 5 2) 1 = Z.testbit 2 1.
Proof.
  split.
  - apply (proj2 (proj2 (proj2 (fssta_with_bits 3 1 5 2 0 ltac:(lia)))));
      reflexivity.
  - apply (proj1 (proj2 (proj2 (fssta_with_bits 3 1 5 2 1 ltac:(lia)))));
      reflexivity.
Defined.

(** After the failing call above, a start command hands the rate 48000
    to the HDMI code. *)
Lemma hw_params_then_start_hdmi_witness :
  exists v d1 d2,
    csky_i2s_hw_params fixed_clk_set_rate fixed_clk_get_rate 3 1 0 2
      5 2 16 48000 16 dma_stream_10mhz = Some (v, d1) /\
    csky_i2s_trigger 1 1 1 true SNDRV_PCM_STREAM_PLAYBACK
      SNDRV_PCM_TRIGGER_START d1 = Some (0, d2) /\
    hdmi d2 = [ (48000, SND_SOC_DAIFMT_I2S) ].
Proof.
  exact (hw_params_then_start_hdmi fixed_clk_set_rate fixed_clk_get_rate
           3 1 0 2 1 1 1 true 5 2 16 48000 16 dma_stream_10mhz
           eq_refl eq_refl eq_refl ltac:(concrete) ltac:(lia) ltac:(lia)
           ltac:(lia)).
Defined.

(** ** A controller with a clock of its own *)

Section OwnClock.

Context {clk : Type}.
Variable clk_set_rate : clk -> Z -> clk * Z.
Variable clk_get_rate : clk -> Z.
Implicit Types s : csky_i2s clk.

Local Abbreviation select_clk := (select_i2s_clk clk_set_rate clk_get_rate).
Local Abbreviation set_clk_rate :=
  (csky_i2s_set_clk_rate clk_set_rate clk_get_rate).

Lemma rate_48k_family_test rate :
  rate_48k_family rate ->
  (rate =? 8000) || (rate =? 16000) || (rate =? 32000) ||
  (rate =? 48000) || (rate =? 96000) = true.
Proof.
  intros [-> | [-> | [-> | [-> | ->]]]]; reflexivity.
Qed.

Lemma rate_44k_family_test rate :
  rate_44k_family rate ->
  (rate =? 8000) || (rate =? 16000) || (rate =? 32000) ||
  (rate =? 48000) || (rate =? 96000) = false /\
  (rate =? 11025) || (rate =? 22050) || (rate =? 44100) ||
  (rate =? 88200) = true.
Proof.
  intros [-> | [-> | [-> | ->]]]; split; reflexivity.
Qed.

Lemma rate_no_family_test rate :
  ~ rate_48k_family rate -> ~ rate_44k_family rate ->
  (rate =? 8000) || (rate =? 16000) || (rate =? 32000) ||
  (rate =? 48000) || (rate =? 96000) = false /\
  (rate =? 11025) || (rate =? 22050) || (rate =? 44100) ||
  (rate =? 88200) = false.
Proof.
  unfold rate_48k_family, rate_44k_family. intros H48 H44.
  destruct (Z.eqb_spec rate 8000), (Z.eqb_spec rate 16000),
    (Z.eqb_spec rate 32000), (Z.eqb_spec rate 48000),
    (Z.eqb_spec rate 96000); try (exfalso; tauto);
    destruct (Z.eqb_spec rate 11025), (Z.eqb_spec rate 22050),
      (Z.eqb_spec rate 44100), (Z.eqb_spec rate 88200);
    try (exfalso; tauto); split; reflexivity.
Qed.

(** X19.  On a controller with a clock of its own, a rate outside the
    two families is rejected with [-EINVAL] and nothing at all changes,
    the clock included.  For a rate of a family the clock is asked for
    [clk_fs_48k] or [clk_fs_44k]; if it refuses, its status is returned
    and the source clock is as before; if it grants the rate, the
    request is decided by the rate read back from the clock, not by the
    source clock the structure held. *)
Theorem set_clk_rate_own_clock rate ws s c :
  i2s_clk s = Some c ->
  is_u32 (mclk s) ->
  0 < rate ->
  (~ rate_48k_family rate -> ~ rate_44k_family rate ->
   set_clk_rate rate ws s = Some (- EINVAL, s)) /\
  (forall f c' r,
     (rate_48k_family rate /\ f = clk_fs_48k s) \/
     (rate_44k_family rate /\ f = clk_fs_44k s) ->
     clk_set_rate c f = (c', r) ->
     (r <> 0 ->
      set_clk_rate rate ws s = Some (r, set_i2s_clk (Some c') s)) /\
     (r = 0 ->
      let s1 := set_src_clk (u32 (clk_get_rate c'))
                  (set_i2s_clk (Some c') s) in
      set_clk_rate rate ws s =
      Some (plan_ret (plan_of rate s1),
            apply_plan rate (plan_of rate s1) s1))).
Proof.
  intros Hc Hm Hr. split.
  - intros H48 H44.
    destruct (rate_no_family_test rate H48 H44) as [E1 E2].
    unfold csky_i2s_set_clk_rate, select_i2s_clk, bind, gets, ret.
    rewrite Hc, E1, E2. reflexivity.
  - intros f c' r Hfam Hset.
    assert (Hsel : select_clk rate s =
                   if negb (r =? 0)
                   then Some (Some r, set_i2s_clk (Some c') s)
                   else Some (None,
                              set_src_clk (u32 (clk_get_rate c'))
                                (set_i2s_clk (Some c') s))).
    { unfold select_i2s_clk, retarget_i2s_clk, bind, gets, ret, modify.
      rewrite Hc.
      destruct Hfam as [[Hf ->] | [Hf ->]].
      - rewrite (rate_48k_family_test rate Hf), Hset.
        destruct (negb (r =? 0)); reflexivity.
      - destruct (rate_44k_family_test rate Hf) as [-> ->].
        rewrite Hset. destruct (negb (r =? 0)); reflexivity. }
    split.
    + intros Hne. rewrite set_clk_rate_unfold, Hsel.
      destruct (Z.eqb_spec r 0); [contradiction | reflexivity].
    + intros ->. cbn [Z.eqb negb] in Hsel. cbv zeta.
      rewrite set_clk_rate_unfold, Hsel.
      apply program_dividers_plan; [assumption |].
      split; [apply u32_range | exact Hm].
Qed.

End OwnClock.

(** The controller that owns its clock, asked for 44.1 kHz: the clock
    grants 22.5792 MHz and the request succeeds; asked for 12 kHz it
    refuses without touching anything. *)
Lemma set_clk_rate_own_clock_witness :
  csky_i2s_set_clk_rate fixed_clk_set_rate fixed_clk_get_rate
    12000 16 v1_1_own_clk = Some (- EINVAL, v1_1_own_clk) /\
  exists s',
    csky_i2s_set_clk_rate fixed_clk_set_rate fixed_clk_get_rate
      44100 16 v1_1_own_clk = Some (0, s') /\
    src_clk s' = 22579200.
Proof.
  destruct (set_clk_rate_own_clock fixed_clk_set_rate fixed_clk_get_rate
              44100 16 v1_1_own_clk 22579200 eq_refl ltac:(concrete)
              ltac:(lia)) as [_ H].
  destruct (set_clk_rate_own_clock fixed_clk_set_rate fixed_clk_get_rate
              12000 16 v1_1_own_clk 22579200 eq_refl ltac:(concrete)
              ltac:(lia)) as [H0 _].
  split.
  - apply H0; [unfold rate_48k_family | unfold rate_44k_family]; lia.
  - destruct (H 22579200 22579200 0) as [_ H2].
    + right. split; [unfold rate_44k_family; lia | reflexivity].
    + reflexivity.
    + eexists. split; [exact (H2 eq_refl) | reflexivity].
Defined.
